(** * Solana token risk scanner: a shallow embedding of [Scanner.py] and
      [scanner1.py], and the properties of the funding-provenance trace.

    The two source files are two versions of one class,
    [SolanaTokenScanner].  Each is embedded in a module of its own
    ([Scanner], [Scanner1]); the three methods whose text is the same in
    both files ([_get], [_normalize_transfers_list],
    [analyze_dispersion_pattern]) are embedded once, in [Common].

    Python values that come from the data provider are JSON documents;
    they are modelled by [Py.pyval].  Python exceptions are modelled by
    [Py.result]; the remote provider, the clock and [time.sleep] by an
    explicit world that every effectful method threads through. *)

From Stdlib Require Import ZArith List String Ascii Bool Lia QArith DecimalString Permutation.
Import ListNotations.
Set Warnings "-register-all".
Local Open Scope string_scope.
Local Open Scope Z_scope.

(* ================================================================== *)
(** * Python values and the builtins the scanner uses                  *)
(* ================================================================== *)

Module Py.

(** A decoded JSON document, as [response.json()] returns it.  Numbers
    are integers: the scanner does no arithmetic on provider numbers, it
    only tests them for truth and compares them.  A Python [str] is
    Unicode text; it is held as its UTF-8 encoding, one byte per
    [ascii].  Equality, concatenation, the order of [<], the search for
    a substring and the replacement of an ASCII character are the same
    on the encoding as on the text; the length and the iteration go by
    characters ([code_points], [chars]); [str.lower()], which folds
    letters of every script, is taken from the interpreter
    ([str_lower]).  A [PDict] lists the bindings of the dict; a key is
    bound at most once in a decoded document and [lookup] takes the
    first binding. *)
Inductive pyval : Type :=
| PNone
| PBool (b : bool)
| PInt (n : Z)
| PStr (s : string)
| PList (l : list pyval)
| PDict (kvs : list (string * pyval)).

(** The exceptions the modelled code can raise. *)
Inductive exn : Type :=
| AttributeError | TypeError | ValueError | KeyError | IndexError | UnboundLocalError.

Inductive result (A : Type) : Type :=
| Ok (a : A)
| Raise (e : exn).
Arguments Ok {A} a.
Arguments Raise {A} e.

Definition rbind {A B} (r : result A) (k : A -> result B) : result B :=
  match r with
  | Ok a => k a
  | Raise e => Raise e
  end.

Declare Scope py_scope.
Delimit Scope py_scope with py.
Notation "x <~ c ;; k" := (rbind c (fun x => k))
  (at level 61, c at next level, right associativity) : py_scope.
Notation "' pat <~ c ;; k" := (rbind c (fun x => match x with pat => k end))
  (at level 61, pat pattern, c at next level, right associativity) : py_scope.
Local Open Scope py_scope.

(** [bool(v)]: the truth value Python gives to [v] in [if v] and
    [not v]. *)
Definition truthy (v : pyval) : bool :=
  match v with
  | PNone => false
  | PBool b => b
  | PInt n => negb (n =? 0)
  | PStr s => negb (s =? "")%string
  | PList l => match l with [] => false | _ :: _ => true end
  | PDict kvs => match kvs with [] => false | _ :: _ => true end
  end.

(** [a or b] *)
Definition py_or (a b : pyval) : pyval := if truthy a then a else b.

Fixpoint lookup (k : string) (kvs : list (string * pyval)) : option pyval :=
  match kvs with
  | [] => None
  | (k', v) :: rest => if (k =? k')%string then Some v else lookup k rest
  end.

(** [d.get(k, default)]; only a dict has the method. *)
Definition get_default (d : pyval) (k : string) (default : pyval) : result pyval :=
  match d with
  | PDict kvs => Ok (match lookup k kvs with Some v => v | None => default end)
  | _ => Raise AttributeError
  end.

(** [d.get(k)] *)
Definition get (d : pyval) (k : string) : result pyval := get_default d k PNone.

(** Whether a byte of the encoding continues a character (the bytes
    [10xxxxxx]); every other byte starts one. *)
Definition is_continuation (c : ascii) : bool :=
  let n := nat_of_ascii c in
  ((128 <=? n) && (n <? 192))%nat.

(** The number of characters of a text. *)
Fixpoint code_points (s : string) : nat :=
  match s with
  | EmptyString => O
  | String c s' => ((if is_continuation c then 0 else 1) + code_points s')%nat
  end.

(** [len(v)] *)
Definition len (v : pyval) : result Z :=
  match v with
  | PStr s => Ok (Z.of_nat (code_points s))
  | PList l => Ok (Z.of_nat (List.length l))
  | PDict kvs => Ok (Z.of_nat (List.length kvs))
  | _ => Raise TypeError
  end.

(** The characters of a text, each with the bytes that continue it:
    from the right, the bytes met since the last start of a character,
    and the characters completed. *)
Fixpoint split_chars (s : string) : string * list pyval :=
  match s with
  | EmptyString => (EmptyString, [])
  | String c s' =>
      let '(pending, done) := split_chars s' in
      if is_continuation c then (String c pending, done)
      else (EmptyString, PStr (String c pending) :: done)
  end.

Definition chars (s : string) : list pyval := snd (split_chars s).

(** The elements [for t in v] runs through: the items of a list, the
    keys of a dict, the characters of a string. *)
Definition iter (v : pyval) : result (list pyval) :=
  match v with
  | PList l => Ok l
  | PDict kvs => Ok (map (fun kv => PStr (fst kv)) kvs)
  | PStr s => Ok (chars s)
  | _ => Raise TypeError
  end.

(** [a == b].  [True == 1] and [False == 0] hold in Python; dicts are
    equal when they bind the same keys to equal values. *)
Fixpoint py_eq (a b : pyval) {struct a} : bool :=
  match a, b with
  | PNone, PNone => true
  | PBool x, PBool y => Bool.eqb x y
  | PBool x, PInt y => (if x then 1 else 0) =? y
  | PInt x, PBool y => x =? (if y then 1 else 0)
  | PInt x, PInt y => x =? y
  | PStr x, PStr y => (x =? y)%string
  | PList xs, PList ys =>
      (fix go (xs ys : list pyval) {struct xs} : bool :=
         match xs, ys with
         | [], [] => true
         | x :: xs', y :: ys' => py_eq x y && go xs' ys'
         | _, _ => false
         end) xs ys
  | PDict kvs, PDict kws =>
      (List.length kvs =? List.length kws)%nat &&
      (fix go (kvs : list (string * pyval)) {struct kvs} : bool :=
         match kvs with
         | [] => true
         | (k, v) :: rest =>
             match lookup k kws with
             | Some w => py_eq v w
             | None => false
             end && go rest
         end) kvs
  | _, _ => false
  end.

(** [a < b] as [sorted] uses it on its keys.  Strings compare by
    character code (the order of the encodings is the order of the
    texts), numbers (and booleans) by value; any other pair is
    modelled as unordered ([TypeError]): that is what Python does for
    [None] and for dicts, and for a string against a number.  (Python
    also orders lists; a list as a sort key is outside this model.) *)
Definition py_lt (a b : pyval) : result bool :=
  match a, b with
  | PStr x, PStr y => Ok (String.ltb x y)
  | PInt x, PInt y => Ok (x <? y)
  | PInt x, PBool y => Ok (x <? (if y then 1 else 0))
  | PBool x, PInt y => Ok ((if x then 1 else 0) <? y)
  | PBool x, PBool y => Ok ((if x then 1 else 0) <? (if y then 1 else 0))
  | _, _ => Raise TypeError
  end.

(** [sorted(l, key=...)]: a stable sort that compares keys with [<]
    only.  The items come paired with their keys.  A run of fewer than
    two items compares nothing, so it cannot raise. *)
Fixpoint insert_by_key (x : pyval * pyval) (l : list (pyval * pyval))
  : result (list (pyval * pyval)) :=
  match l with
  | [] => Ok [x]
  | y :: l' =>
      lt <~ py_lt (fst y) (fst x) ;;
      if lt then (r <~ insert_by_key x l' ;; Ok (y :: r))
      else Ok (x :: y :: l')
  end.

Fixpoint sort_by_key (l : list (pyval * pyval)) : result (list (pyval * pyval)) :=
  match l with
  | [] => Ok []
  | x :: l' => r <~ sort_by_key l' ;; insert_by_key x r
  end.

Definition sorted (key : pyval -> result pyval) (l : list pyval) : result (list pyval) :=
  keyed <~ (fix keys (l : list pyval) : result (list (pyval * pyval)) :=
              match l with
              | [] => Ok []
              | x :: l' => k <~ key x ;; r <~ keys l' ;; Ok ((k, x) :: r)
              end) l ;;
  r <~ sort_by_key keyed ;;
  Ok (map snd r).

(** [needle in hay] for two strings: a text occurs in another exactly
    when its encoding occurs in the encoding of the other. *)
Fixpoint contains (needle hay : string) : bool :=
  String.prefix needle hay ||
  match hay with
  | EmptyString => false
  | String _ hay' => contains needle hay'
  end.

(** [any(k in name for k in keywords)] *)
Definition any_in (keywords : list string) (name : string) : bool :=
  existsb (fun k => contains k name) keywords.

(** [ts.replace('Z', '+00:00')] *)
Fixpoint replace_Z (s : string) : string :=
  match s with
  | EmptyString => EmptyString
  | String c s' =>
      if Ascii.eqb c "Z"%char then "+00:00" ++ replace_Z s'
      else String c (replace_Z s')
  end.

(** [lit + v] for a string literal: only a string can be appended. *)
Definition concat (lit : string) (v : pyval) : result string :=
  match v with
  | PStr s => Ok (lit ++ s)
  | _ => Raise TypeError
  end.

(** [l.append(x)] *)
Definition append {A} (l : list A) (x : A) : list A := (l ++ [x])%list.

(** [l[0]] *)
Definition first {A} (l : list A) : result A :=
  match l with
  | x :: _ => Ok x
  | [] => Raise IndexError
  end.

(** [[t for t in l if t.get(k)]] *)
Fixpoint filter_get (k : string) (l : list pyval) : result (list pyval) :=
  match l with
  | [] => Ok []
  | t :: l' =>
      v <~ get t k ;;
      r <~ filter_get k l' ;;
      Ok (if truthy v then t :: r else r)
  end.

(** [" ".join(parts)] *)
Fixpoint join (sep : string) (parts : list string) : string :=
  match parts with
  | [] => ""
  | [p] => p
  | p :: rest => p ++ sep ++ join sep rest
  end.

(** [str(n)] for an int. *)
Definition str_int (n : Z) : string := NilZero.string_of_int (Z.to_int n).

(** ** Dates *)

(** A [datetime]: the wall-clock reading in microseconds, and the UTC
    offset (also in microseconds) when the value is timezone-aware. *)
Record datetime : Type := mk_datetime {
  wall : Z;
  utcoffset : option Z
}.

(** [dt.replace(tzinfo=None)] *)
Definition drop_tzinfo (d : datetime) : datetime := mk_datetime (wall d) None.

(** [a - b], a [timedelta] given in microseconds.  Python refuses to
    subtract a naive from an aware value. *)
Definition dt_sub (a b : datetime) : result Z :=
  match utcoffset a, utcoffset b with
  | None, None => Ok (wall a - wall b)
  | Some oa, Some ob => Ok ((wall a - oa) - (wall b - ob))
  | _, _ => Raise TypeError
  end.

Definition us_per_day : Z := 86400 * 1000000.

(** [delta.days] and [delta.seconds]: a timedelta is normalised so that
    [0 <= seconds < 86400], the days carrying the sign. *)
Definition td_days (delta : Z) : Z := delta / us_per_day.
Definition td_seconds (delta : Z) : Z := (delta mod us_per_day) / 1000000.

(** What the interpreter and its library provide and the model takes as
    given: the parser of ISO-8601 dates, [repr] of a list or dict, and
    [str.lower()] with its table of the letters of every script. *)
Record Runtime : Type := {
  fromisoformat : string -> result datetime;
  repr_container : pyval -> string;
  str_lower : string -> string
}.

(** [str(v)], as an f-string formats [v]. *)
Definition str (rt : Runtime) (v : pyval) : string :=
  match v with
  | PNone => "None"
  | PBool true => "True"
  | PBool false => "False"
  | PInt n => str_int n
  | PStr s => s
  | PList _ | PDict _ => repr_container rt v
  end.

End Py.

(* ================================================================== *)
(** * Effects: the provider, the clock, and exceptions                 *)
(* ================================================================== *)

Module Eff.
Import Py.

(** One call of [requests.get(url, headers=..., params=...)]. *)
Record request : Type := mk_request {
  url : string;
  headers : list (string * string);
  params : option (list (string * pyval))
}.

(** What the scanner reads of a response: [status_code], and the
    document [json()] decodes ([None] when decoding raises). *)
Record response : Type := mk_response {
  status_code : Z;
  json : option pyval
}.

(** The outside world, over a state [W] of its own.  [requests_get]
    answers [None] when the call raises instead of returning; the two
    clocks give the local and the UTC wall-clock reading in
    microseconds; [time_sleep] (in milliseconds) lets time pass. *)
Record Provider (W : Type) : Type := {
  requests_get : request -> W -> option response * W;
  clock_local : W -> Z * W;
  clock_utc : W -> Z * W;
  time_sleep : Z -> W -> W
}.
Arguments requests_get {W} _ _ _.
Arguments clock_local {W} _ _.
Arguments clock_utc {W} _ _.
Arguments time_sleep {W} _ _ _.

(** The state a method runs in: the world, and the calls of
    [requests.get] made so far, oldest first. *)
Record state (W : Type) : Type := mk_state {
  world : W;
  sent : list request
}.
Arguments mk_state {W} _ _.
Arguments world {W} _.
Arguments sent {W} _.

(** A method body: it returns or raises, and leaves a state behind. *)
Definition M (W A : Type) : Type := state W -> result A * state W.

Definition ret {W A} (a : A) : M W A := fun s => (Ok a, s).

Definition bind {W A B} (c : M W A) (k : A -> M W B) : M W B :=
  fun s =>
    match c s with
    | (Ok a, s') => k a s'
    | (Raise e, s') => (Raise e, s')
    end.

Definition raise {W A} (e : exn) : M W A := fun s => (Raise e, s).

(** A pure computation that may raise, run inside a method. *)
Definition lift {W A} (r : result A) : M W A := fun s => (r, s).

(** [try: c  except Exception: handler] *)
Definition try_except {W A} (c : M W A) (handler : exn -> M W A) : M W A :=
  fun s =>
    match c s with
    | (Ok a, s') => (Ok a, s')
    | (Raise e, s') => handler e s'
    end.

Declare Scope eff_scope.
Delimit Scope eff_scope with eff.
Notation "x <- c ;; k" := (bind c (fun x => k))
  (at level 61, c at next level, right associativity) : eff_scope.
Notation "' pat <- c ;; k" := (bind c (fun x => match x with pat => k end))
  (at level 61, pat pattern, c at next level, right associativity) : eff_scope.
Notation "c ;; k" := (bind c (fun _ => k))
  (at level 61, right associativity) : eff_scope.

Local Open Scope eff_scope.

Section Primitives.
Context {W : Type} (pv : Provider W).

Definition http_get (req : request) : M W (option response) :=
  fun s =>
    let (r, w') := requests_get pv req (world s) in
    (Ok r, mk_state w' (sent s ++ [req])).

Definition sleep (ms : Z) : M W unit :=
  fun s => (Ok tt, mk_state (time_sleep pv ms (world s)) (sent s)).

(** [datetime.now()]: naive local time. *)
Definition datetime_now : M W datetime :=
  fun s =>
    let (t, w') := clock_local pv (world s) in
    (Ok (mk_datetime t None), mk_state w' (sent s)).

(** [datetime.now(timezone.utc)]: aware, offset zero. *)
Definition datetime_now_utc : M W datetime :=
  fun s =>
    let (t, w') := clock_utc pv (world s) in
    (Ok (mk_datetime t (Some 0)), mk_state w' (sent s)).

End Primitives.

(** How one turn of a [for] loop ends: it falls through to the next
    item, or leaves the loop with [break]. *)
Inductive flow : Type := Continue | Break.

(** [for item in items: body], over the variables [S] the body
    updates. *)
Fixpoint for_each {W S} (body : Z -> S -> M W (flow * S)) (items : list Z) (st : S)
  : M W S :=
  match items with
  | [] => ret st
  | item :: rest =>
      ' (f, st') <- body item st ;;
      match f with
      | Break => ret st'
      | Continue => for_each body rest st'
      end
  end.

(** [range(n)] *)
Definition range (n : Z) : list Z := map Z.of_nat (seq 0 (Z.to_nat n)).

End Eff.

(* ================================================================== *)
(** * Methods whose text is the same in both source files              *)
(* ================================================================== *)

Module Common.
Import Py Eff.
Local Open Scope py_scope.
Local Open Scope eff_scope.

(** The fields [__init__] sets on [self]. *)
Record SolanaTokenScanner : Type := mk_scanner {
  base_url : string;
  self_headers : list (string * string);
  cex_keywords : list string
}.

Section Methods.
Context {W : Type} (rt : Runtime) (pv : Provider W) (self : SolanaTokenScanner).

(** [_get]: up to three attempts, one second apart; the document of the
    first answer with status 200.  Every other outcome is [None]: a
    call or a decoding that raises is caught by the [except] clause,
    and after three refusals [raise_for_status()] either raises (caught
    as well) or returns, after which the method falls off its end.
    What [print] writes is not modelled. *)
Fixpoint get_attempts (n : nat) (req : request) : M W pyval :=
  match n with
  | O => ret PNone
  | S n' =>
      r <- http_get pv req ;;
      match r with
      | None => ret PNone
      | Some resp =>
          if status_code resp =? 200 then
            ret (match json resp with Some v => v | None => PNone end)
          else
            sleep pv 1000 ;; get_attempts n' req
      end
  end.

Definition _get (endpoint : string) (params : option (list (string * pyval))) : M W pyval :=
  get_attempts 3 (mk_request (base_url self ++ endpoint) (self_headers self) params).

Definition _normalize_transfers_list (data : pyval) : pyval :=
  if negb (truthy data) then PList []
  else
    match data with
    | PList _ => data
    | PDict kvs => match lookup "transfers" kvs with Some v => v | None => PList [] end
    | _ => PList []
    end.

(** [receivers.add(to_addr)]: a set holds hashable values only, and one
    copy of equal values.  The set is kept as a list without repeats,
    in the order of first insertion. *)
Definition set_add (x : pyval) (s : list pyval) : result (list pyval) :=
  match x with
  | PList _ | PDict _ => Raise TypeError
  | _ => Ok (if existsb (py_eq x) s then s else (s ++ [x])%list)
  end.

(** The [for tx in tx_list] loop of [analyze_dispersion_pattern]. *)
Fixpoint collect_receivers (txs : list pyval) (receivers : list pyval)
  : result (list pyval) :=
  match txs with
  | [] => Ok receivers
  | tx :: rest =>
      to_data <~ get_default tx "toAddress" (PDict []) ;;
      to_addr <~ get to_data "address" ;;
      receivers' <~ (if truthy to_addr then set_add to_addr receivers
                     else Ok receivers) ;;
      collect_receivers rest receivers'
  end.

(** [len(receivers) / len(tx_list)].  Python divides in floating
    point; the quotient of two list lengths compares with 0.5 as the
    exact fraction does (rounding is monotone, 0.5 is a float, and a
    fraction above one half whose denominator is a list length is above
    the float next to 0.5). *)
Definition unique_ratio (n_receivers n_txs : Z) : Q :=
  Qmake n_receivers (Z.to_pos n_txs).

(** What [analyze_dispersion_pattern] does with the normalised list. *)
Definition dispersion_of (tx_list : pyval) : result bool :=
  if negb (truthy tx_list) then Ok false
  else
    n <~ len tx_list ;;
    if n <? 20 then Ok false
    else
      txs <~ iter tx_list ;;
      receivers <~ collect_receivers txs [] ;;
      let n_receivers := Z.of_nat (List.length receivers) in
      if negb (Qle_bool (unique_ratio n_receivers n) (1 # 2)) && (20 <? n_receivers)
      then Ok true
      else Ok false.

Definition analyze_dispersion_pattern (address : pyval) : M W bool :=
  if negb (truthy address) then ret false
  else
    let params := [("from", address); ("chain", PStr "solana"); ("limit", PInt 100)] in
    data <- _get "/transfers" (Some params) ;;
    let tx_list := _normalize_transfers_list data in
    lift (dispersion_of tx_list).

End Methods.

End Common.

(* ================================================================== *)
(** * scanner1.py                                                      *)
(* ================================================================== *)

Module Scanner1.
Import Py Eff Common.
Local Open Scope py_scope.
Local Open Scope eff_scope.

Definition __init__ (api_key : string) : SolanaTokenScanner :=
  mk_scanner "https://api.arkm.com" [("API-Key", api_key)]
    ["binance"; "coinbase"; "kraken"; "okx"; "bybit"; "kucoin"; "gate.io";
     "htx"; "bitget"; "upbit"; "crypto.com"; "circle"; "tether"].

Definition bad_keywords : list string :=
  ["scam"; "phishing"; "rug"; "exploit"; "hack"; "heist"].

(** The dict [check_database_status] returns. *)
Record db_details : Type := mk_db_details {
  entity : string;
  reason : string
}.

Record db_status : Type := mk_db_status {
  status : string;
  risk_score : Z;
  db_label : string;
  db_flags : list string;
  details : db_details
}.

(** The dict [get_address_details] returns. *)
Record address_details : Type := mk_details {
  d_address : pyval;
  creation_time : option datetime;
  funder : pyval;
  funder_entity : pyval;
  tx_count : Z
}.

(** One entry of [chain_info].  The entry of a traced address has every
    key but ["funded_by_entity"], which is set later on some; the entry
    made for a known entity has only six keys.  A key the dict lacks is
    [None] here. *)
Record layer_info : Type := mk_layer {
  layer : Z;
  address : pyval;
  age_days : Z;
  age_hours : option Z;
  is_cex : bool;
  is_verified_old : option bool;
  is_distributor : option bool;
  entity_name : pyval;
  risk_contribution : Z;
  funded_by_entity : option pyval
}.

(** The dict [trace_funding_source] returns. *)
Record trace_result : Type := mk_trace {
  score : Z;
  chain : list layer_info;
  stop_reason : string
}.

Record risk_assessment : Type := mk_risk {
  final_score : Z;
  label : string;
  flags : list string
}.

(** The three shapes of dict [assess_token_risk] returns. *)
Inductive assessment : Type :=
| Known (token : string) (risk : risk_assessment) (d : db_details)
| Error (token : string) (error : string)
| Scanned (token : string) (deployer : pyval) (risk : risk_assessment)
          (trace_log : list string) (stop : string).

Section Methods.
Context {W : Type} (rt : Runtime) (pv : Provider W) (self : SolanaTokenScanner).

(** [entity.get('name', "Unknown") if entity else "Unknown"] *)
Definition name_or_unknown (e : pyval) : result pyval :=
  if truthy e then get_default e "name" (PStr "Unknown") else Ok (PStr "Unknown").

(** [(entity_name + " " + label_name).lower()] *)
Definition full_name_of (entity_name label_name : pyval) : result string :=
  match entity_name, label_name with
  | PStr e, PStr l => Ok (str_lower rt (e ++ " " ++ l))
  | _, _ => Raise TypeError
  end.

(** What [check_database_status] makes of the document found. *)
Definition classify (data : pyval) : result (option db_status) :=
  if negb (truthy data) then Ok None
  else
    entity <~ get data "arkhamEntity" ;;
    label <~ get data "arkhamLabel" ;;
    if negb (truthy entity) && negb (truthy label) then Ok None
    else
      entity_name <~ name_or_unknown entity ;;
      label_name <~ name_or_unknown label ;;
      full_name <~ full_name_of entity_name label_name ;;
      let entity_str := str rt entity_name in
      if any_in bad_keywords full_name then
        Ok (Some (mk_db_status "KNOWN" 100 "HIGH"
                   ["Arkham Database Flagged: " ++ str rt (py_or entity_name label_name)]
                   (mk_db_details entity_str "Database Blacklist")))
      else if any_in (cex_keywords self) full_name then
        Ok (Some (mk_db_status "KNOWN" 0 "LOW"
                   ["Trusted Entity Verified: " ++ entity_str]
                   (mk_db_details entity_str "Trusted Issuer")))
      else if truthy entity then
        Ok (Some (mk_db_status "KNOWN" 10 "LOW"
                   ["Established Project: " ++ entity_str]
                   (mk_db_details entity_str "Known Entity")))
      else Ok None.

Definition check_database_status (token_address : string) : M W (option db_status) :=
  data <- _get pv self ("/intelligence/address/" ++ token_address) None ;;
  lift (classify data).

(** The body of the [try] block of [get_true_age_via_history]. *)
Definition first_history_time (history : list pyval) : result (option datetime) :=
  sorted_history <~ sorted (fun x => get_default x "time" (PStr "9999-12-31")) history ;;
  first_record <~ first sorted_history ;;
  first_ts <~ get first_record "time" ;;
  match first_ts with
  | PStr ts =>
      if truthy first_ts then
        t <~ fromisoformat rt (replace_Z ts) ;; Ok (Some t)
      else Ok None
  | _ => Ok None
  end.

Definition get_true_age_via_history (address : pyval) : M W (option datetime) :=
  let params := [("chain", PStr "solana")] in
  endpoint <- lift (concat "/history/address/" address) ;;
  data <- _get pv self endpoint (Some params) ;;
  if negb (truthy data) then ret None
  else
    history_list <- lift (get data "solana") ;;
    match history_list with
    | PList (record :: records) =>
        match first_history_time (record :: records) with
        | Ok r => ret r
        | Raise _ => ret None
        end
    | _ => ret None
    end.

(** The part of [get_address_details] that reads the transfers found. *)
Definition details_of_transfers (address tx_list : pyval) : result address_details :=
  txs <~ iter tx_list ;;
  valid_txs <~ filter_get "blockTimestamp" txs ;;
  match valid_txs with
  | [] => Ok (mk_details address None PNone PNone 0)
  | _ :: _ =>
      sorted_txs <~ sorted (fun x => get x "blockTimestamp") valid_txs ;;
      first_tx <~ first sorted_txs ;;
      ts <~ get first_tx "blockTimestamp" ;;
      creation_time <~
        (if truthy ts then
           match ts with
           | PStr ts => t <~ fromisoformat rt (replace_Z ts) ;; Ok (Some t)
           | _ => Raise AttributeError
           end
         else Ok None) ;;
      from_data <~ (v <~ get first_tx "fromAddress" ;; Ok (py_or v (PDict []))) ;;
      to_data <~ (v <~ get first_tx "toAddress" ;; Ok (py_or v (PDict []))) ;;
      from_entity <~ (v <~ get first_tx "fromAddressEntity" ;; Ok (py_or v (PDict []))) ;;
      from_label <~ (v <~ get first_tx "fromAddressLabel" ;; Ok (py_or v (PDict []))) ;;
      entity_str <~ get from_entity "name" ;;
      entity_str <~ (if negb (truthy entity_str) then get from_label "name"
                     else Ok entity_str) ;;
      from_addr <~ get from_data "address" ;;
      to_addr <~ get to_data "address" ;;
      let '(funder_address, funder_entity_name) :=
        if py_eq to_addr address && truthy from_addr
        then (from_addr, entity_str) else (PNone, PNone) in
      let '(funder_address, funder_entity_name) :=
        if py_eq funder_address address
        then (PNone, PNone) else (funder_address, funder_entity_name) in
      n <~ len tx_list ;;
      Ok (mk_details address creation_time funder_address funder_entity_name n)
  end.

Definition get_address_details (address : pyval) : M W (option address_details) :=
  if negb (truthy address) then ret None
  else
    let tail := [("chain", PStr "solana"); ("limit", PInt 100);
                 ("sort", PStr "time"); ("order", PStr "asc")] in
    tx_data <- _get pv self "/transfers" (Some (("to", address) :: tail)) ;;
    let tx_list := _normalize_transfers_list tx_data in
    tx_list <- (if negb (truthy tx_list) then
                  tx_data <- _get pv self "/transfers" (Some (tail ++ [("base", address)])%list) ;;
                  ret (_normalize_transfers_list tx_data)
                else ret tx_list) ;;
    if negb (truthy tx_list) then ret (Some (mk_details address None PNone PNone 0))
    else
      d <- lift (details_of_transfers address tx_list) ;;
      ret (Some d).

(** ** [trace_funding_source] *)

(** The variables the loop of [trace_funding_source] updates.  [now] is
    assigned in an iteration that finds a creation time and keeps its
    value afterwards. *)
Record loop_state : Type := mk_loop {
  chain_info : list layer_info;
  current_addr : pyval;
  trace_risk_score : Z;
  trace_stop_reason : string;
  now : option datetime
}.

(** The age of the wallet, from the creation time found. *)
Definition primary_age (st : loop_state) (creation_time : option datetime)
  : M W (Z * Z * option datetime) :=
  match creation_time with
  | Some ct =>
      now <- datetime_now_utc pv ;;
      delta <- lift (dt_sub now ct) ;;
      ret (td_days delta, td_seconds delta / 3600, Some now)
  | None => ret (-1, 0, now st)
  end.

(** The second look at the age: a wallet that seems younger than a day
    with a full page of transfers is looked up in the history. *)
Definition verify_age (address : pyval) (age_days tx_count : Z) (now : option datetime)
  : M W (Z * bool) :=
  if (age_days <? 1) && (100 <=? tx_count) then
    true_creation_time <- get_true_age_via_history address ;;
    match true_creation_time with
    | Some tct =>
        now <- (match now with Some n => ret n | None => raise UnboundLocalError end) ;;
        true_delta <- lift (dt_sub now tct) ;;
        let true_age_days := td_days true_delta in
        ret (true_age_days, 180 <? true_age_days)
    | None => ret (age_days, false)
    end
  else ret (age_days, false).

Definition age_risk_of (depth age_days : Z) (is_verified_old_wallet : bool) : Z :=
  if negb (age_days =? -1) then
    if is_verified_old_wallet then -10
    else if depth =? 0 then
      if age_days <? 7 then 20
      else if age_days <? 14 then 15
      else if age_days <? 30 then 10
      else 0
    else
      if age_days <? 30 then 15
      else if age_days <? 60 then 10
      else 0
  else 0.

Definition add_risk (l : layer_info) (r : Z) : layer_info :=
  mk_layer (layer l) (address l) (age_days l) (age_hours l) (is_cex l)
    (is_verified_old l) (is_distributor l) (entity_name l)
    (risk_contribution l + r) (funded_by_entity l).

Definition set_distributor (l : layer_info) : layer_info :=
  mk_layer (layer l) (address l) (age_days l) (age_hours l) (is_cex l)
    (is_verified_old l) (Some true) (entity_name l)
    (risk_contribution l) (funded_by_entity l).

Definition set_funded_by (l : layer_info) (e : pyval) : layer_info :=
  mk_layer (layer l) (address l) (age_days l) (age_hours l) (is_cex l)
    (is_verified_old l) (is_distributor l) (entity_name l)
    (risk_contribution l) (Some e).

(** The dispersion check of one hop: the entry and the running total
    after it. *)
Definition dispersion_check (depth : Z) (is_verified_old_wallet : bool)
    (l : layer_info) (total : Z) : M W (layer_info * Z) :=
  if 0 <? depth then
    if negb is_verified_old_wallet then
      is_distributor <- analyze_dispersion_pattern pv self (address l) ;;
      if is_distributor then ret (add_risk (set_distributor l) 30, total + 30)
      else ret (l, total)
    else ret (l, total)
  else ret (l, total).

(** One iteration of the [for depth in range(max_depth + 1)] loop.
    The entry is appended to [chain_info] before ["funded_by_entity"]
    is set on it; the list holds the same object, so the entry in the
    list has the key as well. *)
Definition trace_iteration (depth : Z) (st : loop_state) : M W (flow * loop_state) :=
  details <- get_address_details (current_addr st) ;;
  match details with
  | None => ret (Break, st)
  | Some details =>
      let funder := funder details in
      let funder_entity := funder_entity details in
      ' (age_days, age_hours, now) <- primary_age st (creation_time details) ;;
      ' (age_days, is_verified_old_wallet) <-
          verify_age (current_addr st) age_days (tx_count details) now ;;
      let layer_info :=
        mk_layer depth (current_addr st) age_days (Some age_hours) false
          (Some is_verified_old_wallet) (Some false) PNone 0 None in
      let age_risk := age_risk_of depth age_days is_verified_old_wallet in
      let layer_info := add_risk layer_info age_risk in
      let total := trace_risk_score st + age_risk in
      ' (layer_info, total) <-
          dispersion_check depth is_verified_old_wallet layer_info total ;;
      if truthy funder_entity then
        let layer_info := set_funded_by layer_info funder_entity in
        let total := total - 40 in
        let cex_layer :=
          mk_layer (depth + 1) funder (-1) None true None None funder_entity (-20) None in
        let total := total - 20 in
        ret (Break,
             mk_loop (chain_info st ++ [layer_info; cex_layer]) (current_addr st) total
               ("Funded by Known Entity: " ++ str rt funder_entity) now)
      else if negb (truthy funder) then
        ret (Break,
             mk_loop (chain_info st ++ [layer_info]) (current_addr st) total
               "No upstream funder found" now)
      else
        sleep pv 500 ;;
        ret (Continue,
             mk_loop (chain_info st ++ [layer_info]) funder total
               (trace_stop_reason st) now)
  end.

Definition trace_funding_source (start_address : pyval) (max_depth : Z) : M W trace_result :=
  let st := mk_loop [] start_address 0 "Max depth reached" None in
  st <- for_each trace_iteration (range (max_depth + 1)) st ;;
  ret (mk_trace (trace_risk_score st) (chain_info st) (trace_stop_reason st)).

(** ** [assess_token_risk] *)

(** [layer.get(k)] as a condition, for a key that holds a boolean. *)
Definition flag_set (b : option bool) : bool :=
  match b with Some true => true | _ => false end.

(** One turn of the [for layer in funding_analysis['chain']] loop: the
    line added to [chain_desc] and the flags added to [flags]. *)
Definition describe_layer (l : layer_info) : result (string * list string) :=
  let d := layer l in
  let role := if d =? 0 then "Deployer" else "Source-" ++ str_int d in
  if is_cex l then
    Ok ("[" ++ role ++ "] is Known Entity: " ++ str rt (entity_name l) ++ " [SAFE]",
        ["Fund source is " ++ str rt (entity_name l)])
  else
    let desc_parts := ["[" ++ role ++ "]"] in
    ' (desc_parts, flags) <~
      (if flag_set (is_verified_old l) then
         Ok (append desc_parts ("Verified Old Wallet (" ++ str_int (age_days l) ++ " days)"),
             [])
       else if negb (age_days l =? -1) then
         let age_str := str_int (age_days l) ++ "d" in
         age_str <~ (if age_days l =? 0 then
                       match age_hours l with
                       | Some h => Ok (age_str ++ " " ++ str_int h ++ "h")
                       | None => Raise KeyError
                       end
                     else Ok age_str) ;;
         let desc_parts := append desc_parts ("Age: " ++ age_str) in
         if ((d =? 0) && (age_days l <? 30)) || ((0 <? d) && (age_days l <? 60))
         then Ok (desc_parts, [role ++ " is fresh wallet (" ++ age_str ++ ")"])
         else Ok (desc_parts, [])
       else Ok (desc_parts, [])) ;;
    let desc_parts :=
      match funded_by_entity l with
      | Some e => if truthy e then append desc_parts ("<- Funded by: " ++ str rt e)
                  else desc_parts
      | None => desc_parts
      end in
    let '(desc_parts, flags) :=
      if flag_set (is_distributor l)
      then (append desc_parts "[DISTRIBUTOR]",
            append flags (role ++ " suspicious dispersion"))
      else (desc_parts, flags) in
    Ok (join " " desc_parts, flags).

Fixpoint describe_chain (layers : list layer_info) (flags chain_desc : list string)
  : result (list string * list string) :=
  match layers with
  | [] => Ok (flags, chain_desc)
  | l :: rest =>
      ' (desc, new_flags) <~ describe_layer l ;;
      describe_chain rest (flags ++ new_flags)%list (append chain_desc desc)
  end.

(** The last part of [assess_token_risk], from the trace to the
    report. *)
Definition aggregate (token_address : string) (deployer : pyval)
    (funding_analysis : trace_result) : result assessment :=
  let final_score := 0 in
  let final_score := final_score + score funding_analysis in
  let final_score := Z.max 0 (Z.min 100 final_score) in
  let label :=
    if 70 <=? final_score then "HIGH"
    else if 40 <=? final_score then "MEDIUM"
    else "LOW" in
  ' (flags, chain_desc) <~ describe_chain (chain funding_analysis) [] [] ;;
  Ok (Scanned token_address deployer (mk_risk final_score label flags)
        chain_desc (stop_reason funding_analysis)).

(** The deployer, read from the token's transfers. *)
Definition find_deployer (tx_list : pyval) : result (option pyval) :=
  txs <~ iter tx_list ;;
  valid_txs <~ filter_get "blockTimestamp" txs ;;
  match valid_txs with
  | [] => Ok None
  | _ :: _ =>
      sorted_txs <~ sorted (fun x => get x "blockTimestamp") valid_txs ;;
      first_tx <~ first sorted_txs ;;
      from_data <~ (v <~ get first_tx "fromAddress" ;; Ok (py_or v (PDict []))) ;;
      to_data <~ (v <~ get first_tx "toAddress" ;; Ok (py_or v (PDict []))) ;;
      deployer <~ get from_data "address" ;;
      deployer <~ (if negb (truthy deployer) then get to_data "address"
                   else Ok deployer) ;;
      Ok (Some deployer)
  end.

Definition assess_token_risk (token_address : string) : M W assessment :=
  db_status <- check_database_status token_address ;;
  match db_status with
  | Some db =>
      ret (Known token_address
             (mk_risk (risk_score db) (db_label db) (db_flags db)) (details db))
  | None =>
      let token_params :=
        [("base", PStr token_address); ("chain", PStr "solana"); ("limit", PInt 100);
         ("sort", PStr "time"); ("order", PStr "asc")] in
      data <- _get pv self "/transfers" (Some token_params) ;;
      let tx_list := _normalize_transfers_list data in
      if negb (truthy tx_list) then ret (Error token_address "No token history found")
      else
        deployer <- lift (find_deployer tx_list) ;;
        match deployer with
        | None => ret (Error token_address "No valid timestamp data")
        | Some deployer =>
            funding_analysis <- trace_funding_source deployer 3 ;;
            lift (aggregate token_address deployer funding_analysis)
        end
  end.

End Methods.

End Scanner1.

(* ================================================================== *)
(** * Scanner.py                                                       *)
(* ================================================================== *)

Module Scanner.
Import Py Eff Common.
Local Open Scope py_scope.
Local Open Scope eff_scope.

Definition __init__ (api_key : string) : SolanaTokenScanner :=
  mk_scanner "https://api.arkm.com" [("API-Key", api_key)]
    ["binance"; "coinbase"; "kraken"; "okx"; "bybit"; "kucoin"; "gate.io";
     "htx"; "bitget"; "upbit"; "crypto.com"].

Definition bad_keywords : list string :=
  ["scam"; "phish"; "phishing"; "rug"; "rugpull"; "exploit"; "hack"; "heist"].

Record db_details : Type := mk_db_details {
  entity : string;
  reason : string
}.

Record db_status : Type := mk_db_status {
  status : string;
  risk_score : Z;
  db_label : string;
  db_flags : list string;
  details : db_details
}.

Record address_details : Type := mk_details {
  d_address : pyval;
  creation_time : option datetime;
  funder : pyval
}.

(** One entry of [chain_info]; ["entity_name"] is set on the entry of a
    trusted entity only. *)
Record layer_info : Type := mk_layer {
  layer : Z;
  address : pyval;
  age_days : Z;
  is_cex : bool;
  is_distributor : bool;
  risk_contribution : Z;
  entity_name : option pyval
}.

Record trace_result : Type := mk_trace {
  score : Z;
  chain : list layer_info;
  stop_reason : string
}.

Record risk_assessment : Type := mk_risk {
  final_score : Z;
  label : string;
  flags : list string
}.

Inductive assessment : Type :=
| Known (token : string) (risk : risk_assessment) (d : db_details)
| Error (token : string) (error : string)
| Scanned (token : string) (deployer : pyval) (risk : risk_assessment)
          (trace_log : list string) (stop : string).

Section Methods.
Context {W : Type} (rt : Runtime) (pv : Provider W) (self : SolanaTokenScanner).

Definition name_or_unknown (e : pyval) : result pyval :=
  if truthy e then get_default e "name" (PStr "Unknown") else Ok (PStr "Unknown").

Definition full_name_of (entity_name label_name : pyval) : result string :=
  match entity_name, label_name with
  | PStr e, PStr l => Ok (str_lower rt (e ++ " " ++ l))
  | _, _ => Raise TypeError
  end.

(** What [check_database_status] makes of the document found. *)
Definition classify (data : pyval) : result (option db_status) :=
  if negb (truthy data) then Ok None
  else
    entity <~ get data "arkhamEntity" ;;
    label <~ get data "arkhamLabel" ;;
    if negb (truthy entity) && negb (truthy label) then Ok None
    else
      entity_name <~ name_or_unknown entity ;;
      label_name <~ name_or_unknown label ;;
      full_name <~ full_name_of entity_name label_name ;;
      let entity_str := str rt entity_name in
      if any_in bad_keywords full_name then
        Ok (Some (mk_db_status "KNOWN" 100 "HIGH"
                   ["Arkham Database Flagged: " ++ str rt (py_or entity_name label_name)]
                   (mk_db_details entity_str "Database Blacklist")))
      else if any_in (cex_keywords self) full_name then
        Ok (Some (mk_db_status "KNOWN" 0 "LOW"
                   ["Trusted Entity Verified: " ++ entity_str]
                   (mk_db_details entity_str "Trusted Issuer")))
      else if truthy entity then
        Ok (Some (mk_db_status "KNOWN" 0 "LOW"
                   ["Established Project: " ++ entity_str]
                   (mk_db_details entity_str "Known Entity")))
      else Ok None.

Definition check_database_status (token_address : string) : M W (option db_status) :=
  data <- _get pv self ("/intelligence/address/" ++ token_address) None ;;
  lift (classify data).

(** The part of [get_address_details] that reads the transfers found.
    The source and destination are read twice; the second reading,
    [first_tx.get('fromAddress', {}).get('address')], is the one kept,
    and it raises when the key holds [None]. *)
Definition details_of_transfers (address tx_list : pyval) : result address_details :=
  txs <~ iter tx_list ;;
  valid_txs <~ filter_get "blockTimestamp" txs ;;
  match valid_txs with
  | [] => Ok (mk_details address None PNone)
  | _ :: _ =>
      sorted_txs <~ sorted (fun x => get x "blockTimestamp") valid_txs ;;
      first_tx <~ first sorted_txs ;;
      ts <~ get first_tx "blockTimestamp" ;;
      creation_time <~
        (if truthy ts then
           match ts with
           | PStr ts => t <~ fromisoformat rt (replace_Z ts) ;; Ok (Some (drop_tzinfo t))
           | _ => Raise AttributeError
           end
         else Ok None) ;;
      from_data <~ (v <~ get first_tx "fromAddress" ;; Ok (py_or v (PDict []))) ;;
      to_data <~ (v <~ get first_tx "toAddress" ;; Ok (py_or v (PDict []))) ;;
      from_addr <~ get from_data "address" ;;
      to_addr <~ get to_data "address" ;;
      from_addr <~ (d <~ get_default first_tx "fromAddress" (PDict []) ;; get d "address") ;;
      to_addr <~ (d <~ get_default first_tx "toAddress" (PDict []) ;; get d "address") ;;
      let funder_address :=
        if py_eq to_addr address && truthy from_addr then from_addr else PNone in
      let funder_address :=
        if py_eq funder_address address then PNone else funder_address in
      Ok (mk_details address creation_time funder_address)
  end.

Definition get_address_details (address : pyval) : M W (option address_details) :=
  if negb (truthy address) then ret None
  else
    let tail := [("chain", PStr "solana"); ("limit", PInt 100);
                 ("sortKey", PStr "time"); ("sortDir", PStr "asc")] in
    tx_data <- _get pv self "/transfers" (Some (("to", address) :: tail)) ;;
    let tx_list := _normalize_transfers_list tx_data in
    tx_list <- (if negb (truthy tx_list) then
                  tx_data <- _get pv self "/transfers" (Some (("base", address) :: tail)) ;;
                  ret (_normalize_transfers_list tx_data)
                else ret tx_list) ;;
    if negb (truthy tx_list) then ret (Some (mk_details address None PNone))
    else
      d <- lift (details_of_transfers address tx_list) ;;
      ret (Some d).

Definition check_is_known_entity (address : pyval) : M W (bool * pyval) :=
  data <- _get pv self ("/intelligence/address/" ++ str rt address) None ;;
  if truthy data then
    entity <- lift (get data "arkhamEntity") ;;
    if truthy entity then
      name <- lift (get_default entity "name" (PStr "")) ;;
      match name with
      | PStr n =>
          if any_in (cex_keywords self) (str_lower rt n) then
            name <- lift (get entity "name") ;;
            ret (true, name)
          else ret (false, PNone)
      | _ => raise AttributeError
      end
    else ret (false, PNone)
  else ret (false, PNone).

(** ** [trace_funding_source] *)

Record loop_state : Type := mk_loop {
  chain_info : list layer_info;
  current_addr : pyval;
  trace_risk_score : Z;
  trace_stop_reason : string
}.

Definition primary_age (creation_time : option datetime) : M W Z :=
  match creation_time with
  | Some ct =>
      now <- datetime_now pv ;;
      delta <- lift (dt_sub now ct) ;;
      ret (td_days delta)
  | None => ret (-1)
  end.

Definition age_risk_of (depth age_days : Z) : Z :=
  if negb (age_days =? -1) then
    if depth =? 0 then
      if age_days <? 30 then 30
      else if age_days <? 90 then 20
      else if age_days <? 180 then 10
      else 0
    else
      if age_days <? 90 then 20
      else if age_days <? 180 then 10
      else 0
  else 0.

Definition add_risk (l : layer_info) (r : Z) : layer_info :=
  mk_layer (layer l) (address l) (age_days l) (is_cex l) (is_distributor l)
    (risk_contribution l + r) (entity_name l).

Definition set_distributor (l : layer_info) : layer_info :=
  mk_layer (layer l) (address l) (age_days l) (is_cex l) true
    (risk_contribution l) (entity_name l).

(** The entry of a trusted entity: [is_cex], the name, and a
    contribution of -10. *)
Definition set_cex (l : layer_info) (name : pyval) : layer_info :=
  mk_layer (layer l) (address l) (age_days l) true (is_distributor l)
    (-10) (Some name).

(** The known-entity check of one hop, skipped for the deployer: the
    name of the trusted entity the address belongs to, if any. *)
Definition entity_check (depth : Z) (address : pyval) : M W (option pyval) :=
  if 0 <? depth then
    ' (is_known, entity_name) <- check_is_known_entity address ;;
    if is_known then ret (Some entity_name) else ret None
  else ret None.

Definition dispersion_check (depth : Z) (l : layer_info) (total : Z)
  : M W (layer_info * Z) :=
  if 0 <? depth then
    is_distributor <- analyze_dispersion_pattern pv self (address l) ;;
    if is_distributor then ret (add_risk (set_distributor l) 50, total + 50)
    else ret (l, total)
  else ret (l, total).

(** One iteration of the [for depth in range(max_depth + 1)] loop. *)
Definition trace_iteration (depth : Z) (st : loop_state) : M W (flow * loop_state) :=
  details <- get_address_details (current_addr st) ;;
  match details with
  | None => ret (Break, st)
  | Some details =>
      let funder := funder details in
      age_days <- primary_age (creation_time details) ;;
      let layer_info := mk_layer depth (current_addr st) age_days false false 0 None in
      known <- entity_check depth (current_addr st) ;;
      match known with
      | Some entity_name =>
          ret (Break,
               mk_loop (chain_info st ++ [set_cex layer_info entity_name])
                 (current_addr st) (trace_risk_score st - 10)
                 ("Found Trusted Entity: " ++ str rt entity_name))
      | None =>
          let age_risk := age_risk_of depth age_days in
          let layer_info := add_risk layer_info age_risk in
          let total := trace_risk_score st + age_risk in
          ' (layer_info, total) <- dispersion_check depth layer_info total ;;
          if negb (truthy funder) then
            ret (Break,
                 mk_loop (chain_info st ++ [layer_info]) (current_addr st) total
                   "No upstream funder found")
          else
            sleep pv 500 ;;
            ret (Continue,
                 mk_loop (chain_info st ++ [layer_info]) funder total
                   (trace_stop_reason st))
      end
  end.

Definition trace_funding_source (start_address : pyval) (max_depth : Z) : M W trace_result :=
  let st := mk_loop [] start_address 20 "Max depth reached" in
  st <- for_each trace_iteration (range (max_depth + 1)) st ;;
  ret (mk_trace (trace_risk_score st) (chain_info st) (trace_stop_reason st)).

(** ** [assess_token_risk] *)

Definition describe_layer (l : layer_info) : string * list string :=
  let d := layer l in
  let role := if d =? 0 then "Deployer" else "Source-" ++ str_int d in
  let addr_short := str rt (address l) in
  let desc_parts := ["[" ++ role ++ "]"] in
  let desc_parts :=
    if negb (age_days l =? -1)
    then append desc_parts ("Age:" ++ str_int (age_days l) ++ "d")
    else desc_parts in
  let flags :=
    if negb (age_days l =? -1) &&
       (((d =? 0) && (age_days l <? 30)) || ((0 <? d) && (age_days l <? 60)))
    then [role ++ " is fresh wallet (" ++ str_int (age_days l) ++ " days)(Addr: "
            ++ addr_short ++ ")"]
    else [] in
  let '(desc_parts, flags) :=
    if is_cex l then
      (append desc_parts "[CEX/SAFE]",
       append flags ("Funded by Trusted Entity: "
                       ++ str rt (match entity_name l with Some n => n | None => PNone end)
                       ++ "(Addr: " ++ addr_short ++ ")"))
    else if is_distributor l then
      (append desc_parts "[DISTRIBUTOR]",
       append flags (role ++ " shows suspicious dispersion pattern (Addr: "
                       ++ addr_short ++ ")"))
    else (desc_parts, flags) in
  (join " " desc_parts, flags).

Fixpoint describe_chain (layers : list layer_info) (flags chain_desc : list string)
  : list string * list string :=
  match layers with
  | [] => (flags, chain_desc)
  | l :: rest =>
      let '(desc, new_flags) := describe_layer l in
      describe_chain rest (flags ++ new_flags)%list (append chain_desc desc)
  end.

Definition aggregate (token_address : string) (deployer : pyval)
    (funding_analysis : trace_result) : assessment :=
  let final_score := 0 in
  let final_score := final_score + score funding_analysis in
  let final_score := Z.max 0 (Z.min 100 final_score) in
  let label :=
    if 70 <=? final_score then "HIGH"
    else if 30 <=? final_score then "MEDIUM"
    else "LOW" in
  let '(flags, chain_desc) := describe_chain (chain funding_analysis) [] [] in
  Scanned token_address deployer (mk_risk final_score label flags)
    chain_desc (stop_reason funding_analysis).

Definition find_deployer (tx_list : pyval) : result (option pyval) :=
  txs <~ iter tx_list ;;
  valid_txs <~ filter_get "blockTimestamp" txs ;;
  match valid_txs with
  | [] => Ok None
  | _ :: _ =>
      sorted_txs <~ sorted (fun x => get x "blockTimestamp") valid_txs ;;
      first_tx <~ first sorted_txs ;;
      from_data <~ (v <~ get first_tx "fromAddress" ;; Ok (py_or v (PDict []))) ;;
      to_data <~ (v <~ get first_tx "toAddress" ;; Ok (py_or v (PDict []))) ;;
      deployer <~ get from_data "address" ;;
      deployer <~ (if negb (truthy deployer) then get to_data "address"
                   else Ok deployer) ;;
      Ok (Some deployer)
  end.

Definition assess_token_risk (token_address : string) : M W assessment :=
  db_status <- check_database_status token_address ;;
  match db_status with
  | Some db =>
      ret (Known token_address
             (mk_risk (risk_score db) (db_label db) (db_flags db)) (details db))
  | None =>
      let token_params :=
        [("base", PStr token_address); ("chain", PStr "solana"); ("limit", PInt 100);
         ("sortKey", PStr "time"); ("sortDir", PStr "asc")] in
      data <- _get pv self "/transfers" (Some token_params) ;;
      let tx_list := _normalize_transfers_list data in
      if negb (truthy tx_list) then ret (Error token_address "No token history found")
      else
        deployer <- lift (find_deployer tx_list) ;;
        match deployer with
        | None => ret (Error token_address "No valid timestamp data")
        | Some deployer =>
            funding_analysis <- trace_funding_source deployer 3 ;;
            ret (aggregate token_address deployer funding_analysis)
        end
  end.

End Methods.

End Scanner.

(* ================================================================== *)
(** * main.py                                                          *)
(* ================================================================== *)

Module Main.
Import Py Eff Common.
Local Open Scope eff_scope.

(** The tokens [main.py] scans. *)
Definition token_list : list string :=
  ["9DjLxqbtcBts43ZBafukyD7yY48AQu6p8ndMN5Lxpump";
   "BNso1VUJnh4zcfpZa6986Ea66P6TCp59hvtNJ8b1X85";
   "C2omVhcvt3DDY77S2KZzawFJQeETZofgZ4eNWWkXpump";
   "8J69rbLTzWWgUJziFY8jeu5tDwEPBwUz4pKBMr5rpump";
   "Guo2AZPNQZ8z9juiJmzGUZwELncFCJLifgPdEUuypump";
   "FZACBfky96auikzegVAnP5boc24NnYHCJPzy4h8opump";
   "7Y2TPeq3hqw21LRTCi4wBWoivDngCpNNJsN1hzhZpump"].

Section Batch.
Context {W : Type} (rt : Runtime) (pv : Provider W).

(** [str(e)] for the exception caught; the model of exceptions keeps
    their class only, so the text is taken as given. *)
Variable message : exn -> string.

(** The [for token in token_list] loop: every token is assessed inside
    [try], an exception becomes an error entry, and one second passes
    before the next token. *)
Fixpoint scan_tokens (scanner : SolanaTokenScanner) (tokens : list string)
    (results : list Scanner.assessment) : M W (list Scanner.assessment) :=
  match tokens with
  | [] => ret results
  | token :: rest =>
      results <-
        try_except
          (res <- Scanner.assess_token_risk rt pv scanner token ;;
           ret (append results res))
          (fun e => ret (append results (Scanner.Error token (message e)))) ;;
      sleep pv 1000 ;;
      scan_tokens scanner rest results
  end.

(** The script, from the key of [config.py] to the list [results] that
    it prints as JSON (the printing is not modelled). *)
Definition main (api_key : string) : M W (list Scanner.assessment) :=
  let scanner := Scanner.__init__ api_key in
  scan_tokens scanner token_list [].

End Batch.

End Main.

(* ================================================================== *)
(** * A provider with a fixed table of answers                         *)
(* ================================================================== *)

(** Concrete documents for the runs evaluated below: a provider that
    answers from a table, a clock fixed at 2026-11-04 12:00 UTC, a date
    parser that knows the dates of the table, and the lower case of the
    texts of the samples. *)
Module Fixtures.
Import Py Eff Common.

Definition noon : Z := 1793793600000000.

Definition known_dates : list (string * Z) :=
  [("2026-11-04T00:00:00+00:00", 1793750400000000);
   ("2026-10-20T00:00:00+00:00", 1792454400000000);
   ("2026-10-01T00:00:00+00:00", 1790812800000000);
   ("2026-09-01T00:00:00+00:00", 1788220800000000);
   ("2026-04-18T12:00:00+00:00", 1776513600000000);
   ("2025-01-01T00:00:00+00:00", 1735689600000000)].

Fixpoint find_date (s : string) (table : list (string * Z)) : result datetime :=
  match table with
  | [] => Raise ValueError
  | (d, t) :: rest =>
      if (s =? d)%string then Ok (mk_datetime t (Some 0)) else find_date s rest
  end.

(** [str.lower()] on the texts of the samples: the letters A to Z,
    and the Kelvin sign (U+212A, the bytes E2 84 AA), which becomes
    [k]; the samples hold no other character that has a lower case. *)
Definition lower_ascii (c : ascii) : ascii :=
  let n := nat_of_ascii c in
  if ((65 <=? n) && (n <=? 90))%nat then ascii_of_nat (n + 32) else c.

Definition kelvin_sign : string :=
  String (ascii_of_nat 226) (String (ascii_of_nat 132) (String (ascii_of_nat 170) "")).

Fixpoint lower (s : string) : string :=
  match s with
  | EmptyString => EmptyString
  | String c s' =>
      match s' with
      | String c1 (String c2 s'') =>
          if (String c (String c1 (String c2 "")) =? kelvin_sign)%string
          then String "k" (lower s'')
          else String (lower_ascii c) (lower s')
      | _ => String (lower_ascii c) (lower s')
      end
  end.

Definition runtime : Runtime :=
  {| fromisoformat := fun s => find_date s known_dates;
     repr_container := fun _ => "<container>";
     str_lower := lower |}.

Definition addr (a : string) : pyval := PDict [("address", PStr a)].

(** A transfer record with a timestamp, a source and a destination. *)
Definition transfer (ts from to : string) : pyval :=
  PDict [("blockTimestamp", PStr ts); ("fromAddress", addr from); ("toAddress", addr to)].

(** The same, with the entity the provider attaches to the source. *)
Definition transfer_from_entity (ts from to name : string) : pyval :=
  PDict [("blockTimestamp", PStr ts); ("fromAddress", addr from); ("toAddress", addr to);
         ("fromAddressEntity", PDict [("name", PStr name)])].

(** A transfer that arrives from nowhere (a mint). *)
Definition mint (ts to : string) : pyval :=
  PDict [("blockTimestamp", PStr ts); ("toAddress", addr to)].

(** [n] outgoing transfers, to the receivers [R0], [R1], ...,
    [R(k-1)] in turn. *)
Definition fan_out (from : string) (n k : nat) : list pyval :=
  map (fun i => transfer "2026-10-01T00:00:00Z" from ("R" ++ str_int (Z.of_nat (i mod k))))
      (seq 0 n).

(** The receivers of [fan_out], transfer by transfer. *)
Definition fan_out_receivers (n k : nat) : list string :=
  map (fun i => "R" ++ str_int (Z.of_nat (i mod k))) (seq 0 n).

(** The table: the endpoint, the filter of the query (key and address)
    when there is one, and the document served. *)
Definition answers : list (string * option (string * string) * pyval) :=
  [ (* a token whose deployer was funded by a wallet that an exchange funded *)
    ("/transfers", Some ("base", "TOKEN_A"),
       PDict [("transfers", PList [transfer "2026-10-01T00:00:00Z" "DEPLOYER_A" "TOKEN_A"])]);
    ("/transfers", Some ("to", "DEPLOYER_A"),
       PList [transfer "2026-10-20T00:00:00Z" "FUNDER_B" "DEPLOYER_A"]);
    ("/transfers", Some ("to", "FUNDER_B"),
       PList [transfer_from_entity "2026-09-01T00:00:00Z" "EXCHANGE_C" "FUNDER_B" "Binance"]);
    ("/transfers", Some ("from", "FUNDER_B"), PList (fan_out "FUNDER_B" 25 21));
    ("/transfers", Some ("from", "SPENDER_10"), PList (fan_out "SPENDER_10" 25 10));
    ("/transfers", Some ("from", "SMALL_15"), PList (fan_out "SMALL_15" 15 15));
    ("/intelligence/address/EXCHANGE_C", None,
       PDict [("arkhamEntity", PDict [("name", PStr "Binance")])]);
    (* a busy wallet: a full page of transfers of today, an old history *)
    ("/transfers", Some ("to", "HOT_D"),
       PList (repeat (transfer "2026-11-04T00:00:00Z" "SOMEONE" "HOT_D") 100));
    ("/history/address/HOT_D", None,
       PDict [("solana", PList [PDict [("time", PStr "2026-04-18T12:00:00Z")]])]);
    ("/transfers", Some ("from", "HOT_D"), PList (fan_out "HOT_D" 25 21));
    ("/transfers", Some ("to", "DEPLOYER_H"),
       PList [transfer "2026-10-20T00:00:00Z" "HOT_D" "DEPLOYER_H"]);
    (* tokens the database knows *)
    ("/intelligence/address/LABEL_ONLY", None,
       PDict [("arkhamLabel", PDict [("name", PStr "Some Wallet")])]);
    ("/transfers", Some ("base", "LABEL_ONLY"),
       PList [PDict [("blockTimestamp", PStr "2026-10-01T00:00:00Z");
                     ("fromAddress", PDict [("address", PStr "OLD_G")])]]);
    ("/intelligence/address/RAYDIUM", None,
       PDict [("arkhamEntity", PDict [("name", PStr "Raydium")])]);
    (* a token whose deployer the provider knows nothing about *)
    ("/transfers", Some ("base", "TOKEN_E"),
       PList [transfer "2026-10-01T00:00:00Z" "GHOST" "TOKEN_E"]);
    (* a token whose first transfer names no address *)
    ("/transfers", Some ("base", "TOKEN_F"),
       PList [PDict [("blockTimestamp", PStr "2026-10-01T00:00:00Z")]]);
    (* a token deployed from an old wallet that nobody funded *)
    ("/transfers", Some ("base", "TOKEN_G"),
       PList [transfer "2026-10-01T00:00:00Z" "OLD_G" "TOKEN_G"]);
    ("/transfers", Some ("to", "OLD_G"), PList [mint "2025-01-01T00:00:00Z" "OLD_G"]);
    (* a chain of old wallets longer than the walk *)
    ("/transfers", Some ("to", "H0"), PList [transfer "2025-01-01T00:00:00Z" "H1" "H0"]);
    ("/transfers", Some ("to", "H1"), PList [transfer "2025-01-01T00:00:00Z" "H2" "H1"]);
    ("/transfers", Some ("to", "H2"), PList [transfer "2025-01-01T00:00:00Z" "H3" "H2"]);
    ("/transfers", Some ("to", "H3"), PList [transfer "2025-01-01T00:00:00Z" "H4" "H3"]);
    ("/transfers", Some ("to", "H4"), PList [transfer "2025-01-01T00:00:00Z" "H5" "H4"]) ].

Definition param (req : request) (k : string) : option pyval :=
  match params req with
  | Some ps => lookup k ps
  | None => None
  end.

Definition matches (base : string) (req : request)
    (row : string * option (string * string) * pyval) : bool :=
  let '(endpoint, filter, _) := row in
  (url req =? base ++ endpoint)%string &&
  match filter with
  | Some (k, a) =>
      match param req k with
      | Some v => py_eq v (PStr a)
      | None => false
      end
  | None => true
  end.

(** Status 200 with the document of the first row that matches, 404
    when no row does. *)
Definition answer (req : request) : option response :=
  match find (matches "https://api.arkm.com" req) answers with
  | Some (_, _, doc) => Some (mk_response 200 (Some doc))
  | None => Some (mk_response 404 None)
  end.

(** The world has no state of its own: the table and the clock are
    fixed. *)
Definition provider : Provider unit :=
  {| requests_get := fun req w => (answer req, w);
     clock_local := fun w => (noon, w);
     clock_utc := fun w => (noon, w);
     time_sleep := fun _ w => w |}.

Definition start : state unit := mk_state tt [].

Definition scanner1 : SolanaTokenScanner := Scanner1.__init__ "key".
Definition scanner : SolanaTokenScanner := Scanner.__init__ "key".


(** The loop variables of [scanner1.py] at the start of a trace from the
    busy wallet [HOT_D]. *)
Definition at_hot_d : Scanner1.loop_state :=
  Scanner1.mk_loop [] (PStr "HOT_D") 0 "Max depth reached" None.

(** The loop variables of [scanner1.py] on entering depth 1 at the
    wallet [FUNDER_B], with the total the deployer left. *)
Definition at_funder_b : Scanner1.loop_state :=
  Scanner1.mk_loop [] (PStr "FUNDER_B") 10 "Max depth reached" None.

(** What [get_address_details] finds for [FUNDER_B]. *)
Definition funder_b_details : Scanner1.address_details :=
  Scanner1.mk_details (PStr "FUNDER_B")
    (Some (mk_datetime 1788220800000000 (Some 0)))
    (PStr "EXCHANGE_C") (PStr "Binance") 1.

End Fixtures.

(* ================================================================== *)
(** * What one turn of the trace loop does                             *)
(* ================================================================== *)

Module CommonSpec.
Import Py Eff Common.

(** The transfer [tx] names the non-empty string [a] as the address of
    its destination. *)
Definition sends_to (tx : pyval) (a : string) : Prop :=
  a <> "" /\
  exists kvs to_kvs,
    tx = PDict kvs /\
    lookup "toAddress" kvs = Some (PDict to_kvs) /\
    lookup "address" to_kvs = Some (PStr a).

(** The transfer [tx] names no destination: it has no ["toAddress"], or
    one without ["address"], or with an address that is [None] or
    empty. *)
Definition names_no_destination (tx : pyval) : Prop :=
  exists kvs,
    tx = PDict kvs /\
    match lookup "toAddress" kvs with
    | None => True
    | Some (PDict to_kvs) =>
        match lookup "address" to_kvs with
        | None => True
        | Some v => truthy v = false
        end
    | Some _ => False
    end.

(** The destination of a transfer, if it names one. *)
Definition destination_of (tx : pyval) (d : option string) : Prop :=
  match d with
  | Some a => sends_to tx a
  | None => names_no_destination tx
  end.

(** The destinations that a list of transfers names, transfer by
    transfer. *)
Fixpoint named (dests : list (option string)) : list string :=
  match dests with
  | [] => []
  | Some a :: rest => a :: named rest
  | None :: rest => named rest
  end.

(** The number of distinct receivers among the destinations of a list
    of transfers. *)
Definition unique_receivers (addrs : list string) : Z :=
  Z.of_nat (List.length (nodup string_dec addrs)).

(** The share of the distinct receivers in the transfers, as the
    specification words it: uniqueReceivers / totalTransfers, a
    rational number. *)
Definition receiver_share (unique total : Z) : Q :=
  (inject_Z unique / inject_Z total)%Q.

(** The address whose outgoing transfers a request asks for: only the
    dispersion detector sends requests with a ["from"] filter. *)
Definition queried_from (req : request) : option pyval :=
  match params req with
  | Some ps => lookup "from" ps
  | None => None
  end.

(** Every request a method sends satisfies [P], whether the method
    returns or raises; and it only adds to the requests sent. *)
Definition sends {W A : Type} (P : request -> Prop) (c : M W A) : Prop :=
  forall s r s', c s = (r, s') ->
    exists l, sent s' = (sent s ++ l)%list /\ Forall P l.

End CommonSpec.

Module Scanner1Spec.
Import Py Eff Common Scanner1.

(** The entry the loop makes for the address it traces at [depth]:
    [vo] is the verified-old mark and [dist] the distributor mark.  The
    contribution is the age risk, plus 30 on a distributor. *)
Record scored_hop (depth : Z) (addr : pyval) (vo dist : bool) (hop : layer_info)
  : Prop := mk_scored_hop {
  hop_layer : layer hop = depth;
  hop_address : address hop = addr;
  hop_is_cex : is_cex hop = false;
  hop_verified_old : is_verified_old hop = Some vo;
  hop_distributor : is_distributor hop = Some dist;
  hop_gate : dist = true -> 0 < depth /\ vo = false;
  hop_old : vo = true -> 180 < age_days hop;
  hop_risk : risk_contribution hop =
             age_risk_of depth (age_days hop) vo + (if dist then 30 else 0)
}.

(** The entry made for the known entity that funded the address traced
    at [depth]. *)
Record entity_hop (depth : Z) (funder entity : pyval) (cex : layer_info)
  : Prop := mk_entity_hop {
  cex_layer : layer cex = depth + 1;
  cex_address : address cex = funder;
  cex_is_cex : is_cex cex = true;
  cex_entity_name : entity_name cex = entity;
  cex_age_days : age_days cex = -1;
  cex_verified_old : is_verified_old cex = None;
  cex_risk : risk_contribution cex = -20
}.

(** The four ways a turn of the loop ends, given what
    [get_address_details] returned. *)
Inductive outcome (rt : Runtime) (depth : Z) (st : loop_state)
  : option address_details -> flow -> loop_state -> Prop :=
| lookup_failed :
    outcome rt depth st None Break st
| stopped_by_entity d vo dist hop cex now :
    truthy (funder_entity d) = true ->
    scored_hop depth (current_addr st) vo dist hop ->
    funded_by_entity hop = Some (funder_entity d) ->
    entity_hop depth (funder d) (funder_entity d) cex ->
    outcome rt depth st (Some d) Break
      (mk_loop (chain_info st ++ [hop; cex]) (current_addr st)
         (trace_risk_score st + risk_contribution hop - 40 - 20)
         ("Funded by Known Entity: " ++ str rt (funder_entity d)) now)
| stopped_by_no_funder d vo dist hop now :
    truthy (funder_entity d) = false ->
    truthy (funder d) = false ->
    scored_hop depth (current_addr st) vo dist hop ->
    funded_by_entity hop = None ->
    outcome rt depth st (Some d) Break
      (mk_loop (chain_info st ++ [hop]) (current_addr st)
         (trace_risk_score st + risk_contribution hop)
         "No upstream funder found" now)
| advanced d vo dist hop now :
    truthy (funder_entity d) = false ->
    truthy (funder d) = true ->
    scored_hop depth (current_addr st) vo dist hop ->
    funded_by_entity hop = None ->
    outcome rt depth st (Some d) Continue
      (mk_loop (chain_info st ++ [hop]) (funder d)
         (trace_risk_score st + risk_contribution hop)
         (trace_stop_reason st) now).

(** The sum of the contributions the entries of a chain record. *)
Definition contributions (chain : list layer_info) : Z :=
  fold_right (fun hop acc => risk_contribution hop + acc) 0 chain.

(** The layers of a chain are 0, 1, 2, ... in order. *)
Definition consecutive_layers (chain : list layer_info) : Prop :=
  map layer chain = range (Z.of_nat (List.length chain)).

(** The turn that finds a funder with an entity name, as the
    specification words it: a reduction of the running total, and one
    more entry at [depth + 1] that carries a reduction of its own, the
    larger of the two. *)
Definition entity_stop_as_specified (rt : Runtime) (depth : Z) (st : loop_state)
    (d : address_details) (f : flow) (st' : loop_state) : Prop :=
  f = Break /\
  trace_stop_reason st' = "Funded by Known Entity: " ++ str rt (funder_entity d) /\
  exists hop cex reduction own_reduction,
    chain_info st' = (chain_info st ++ [hop; cex])%list /\
    layer hop = depth /\
    layer cex = depth + 1 /\
    is_cex cex = true /\
    risk_contribution cex = - own_reduction /\
    0 < reduction /\
    reduction < own_reduction /\
    trace_risk_score st' =
      trace_risk_score st + risk_contribution hop - reduction - own_reduction.



End Scanner1Spec.

Module ScannerSpec.
Import Py Eff Common Scanner.

(** The entry of an address that is traced and scored at [depth]; the
    contribution is the age risk, plus 50 on a distributor. *)
Record scored_hop (depth : Z) (addr : pyval) (dist : bool) (hop : layer_info)
  : Prop := mk_scored_hop {
  hop_layer : layer hop = depth;
  hop_address : address hop = addr;
  hop_is_cex : is_cex hop = false;
  hop_distributor : is_distributor hop = dist;
  hop_gate : dist = true -> 0 < depth;
  hop_risk : risk_contribution hop =
             age_risk_of depth (age_days hop) + (if dist then 50 else 0)
}.

(** The entry of an address that belongs to a trusted entity. *)
Record trusted_hop (depth : Z) (addr name : pyval) (hop : layer_info)
  : Prop := mk_trusted_hop {
  cex_layer : layer hop = depth;
  cex_depth : 0 < depth;
  cex_address : address hop = addr;
  cex_is_cex : is_cex hop = true;
  cex_entity_name : entity_name hop = Some name;
  cex_distributor : is_distributor hop = false;
  cex_risk : risk_contribution hop = -10
}.

Inductive outcome (rt : Runtime) (depth : Z) (st : loop_state)
  : option address_details -> flow -> loop_state -> Prop :=
| lookup_failed :
    outcome rt depth st None Break st
| stopped_by_entity d name hop :
    trusted_hop depth (current_addr st) name hop ->
    outcome rt depth st (Some d) Break
      (mk_loop (chain_info st ++ [hop]) (current_addr st)
         (trace_risk_score st + risk_contribution hop)
         ("Found Trusted Entity: " ++ str rt name))
| stopped_by_no_funder d dist hop :
    truthy (funder d) = false ->
    scored_hop depth (current_addr st) dist hop ->
    outcome rt depth st (Some d) Break
      (mk_loop (chain_info st ++ [hop]) (current_addr st)
         (trace_risk_score st + risk_contribution hop)
         "No upstream funder found")
| advanced d dist hop :
    truthy (funder d) = true ->
    scored_hop depth (current_addr st) dist hop ->
    outcome rt depth st (Some d) Continue
      (mk_loop (chain_info st ++ [hop]) (funder d)
         (trace_risk_score st + risk_contribution hop)
         (trace_stop_reason st)).

Definition contributions (chain : list layer_info) : Z :=
  fold_right (fun hop acc => risk_contribution hop + acc) 0 chain.

Definition consecutive_layers (chain : list layer_info) : Prop :=
  map layer chain = range (Z.of_nat (List.length chain)).

End ScannerSpec.

Module ReportSpec.
Import Py Eff Common.

(** The ["token"] key, which every dict [assess_token_risk] returns
    has. *)
Definition scanner1_token_of (a : Scanner1.assessment) : string :=
  match a with
  | Scanner1.Known t _ _ => t
  | Scanner1.Error t _ => t
  | Scanner1.Scanned t _ _ _ _ => t
  end.

Definition scanner_token_of (a : Scanner.assessment) : string :=
  match a with
  | Scanner.Known t _ _ => t
  | Scanner.Error t _ => t
  | Scanner.Scanned t _ _ _ _ => t
  end.

(** The ["risk_assessment"] key, which the error dict lacks. *)
Definition scanner1_risk_of (a : Scanner1.assessment) : option Scanner1.risk_assessment :=
  match a with
  | Scanner1.Known _ risk _ => Some risk
  | Scanner1.Error _ _ => None
  | Scanner1.Scanned _ _ risk _ _ => Some risk
  end.

Definition scanner_risk_of (a : Scanner.assessment) : option Scanner.risk_assessment :=
  match a with
  | Scanner.Known _ risk _ => Some risk
  | Scanner.Error _ _ => None
  | Scanner.Scanned _ _ risk _ _ => Some risk
  end.

(** The exceptions that would show a fault of the scanner itself: a
    missing key, an empty list indexed, a variable read before it is
    assigned.  The others come from documents of an unexpected shape. *)
Definition internal_error (e : exn) : bool :=
  match e with
  | KeyError | IndexError | UnboundLocalError => true
  | AttributeError | TypeError | ValueError => false
  end.

(** The exceptions that come from a document of an unexpected shape. *)
Definition external (e : exn) : Prop := internal_error e = false.

(** The entry of a traced address has the key ["age_hours"]. *)
Definition hours_known (hop : Scanner1.layer_info) : Prop :=
  Scanner1.is_cex hop = false -> Scanner1.age_hours hop <> None.

(** The most calls of [requests.get] that the turn of the trace loop at
    [depth] can make: the deployer is looked up for its transfers (and,
    in [scanner1.py], its history), a source for more. *)
Definition scanner1_turn_cost (depth : Z) : nat := if 0 <? depth then 12%nat else 9%nat.
Definition scanner_turn_cost (depth : Z) : nat := if 0 <? depth then 12%nat else 6%nat.

(** An entry of [Scanner.py] that is marked [is_cex] carries the name
    of an entity, and the name contains a keyword of the whitelist. *)
Definition vouched (rt : Runtime) (self : SolanaTokenScanner)
    (hop : Scanner.layer_info) : Prop :=
  Scanner.is_cex hop = true ->
  exists name,
    Scanner.entity_name hop = Some (PStr name) /\
    any_in (cex_keywords self) (str_lower rt name) = true.

(** [first_tx] is the transfer [get_address_details] reads: the first
    of the transfers of [tx_list] that have a timestamp, sorted by
    it. *)
Definition earliest_dated (tx_list first_tx : pyval) : Prop :=
  exists txs valid_txs sorted_txs,
    iter tx_list = Ok txs /\
    filter_get "blockTimestamp" txs = Ok valid_txs /\
    sorted (fun x => get x "blockTimestamp") valid_txs = Ok sorted_txs /\
    first sorted_txs = Ok first_tx.

(** Whenever the computation raises, the exception satisfies [P]. *)
Definition fails_only {A : Type} (P : exn -> Prop) (r : result A) : Prop :=
  forall e, r = Raise e -> P e.

(** Whenever the method raises, the exception satisfies [P]. *)
Definition raises_only {W A : Type} (P : exn -> Prop) (c : M W A) : Prop :=
  forall s e s', c s = (Raise e, s') -> P e.

(** The method makes at most [n] calls of [requests.get], whether it
    returns or raises. *)
Definition calls_at_most {W A : Type} (n : nat) (c : M W A) : Prop :=
  forall s r s', c s = (r, s') ->
    exists l, sent s' = (sent s ++ l)%list /\ (List.length l <= n)%nat.

End ReportSpec.

(** A provider that serves one document, whatever it is asked. *)
Module Samples.
Import Py Eff Common.

Definition serving (doc : pyval) : Provider unit :=
  {| requests_get := fun _ w => (Some (mk_response 200 (Some doc)), w);
     clock_local := fun w => (Fixtures.noon, w);
     clock_utc := fun w => (Fixtures.noon, w);
     time_sleep := fun _ w => w |}.

(** A transfer that names no destination (a burn). *)
Definition burn (from : string) : pyval :=
  PDict [("blockTimestamp", PStr "2026-10-01T00:00:00Z");
         ("fromAddress", Fixtures.addr from)].

(** [n] outgoing transfers to [k] receivers in turn, followed by [m]
    transfers that name no destination; and their destinations. *)
Definition outgoing (n k m : nat) : list pyval :=
  (Fixtures.fan_out "X" n k ++ repeat (burn "X") m)%list.

Definition outgoing_destinations (n k m : nat) : list (option string) :=
  (map Some (Fixtures.fan_out_receivers n k) ++ repeat None m)%list.

(** What the detector answers when the provider serves [n] transfers
    to [k] receivers in turn and [m] transfers without destination. *)
Definition answer_for (n k m : nat) : result bool * state unit :=
  analyze_dispersion_pattern (serving (PList (outgoing n k m)))
    Fixtures.scanner1 (PStr "X") Fixtures.start.

(** Two names written with the Kelvin sign, which [str.lower()] turns
    into the letter k. *)
Definition kelvin_labs : string := "HAC" ++ Fixtures.kelvin_sign ++ " Labs".
Definition kelvin_exchange : string := Fixtures.kelvin_sign ++ "RAKEN".

(** An entity whose name is a number. *)
Definition numbered_entity : pyval :=
  PDict [("arkhamEntity", PDict [("name", PInt 5)])].

(** A history that is a list of numbers instead of records. *)
Definition unreadable_history : pyval :=
  PDict [("solana", PList [PInt 1; PInt 2])].

(** The transfers of a wallet that was funded by a mint: the sender is
    [null]. *)
Definition minted_to (a : string) : pyval :=
  PList [PDict [("blockTimestamp", PStr "2025-01-01T00:00:00Z");
                ("fromAddress", PNone);
                ("toAddress", Fixtures.addr a)]].

End Samples.

(* ================================================================== *)
(** * Reasoning about method bodies                                    *)
(* ================================================================== *)

Module Facts.
Import Py Eff Common.
Local Open Scope py_scope.
Local Open Scope eff_scope.

(** ** Runs that return *)

Section Runs.
Context {W : Type}.

Lemma bind_ok {A B} (c : M W A) (k : A -> M W B) s b s' :
  bind c k s = (Ok b, s') ->
  exists a s1, c s = (Ok a, s1) /\ k a s1 = (Ok b, s').
Proof.
  unfold bind. destruct (c s) as [[a | e] s1]; intros H.
  - exists a, s1. split; [reflexivity | exact H].
  - discriminate H.
Qed.

Lemma ret_ok {A} (a b : A) (s s' : state W) :
  ret a s = (Ok b, s') -> b = a /\ s' = s.
Proof. unfold ret. intros H. inversion H. split; reflexivity. Qed.

Lemma lift_ok {A} (r : result A) (b : A) (s s' : state W) :
  lift r s = (Ok b, s') -> r = Ok b /\ s' = s.
Proof. unfold lift. intros H. inversion H. split; reflexivity. Qed.

Lemma raise_ok {A} (e : exn) (b : A) (s s' : state W) :
  raise e s = (Ok b, s') -> False.
Proof. unfold raise. discriminate. Qed.

Lemma rbind_ok {A B} (r : result A) (k : A -> result B) b :
  rbind r k = Ok b -> exists a, r = Ok a /\ k a = Ok b.
Proof.
  destruct r as [a | e]; simpl; intros H.
  - exists a. split; [reflexivity | exact H].
  - discriminate H.
Qed.

End Runs.

(** Runs a method on concrete inputs and records what it returns. *)
Ltac evaluate run H :=
  let v := eval vm_compute in run in
  assert (H : run = v) by (vm_compute; reflexivity).

(** ** The rule of the [for] loop *)

Section Loop.
Context {W St : Type} (body : Z -> St -> M W (flow * St)).

(** [I i] holds of the variables and the state before the turn of item
    [i]; [Q] holds once the loop is left, by [break] or because the
    items ran out. *)
Variable I : Z -> St -> state W -> Prop.
Variable Q : St -> state W -> Prop.
Variable n : nat.

Hypothesis turn : forall i st s f st' s',
  0 <= i < Z.of_nat n ->
  I i st s ->
  body i st s = (Ok (f, st'), s') ->
  match f with
  | Continue => I (i + 1) st' s'
  | Break => Q st' s'
  end.

Hypothesis exhausted : forall st s, I (Z.of_nat n) st s -> Q st s.

Lemma for_each_from (k i : nat) st s st' s' :
  (i + k = n)%nat ->
  I (Z.of_nat i) st s ->
  for_each body (map Z.of_nat (seq i k)) st s = (Ok st', s') ->
  Q st' s'.
Proof.
  revert i st s. induction k as [| k IH]; intros i st s Hik HI Hrun.
  - simpl in Hrun. apply ret_ok in Hrun. destruct Hrun as [-> ->].
    apply exhausted. replace n with i by lia. exact HI.
  - simpl in Hrun. apply bind_ok in Hrun.
    destruct Hrun as ([f st1] & s1 & Hbody & Hrest).
    pose proof (turn (Z.of_nat i) st s f st1 s1) as Hturn.
    assert (Hrange : 0 <= Z.of_nat i < Z.of_nat n) by lia.
    specialize (Hturn Hrange HI Hbody).
    destruct f.
    + apply (IH (S i) st1 s1); [lia | | exact Hrest].
      replace (Z.of_nat (S i)) with (Z.of_nat i + 1) by lia. exact Hturn.
    + apply ret_ok in Hrest. destruct Hrest as [-> ->]. exact Hturn.
Qed.

Lemma for_each_rule st s st' s' :
  I 0 st s ->
  for_each body (range (Z.of_nat n)) st s = (Ok st', s') ->
  Q st' s'.
Proof.
  intros HI Hrun. unfold range in Hrun. rewrite Nat2Z.id in Hrun.
  apply (for_each_from n 0 st s); [lia | exact HI | exact Hrun].
Qed.

End Loop.

(** ** The requests a method sends *)

Section Log.
Context {W : Type} (pv : Provider W) (self : SolanaTokenScanner).
Import CommonSpec.

Lemma sends_ret {A} P (a : A) : sends P (@ret W A a).
Proof.
  intros s r s' H. inversion H; subst.
  exists []. split; [symmetry; apply app_nil_r | constructor].
Qed.

Lemma sends_lift {A} P (x : result A) : sends P (@lift W A x).
Proof.
  intros s r s' H. inversion H; subst.
  exists []. split; [symmetry; apply app_nil_r | constructor].
Qed.

Lemma sends_raise {A} P e : sends P (@raise W A e).
Proof.
  intros s r s' H. inversion H; subst.
  exists []. split; [symmetry; apply app_nil_r | constructor].
Qed.

Lemma sends_bind {A B} P (c : M W A) (k : A -> M W B) :
  sends P c -> (forall a, sends P (k a)) -> sends P (bind c k).
Proof.
  intros Hc Hk s r s' H. unfold bind in H.
  destruct (c s) as [[a | e] s1] eqn:Ec.
  - destruct (Hc _ _ _ Ec) as (l1 & E1 & F1).
    destruct (Hk a _ _ _ H) as (l2 & E2 & F2).
    exists (l1 ++ l2)%list. split.
    + rewrite E2, E1, app_assoc. reflexivity.
    + apply Forall_app. split; assumption.
  - inversion H; subst. exact (Hc _ _ _ Ec).
Qed.

Lemma sends_weaken {A} (P Q : request -> Prop) (c : M W A) :
  (forall req, P req -> Q req) -> sends P c -> sends Q c.
Proof.
  intros HPQ Hc s r s' H. destruct (Hc _ _ _ H) as (l & E & F).
  exists l. split; [exact E |]. revert F. apply Forall_impl. exact HPQ.
Qed.

Lemma sends_http_get (P : request -> Prop) req : P req -> sends P (http_get pv req).
Proof.
  intros HP s r s' H. unfold http_get in H.
  destruct (requests_get pv req (world s)) as [x w']. inversion H; subst.
  exists [req]. split; [reflexivity | constructor; [exact HP | constructor]].
Qed.

Lemma sends_sleep P ms : sends P (sleep pv ms).
Proof.
  intros s r s' H. inversion H; subst.
  exists []. split; [symmetry; apply app_nil_r | constructor].
Qed.

Lemma sends_datetime_now P : sends P (datetime_now pv).
Proof.
  intros s r s' H. unfold datetime_now in H.
  destruct (clock_local pv (world s)) as [t w']. inversion H; subst.
  exists []. split; [symmetry; apply app_nil_r | constructor].
Qed.

Lemma sends_datetime_now_utc P : sends P (datetime_now_utc pv).
Proof.
  intros s r s' H. unfold datetime_now_utc in H.
  destruct (clock_utc pv (world s)) as [t w']. inversion H; subst.
  exists []. split; [symmetry; apply app_nil_r | constructor].
Qed.

Lemma sends_get_attempts (P : request -> Prop) n req :
  P req -> sends P (get_attempts pv n req).
Proof.
  intros HP. induction n as [| n IH]; simpl.
  - apply sends_ret.
  - apply sends_bind; [apply sends_http_get; exact HP |].
    intros [resp |]; [| apply sends_ret].
    destruct (status_code resp =? 200); [apply sends_ret |].
    apply sends_bind; [apply sends_sleep | intros _; exact IH].
Qed.

Lemma sends_get (P : request -> Prop) endpoint ps :
  P (mk_request (base_url self ++ endpoint) (self_headers self) ps) ->
  sends P (_get pv self endpoint ps).
Proof. intros HP. apply sends_get_attempts. exact HP. Qed.

(** An attempt that is made sends its request first. *)
Lemma get_attempts_sends_first n req s r s' :
  get_attempts pv (S n) req s = (r, s') ->
  exists l, sent s' = (sent s ++ req :: l)%list.
Proof.
  cbn [get_attempts]. unfold bind, http_get.
  destruct (requests_get pv req (world s)) as [[resp |] w'].
  - destruct (status_code resp =? 200).
    + intros H. inversion H; subst. exists []. reflexivity.
    + unfold sleep. intros H.
      destruct (sends_get_attempts (fun _ => True) n req I _ _ _ H) as (l & El & _).
      exists l. rewrite El. cbn [sent]. rewrite <- app_assoc. reflexivity.
  - intros H. inversion H; subst. exists []. reflexivity.
Qed.

(** Called on an address that is not empty, the detector sends a
    request for the transfers that leave it: a call of the detector
    shows in the requests sent. *)
Lemma analyze_sends_some a s r s' :
  truthy a = true ->
  analyze_dispersion_pattern pv self a s = (r, s') ->
  exists req l, sent s' = (sent s ++ req :: l)%list /\ queried_from req = Some a.
Proof.
  intros Ha H. unfold analyze_dispersion_pattern in H. rewrite Ha in H.
  cbn [negb] in H. unfold bind in H.
  destruct (_get pv self "/transfers"
              (Some [("from", a); ("chain", PStr "solana"); ("limit", PInt 100)]) s)
    as [x s1] eqn:Eget.
  unfold _get in Eget. apply get_attempts_sends_first in Eget.
  destruct Eget as (l & El).
  assert (Es : s' = s1).
  { destruct x as [data | e]; [unfold lift in H |]; inversion H; reflexivity. }
  subst s'. eexists. exists l. split; [exact El | reflexivity].
Qed.

(** The detector asks for the transfers that leave the address it is
    given, and for nothing else. *)
Lemma analyze_sends a :
  sends (fun req => queried_from req = Some a) (analyze_dispersion_pattern pv self a).
Proof.
  unfold analyze_dispersion_pattern.
  destruct (negb (truthy a)); [apply sends_ret |].
  apply sends_bind; [apply sends_get; reflexivity | intros data; apply sends_lift].
Qed.

End Log.

(** Splits the goal that a method sends only requests with [P] along
    the structure of the method. *)
Ltac sends_tac :=
  repeat match goal with
  | |- CommonSpec.sends _ (bind _ _) => apply sends_bind; [| intros ?]
  | |- CommonSpec.sends _ (ret _) => apply sends_ret
  | |- CommonSpec.sends _ (lift _) => apply sends_lift
  | |- CommonSpec.sends _ (raise _) => apply sends_raise
  | |- CommonSpec.sends _ (sleep _ _) => apply sends_sleep
  | |- CommonSpec.sends _ (datetime_now _) => apply sends_datetime_now
  | |- CommonSpec.sends _ (datetime_now_utc _) => apply sends_datetime_now_utc
  | |- CommonSpec.sends _ (_get _ _ _ _) => apply sends_get; reflexivity
  | |- CommonSpec.sends _ (if ?b then _ else _) => destruct b
  | |- CommonSpec.sends _ (match ?x with _ => _ end) => destruct x
  end.

(** ** [range] *)

Lemma range_length k : List.length (range k) = Z.to_nat k.
Proof. unfold range. rewrite length_map, length_seq. reflexivity. Qed.

Lemma range_snoc i : 0 <= i -> range (i + 1) = (range i ++ [i])%list.
Proof.
  intros Hi. unfold range.
  replace (Z.to_nat (i + 1)) with (S (Z.to_nat i)) by lia.
  rewrite seq_S, map_app. simpl. rewrite Z2Nat.id by exact Hi. reflexivity.
Qed.

Lemma range_snoc2 i : 0 <= i -> range (i + 2) = (range i ++ [i; i + 1])%list.
Proof.
  intros Hi. replace (i + 2) with (i + 1 + 1) by lia.
  rewrite range_snoc by lia. rewrite range_snoc by exact Hi.
  rewrite <- app_assoc. reflexivity.
Qed.

End Facts.

(* ================================================================== *)
(** * scanner1.py: the trace engine                                    *)
(* ================================================================== *)

Module Scanner1Facts.
Import Py Eff Common CommonSpec Scanner1 Scanner1Spec Facts.
Local Open Scope py_scope.
Local Open Scope eff_scope.

Section Engine.
Context {W : Type} (rt : Runtime) (pv : Provider W) (self : SolanaTokenScanner).

Lemma scanner1_dispersion_check_ok depth vo l total s l' total' s' :
  dispersion_check pv self depth vo l total s = (Ok (l', total'), s') ->
  (l' = l /\ total' = total) \/
  (0 < depth /\ vo = false /\
   l' = add_risk (set_distributor l) 30 /\ total' = total + 30).
Proof.
  unfold dispersion_check.
  destruct (0 <? depth) eqn:Hd.
  - destruct vo; simpl.
    + intros H. apply ret_ok in H. destruct H as [H _]. inversion H. left. split; reflexivity.
    + intros H. apply bind_ok in H. destruct H as (b & s1 & _ & H).
      destruct b; apply ret_ok in H; destruct H as [H _]; inversion H.
      * right. apply Z.ltb_lt in Hd. repeat split; try reflexivity; exact Hd.
      * left. split; reflexivity.
  - intros H. apply ret_ok in H. destruct H as [H _]. inversion H. left. split; reflexivity.
Qed.

(** A wallet is marked verified-old only on a history older than 180
    days. *)
Lemma verify_age_old a age_days tx_count now s age_days' vo s' :
  verify_age rt pv self a age_days tx_count now s = (Ok (age_days', vo), s') ->
  vo = true -> 180 < age_days'.
Proof.
  unfold verify_age.
  destruct ((age_days <? 1) && (100 <=? tx_count)).
  - intros H. apply bind_ok in H. destruct H as (t & s1 & _ & H).
    destruct t as [tct |].
    + apply bind_ok in H. destruct H as (n & s2 & _ & H).
      apply bind_ok in H. destruct H as (delta & s3 & _ & H).
      apply ret_ok in H. destruct H as [H _]. inversion H; subst.
      intros Hvo. apply Z.ltb_lt in Hvo. exact Hvo.
    + apply ret_ok in H. destruct H as [H _]. inversion H; subst. discriminate.
  - intros H. apply ret_ok in H. destruct H as [H _]. inversion H; subst. discriminate.
Qed.

Lemma scanner1_trace_iteration_outcome depth st s f st' s' :
  trace_iteration rt pv self depth st s = (Ok (f, st'), s') ->
  exists d s1,
    get_address_details rt pv self (current_addr st) s = (Ok d, s1) /\
    outcome rt depth st d f st'.
Proof.
  unfold trace_iteration. intros H.
  apply bind_ok in H. destruct H as (d & s1 & Hd & H).
  exists d, s1. split; [exact Hd |].
  destruct d as [d |].
  2:{ apply ret_ok in H. destruct H as [H _]. inversion H. constructor. }
  apply bind_ok in H. destruct H as ([[ad ah] now0] & s2 & _ & H).
  apply bind_ok in H. destruct H as ([ad' vo] & s3 & Hage & H).
  pose proof (verify_age_old _ _ _ _ _ _ _ _ Hage) as Hold. clear Hage.
  apply bind_ok in H. destruct H as ([l' total'] & s4 & Hdisp & H).
  apply scanner1_dispersion_check_ok in Hdisp.
  assert (Hhop : exists dist,
             scored_hop depth (current_addr st) vo dist l' /\
             funded_by_entity l' = None /\
             total' = trace_risk_score st + risk_contribution l').
  { destruct Hdisp as [[-> ->] | (Hpos & -> & -> & ->)].
    - exists false. split; [| split].
      + constructor; simpl; try reflexivity.
        * discriminate.
        * exact Hold.
        * lia.
      + reflexivity.
      + simpl. lia.
    - exists true. split; [| split].
      + constructor; simpl; try reflexivity.
        * intros _. split; [exact Hpos | reflexivity].
        * discriminate.
      + reflexivity.
      + simpl. lia. }
  destruct Hhop as (dist & Hhop & Hfund & ->).
  destruct (truthy (funder_entity d)) eqn:He.
  - apply ret_ok in H. destruct H as [H _]. inversion H; subst f st'.
    replace (trace_risk_score st + risk_contribution l' - 40 - 20)
      with (trace_risk_score st + risk_contribution (set_funded_by l' (funder_entity d)) - 40 - 20)
      by reflexivity.
    apply stopped_by_entity with (vo := vo) (dist := dist).
    + exact He.
    + destruct Hhop. constructor; simpl; assumption.
    + reflexivity.
    + constructor; reflexivity.
  - destruct (truthy (funder d)) eqn:Hf; simpl in H.
    + apply bind_ok in H. destruct H as (u & s5 & _ & H).
      apply ret_ok in H. destruct H as [H _]. inversion H; subst f st'.
      apply advanced with (vo := vo) (dist := dist); assumption.
    + apply ret_ok in H. destruct H as [H _]. inversion H; subst f st'.
      apply stopped_by_no_funder with (vo := vo) (dist := dist); assumption.
Qed.

(** *** The requests of one turn *)

Lemma scanner1_details_quiet a :
  sends (fun req => queried_from req = None) (get_address_details rt pv self a).
Proof. unfold get_address_details. cbv zeta. sends_tac. Qed.

Lemma scanner1_history_quiet a :
  sends (fun req => queried_from req = None) (get_true_age_via_history rt pv self a).
Proof. unfold get_true_age_via_history. cbv zeta. sends_tac. Qed.

Lemma scanner1_primary_age_quiet st ct :
  sends (fun req => queried_from req = None) (primary_age pv st ct).
Proof. unfold primary_age. sends_tac. Qed.

Lemma scanner1_verify_age_quiet a age n now0 :
  sends (fun req => queried_from req = None) (verify_age rt pv self a age n now0).
Proof.
  unfold verify_age.
  destruct ((age <? 1) && (100 <=? n)); [| apply sends_ret].
  apply sends_bind; [apply scanner1_history_quiet |].
  intros [tct |]; sends_tac.
Qed.

(** The detector is called on the address of the entry, and only at a
    depth above 0 on a wallet that is not verified-old. *)
Lemma scanner1_dispersion_check_sends depth vo l total :
  sends (fun req => queried_from req = Some (address l) /\ 0 < depth /\ vo = false)
        (dispersion_check pv self depth vo l total).
Proof.
  unfold dispersion_check.
  destruct (0 <? depth) eqn:Hd; [| apply sends_ret].
  destruct vo; cbn [negb]; [apply sends_ret |].
  apply Z.ltb_lt in Hd.
  apply sends_bind.
  - apply (sends_weaken (fun req => queried_from req = Some (address l))).
    + intros req Hq. repeat split; assumption.
    + apply analyze_sends.
  - intros b. destruct b; apply sends_ret.
Qed.

(** The requests of one turn: a request for outgoing transfers is made
    only at a depth above 0, for the address traced, and the entry the
    turn appends for that address is not verified-old. *)
Lemma scanner1_trace_iteration_log depth st s f st' s' :
  trace_iteration rt pv self depth st s = (Ok (f, st'), s') ->
  exists l,
    sent s' = (sent s ++ l)%list /\
    forall req a, In req l -> queried_from req = Some a ->
      0 < depth /\
      exists hop, In hop (chain_info st') /\ address hop = a /\
                  layer hop = depth /\ is_verified_old hop = Some false.
Proof.
  unfold trace_iteration. intros H.
  apply bind_ok in H. destruct H as (d & s1 & Hd & H).
  destruct (scanner1_details_quiet _ _ _ _ Hd) as (l1 & E1 & F1).
  destruct d as [d |].
  2:{ apply ret_ok in H. destruct H as [_ ->].
    exists l1. split; [exact E1 |].
    intros req a Hin Hq. rewrite Forall_forall in F1.
    rewrite (F1 req Hin) in Hq. discriminate Hq. }
  apply bind_ok in H. destruct H as ([[ad ah] now0] & s2 & Hage & H).
  destruct (scanner1_primary_age_quiet _ _ _ _ _ Hage) as (l2 & E2 & F2).
  apply bind_ok in H. destruct H as ([ad' vo] & s3 & Hver & H).
  destruct (scanner1_verify_age_quiet _ _ _ _ _ _ _ Hver) as (l3 & E3 & F3).
  apply bind_ok in H. destruct H as ([l' total'] & s4 & Hdisp & H).
  destruct (scanner1_dispersion_check_sends _ _ _ _ _ _ _ Hdisp) as (l4 & E4 & F4).
  apply scanner1_dispersion_check_ok in Hdisp.
  assert (Hl' : address l' = current_addr st /\ layer l' = depth /\
                is_verified_old l' = Some vo).
  { destruct Hdisp as [[-> _] | (_ & _ & -> & _)]; repeat split; reflexivity. }
  destruct Hl' as (Haddress & Hlayer & Hold).
  assert (Hend : sent s' = sent s4 /\
                 exists hop, In hop (chain_info st') /\ address hop = current_addr st /\
                             layer hop = depth /\ is_verified_old hop = Some vo).
  { destruct (truthy (funder_entity d)).
    - apply ret_ok in H. destruct H as [H ->]. inversion H; subst f st'.
      split; [reflexivity |].
      exists (set_funded_by l' (funder_entity d)). split.
      + cbn [chain_info]. apply in_or_app. right. left. reflexivity.
      + repeat split; assumption.
    - destruct (negb (truthy (funder d))).
      + apply ret_ok in H. destruct H as [H ->]. inversion H; subst f st'.
        split; [reflexivity |].
        exists l'. split.
        * cbn [chain_info]. apply in_or_app. right. left. reflexivity.
        * repeat split; assumption.
      + apply bind_ok in H. destruct H as (u & s5 & Hsleep & H).
        apply ret_ok in H. destruct H as [H ->]. inversion H; subst f st'.
        unfold sleep in Hsleep. inversion Hsleep; subst s5.
        split; [reflexivity |].
        exists l'. split.
        * cbn [chain_info]. apply in_or_app. right. left. reflexivity.
        * repeat split; assumption. }
  destruct Hend as (Esent & hop & Hin & Ha & Hlay & Hvo).
  exists (l1 ++ l2 ++ l3 ++ l4)%list. split.
  - rewrite Esent, E4, E3, E2, E1. rewrite <- !app_assoc. reflexivity.
  - intros req a Hreq Hq.
    rewrite Forall_forall in F1, F2, F3, F4.
    apply in_app_or in Hreq. destruct Hreq as [Hreq | Hreq].
    { rewrite (F1 req Hreq) in Hq. discriminate Hq. }
    apply in_app_or in Hreq. destruct Hreq as [Hreq | Hreq].
    { rewrite (F2 req Hreq) in Hq. discriminate Hq. }
    apply in_app_or in Hreq. destruct Hreq as [Hreq | Hreq].
    { rewrite (F3 req Hreq) in Hq. discriminate Hq. }
    destruct (F4 req Hreq) as (Hfrom & Hpos & Hfalse).
    split; [exact Hpos |].
    exists hop. split; [exact Hin |].
    rewrite Hfrom in Hq. inversion Hq; subst a.
    split; [| split; [exact Hlay | rewrite Hvo, Hfalse; reflexivity]].
    rewrite Ha. symmetry.
    destruct Hdisp as [[_ _] | (_ & _ & _ & _)]; reflexivity.
Qed.

(** The rule of the whole trace: an invariant of the loop variables
    that every outcome of a turn keeps holds of the trace returned. *)
Lemma scanner1_trace_rule (I : Z -> loop_state -> Prop) (Q : loop_state -> Prop)
    start max_depth s r s' :
  (forall i st d f st',
      0 <= i < Z.of_nat (Z.to_nat (max_depth + 1)) ->
      I i st -> outcome rt i st d f st' ->
      match f with Continue => I (i + 1) st' | Break => Q st' end) ->
  (forall st, I (Z.of_nat (Z.to_nat (max_depth + 1))) st -> Q st) ->
  I 0 (mk_loop [] start 0 "Max depth reached" None) ->
  trace_funding_source rt pv self start max_depth s = (Ok r, s') ->
  exists st, Q st /\
    r = mk_trace (trace_risk_score st) (chain_info st) (trace_stop_reason st).
Proof.
  intros Hturn Hexh Hinit Hrun.
  unfold trace_funding_source in Hrun.
  apply bind_ok in Hrun. destruct Hrun as (st & s1 & Hloop & Hret).
  apply ret_ok in Hret. destruct Hret as [-> _].
  exists st. split; [| reflexivity].
  replace (range (max_depth + 1))
    with (range (Z.of_nat (Z.to_nat (max_depth + 1)))) in Hloop
    by (unfold range; rewrite Nat2Z.id; reflexivity).
  apply (for_each_rule (trace_iteration rt pv self)
           (fun i st _ => I i st) (fun st _ => Q st)
           (Z.to_nat (max_depth + 1))) in Hloop; [exact Hloop | | | exact Hinit].
  - intros i st0 s0 f st0' s0' Hi HI Hbody.
    apply scanner1_trace_iteration_outcome in Hbody.
    destruct Hbody as (d & s2 & _ & Hout).
    exact (Hturn i st0 d f st0' Hi HI Hout).
  - intros st0 _ HI. exact (Hexh st0 HI).
Qed.

End Engine.

End Scanner1Facts.

(* ================================================================== *)
(** * Scanner.py: the trace engine                                     *)
(* ================================================================== *)

Module ScannerFacts.
Import Py Eff Common CommonSpec Scanner ScannerSpec Facts.
Local Open Scope py_scope.
Local Open Scope eff_scope.

Section Engine.
Context {W : Type} (rt : Runtime) (pv : Provider W) (self : SolanaTokenScanner).

Lemma scanner_dispersion_check_ok depth l total s l' total' s' :
  dispersion_check pv self depth l total s = (Ok (l', total'), s') ->
  (l' = l /\ total' = total) \/
  (0 < depth /\ l' = add_risk (set_distributor l) 50 /\ total' = total + 50).
Proof.
  unfold dispersion_check.
  destruct (0 <? depth) eqn:Hd.
  - intros H. apply bind_ok in H. destruct H as (b & s1 & _ & H).
    destruct b; apply ret_ok in H; destruct H as [H _]; inversion H.
    + right. apply Z.ltb_lt in Hd. repeat split; try reflexivity; exact Hd.
    + left. split; reflexivity.
  - intros H. apply ret_ok in H. destruct H as [H _]. inversion H. left. split; reflexivity.
Qed.

Lemma entity_check_ok depth a s name s' :
  entity_check rt pv self depth a s = (Ok (Some name), s') -> 0 < depth.
Proof.
  unfold entity_check. destruct (0 <? depth) eqn:Hd.
  - intros _. apply Z.ltb_lt in Hd. exact Hd.
  - intros H. apply ret_ok in H. destruct H as [H _]. discriminate H.
Qed.

Lemma scanner_trace_iteration_outcome depth st s f st' s' :
  trace_iteration rt pv self depth st s = (Ok (f, st'), s') ->
  exists d s1,
    get_address_details rt pv self (current_addr st) s = (Ok d, s1) /\
    outcome rt depth st d f st'.
Proof.
  unfold trace_iteration. intros H.
  apply bind_ok in H. destruct H as (d & s1 & Hd & H).
  exists d, s1. split; [exact Hd |].
  destruct d as [d |].
  2:{ apply ret_ok in H. destruct H as [H _]. inversion H. constructor. }
  apply bind_ok in H. destruct H as (ad & s2 & _ & H).
  apply bind_ok in H. destruct H as (known & s3 & Hknown & H).
  destruct known as [name |].
  - apply entity_check_ok in Hknown.
    apply ret_ok in H. destruct H as [H _]. inversion H; subst f st'.
    replace (trace_risk_score st - 10)
      with (trace_risk_score st
            + risk_contribution
                (set_cex (mk_layer depth (current_addr st) ad false false 0 None) name))
      by (simpl; lia).
    apply stopped_by_entity. constructor; simpl; try reflexivity. exact Hknown.
  - apply bind_ok in H. destruct H as ([l' total'] & s4 & Hdisp & H).
    apply scanner_dispersion_check_ok in Hdisp.
    assert (Hhop : exists dist,
               scored_hop depth (current_addr st) dist l' /\
               total' = trace_risk_score st + risk_contribution l').
    { destruct Hdisp as [[-> ->] | (Hpos & -> & ->)].
      - exists false. split.
        + constructor; simpl; try reflexivity.
          * discriminate.
          * lia.
        + simpl. lia.
      - exists true. split.
        + constructor; simpl; try reflexivity. intros _. exact Hpos.
        + simpl. lia. }
    destruct Hhop as (dist & Hhop & ->).
    destruct (truthy (funder d)) eqn:Hf; simpl in H.
    + apply bind_ok in H. destruct H as (u & s5 & _ & H).
      apply ret_ok in H. destruct H as [H _]. inversion H; subst f st'.
      apply advanced with (dist := dist); assumption.
    + apply ret_ok in H. destruct H as [H _]. inversion H; subst f st'.
      apply stopped_by_no_funder with (dist := dist); assumption.
Qed.

(** *** The requests of one turn *)

Lemma scanner_details_quiet a :
  sends (fun req => queried_from req = None) (get_address_details rt pv self a).
Proof. unfold get_address_details. cbv zeta. sends_tac. Qed.

Lemma scanner_known_entity_quiet a :
  sends (fun req => queried_from req = None) (check_is_known_entity rt pv self a).
Proof. unfold check_is_known_entity. sends_tac. Qed.

Lemma scanner_entity_check_quiet depth a :
  sends (fun req => queried_from req = None) (entity_check rt pv self depth a).
Proof.
  unfold entity_check. destruct (0 <? depth); [| apply sends_ret].
  apply sends_bind; [apply scanner_known_entity_quiet |].
  intros [is_known name]. destruct is_known; apply sends_ret.
Qed.

Lemma scanner_primary_age_quiet ct :
  sends (fun req => queried_from req = None) (primary_age pv ct).
Proof. unfold primary_age. sends_tac. Qed.

Lemma scanner_dispersion_check_sends depth l total :
  sends (fun req => queried_from req = Some (address l) /\ 0 < depth)
        (dispersion_check pv self depth l total).
Proof.
  unfold dispersion_check.
  destruct (0 <? depth) eqn:Hd; [| apply sends_ret].
  apply Z.ltb_lt in Hd.
  apply sends_bind.
  - apply (sends_weaken (fun req => queried_from req = Some (address l))).
    + intros req Hq. split; assumption.
    + apply analyze_sends.
  - intros b. destruct b; apply sends_ret.
Qed.

(** The requests of one turn of [Scanner.py]: a request for outgoing
    transfers is made only at a depth above 0, for the address traced,
    and the entry of that address is not the entry of a trusted
    entity. *)
Lemma scanner_trace_iteration_log depth st s f st' s' :
  trace_iteration rt pv self depth st s = (Ok (f, st'), s') ->
  exists l,
    sent s' = (sent s ++ l)%list /\
    forall req a, In req l -> queried_from req = Some a ->
      0 < depth /\
      exists hop, In hop (chain_info st') /\ address hop = a /\
                  layer hop = depth /\ is_cex hop = false.
Proof.
  unfold trace_iteration. intros H.
  apply bind_ok in H. destruct H as (d & s1 & Hd & H).
  destruct (scanner_details_quiet _ _ _ _ Hd) as (l1 & E1 & F1).
  rewrite Forall_forall in F1.
  destruct d as [d |].
  2:{ apply ret_ok in H. destruct H as [_ ->].
      exists l1. split; [exact E1 |].
      intros req a Hin Hq. rewrite (F1 req Hin) in Hq. discriminate Hq. }
  apply bind_ok in H. destruct H as (ad & s2 & Hage & H).
  destruct (scanner_primary_age_quiet _ _ _ _ Hage) as (l2 & E2 & F2).
  rewrite Forall_forall in F2.
  apply bind_ok in H. destruct H as (known & s3 & Hknown & H).
  destruct (scanner_entity_check_quiet _ _ _ _ _ Hknown) as (l3 & E3 & F3).
  rewrite Forall_forall in F3.
  destruct known as [name |].
  { apply ret_ok in H. destruct H as [_ ->].
    exists (l1 ++ l2 ++ l3)%list. split.
    - rewrite E3, E2, E1. rewrite <- !app_assoc. reflexivity.
    - intros req a Hreq Hq.
      apply in_app_or in Hreq. destruct Hreq as [Hreq | Hreq].
      { rewrite (F1 req Hreq) in Hq. discriminate Hq. }
      apply in_app_or in Hreq. destruct Hreq as [Hreq | Hreq].
      { rewrite (F2 req Hreq) in Hq. discriminate Hq. }
      rewrite (F3 req Hreq) in Hq. discriminate Hq. }
  apply bind_ok in H. destruct H as ([l' total'] & s4 & Hdisp & H).
  destruct (scanner_dispersion_check_sends _ _ _ _ _ _ Hdisp) as (l4 & E4 & F4).
  rewrite Forall_forall in F4.
  apply scanner_dispersion_check_ok in Hdisp.
  assert (Hl' : address l' = current_addr st /\ layer l' = depth /\ is_cex l' = false).
  { destruct Hdisp as [[-> _] | (_ & -> & _)]; repeat split; reflexivity. }
  destruct Hl' as (Haddress & Hlayer & Hcex).
  assert (Hend : sent s' = sent s4 /\ In l' (chain_info st')).
  { destruct (negb (truthy (funder d))).
    - apply ret_ok in H. destruct H as [H ->]. inversion H; subst f st'.
      split; [reflexivity |].
      cbn [chain_info]. apply in_or_app. right. left. reflexivity.
    - apply bind_ok in H. destruct H as (u & s5 & Hsleep & H).
      apply ret_ok in H. destruct H as [H ->]. inversion H; subst f st'.
      unfold sleep in Hsleep. inversion Hsleep; subst s5.
      split; [reflexivity |].
      cbn [chain_info]. apply in_or_app. right. left. reflexivity. }
  destruct Hend as (Esent & Hin).
  exists (l1 ++ l2 ++ l3 ++ l4)%list. split.
  - rewrite Esent, E4, E3, E2, E1. rewrite <- !app_assoc. reflexivity.
  - intros req a Hreq Hq.
    apply in_app_or in Hreq. destruct Hreq as [Hreq | Hreq].
    { rewrite (F1 req Hreq) in Hq. discriminate Hq. }
    apply in_app_or in Hreq. destruct Hreq as [Hreq | Hreq].
    { rewrite (F2 req Hreq) in Hq. discriminate Hq. }
    apply in_app_or in Hreq. destruct Hreq as [Hreq | Hreq].
    { rewrite (F3 req Hreq) in Hq. discriminate Hq. }
    destruct (F4 req Hreq) as (Hfrom & Hpos).
    split; [exact Hpos |].
    exists l'. split; [exact Hin |].
    rewrite Hfrom in Hq. inversion Hq; subst a.
    split; [| split; [exact Hlayer | exact Hcex]].
    rewrite Haddress. symmetry.
    destruct Hdisp as [[_ _] | (_ & _ & _)]; reflexivity.
Qed.

Lemma scanner_trace_rule (I : Z -> loop_state -> Prop) (Q : loop_state -> Prop)
    start max_depth s r s' :
  (forall i st d f st',
      0 <= i < Z.of_nat (Z.to_nat (max_depth + 1)) ->
      I i st -> outcome rt i st d f st' ->
      match f with Continue => I (i + 1) st' | Break => Q st' end) ->
  (forall st, I (Z.of_nat (Z.to_nat (max_depth + 1))) st -> Q st) ->
  I 0 (mk_loop [] start 20 "Max depth reached") ->
  trace_funding_source rt pv self start max_depth s = (Ok r, s') ->
  exists st, Q st /\
    r = mk_trace (trace_risk_score st) (chain_info st) (trace_stop_reason st).
Proof.
  intros Hturn Hexh Hinit Hrun.
  unfold trace_funding_source in Hrun.
  apply bind_ok in Hrun. destruct Hrun as (st & s1 & Hloop & Hret).
  apply ret_ok in Hret. destruct Hret as [-> _].
  exists st. split; [| reflexivity].
  replace (range (max_depth + 1))
    with (range (Z.of_nat (Z.to_nat (max_depth + 1)))) in Hloop
    by (unfold range; rewrite Nat2Z.id; reflexivity).
  apply (for_each_rule (trace_iteration rt pv self)
           (fun i st _ => I i st) (fun st _ => Q st)
           (Z.to_nat (max_depth + 1))) in Hloop; [exact Hloop | | | exact Hinit].
  - intros i st0 s0 f st0' s0' Hi HI Hbody.
    apply scanner_trace_iteration_outcome in Hbody.
    destruct Hbody as (d & s2 & _ & Hout).
    exact (Hturn i st0 d f st0' Hi HI Hout).
  - intros st0 _ HI. exact (Hexh st0 HI).
Qed.

End Engine.

End ScannerFacts.

(* ================================================================== *)
(** * Properties of the scanner                                        *)
(* ================================================================== *)

Module Properties.
Import Py Eff Common Facts.
Local Open Scope py_scope.
Local Open Scope eff_scope.

(** ** The final score *)

Section Aggregation.
Context {W : Type} (rt : Runtime) (pv : Provider W) (self : SolanaTokenScanner).

Lemma clamp_bounds total : 0 <= Z.max 0 (Z.min 100 total) <= 100.
Proof. lia. Qed.

Lemma scanner1_aggregate_score token deployer fa a :
  Scanner1.aggregate rt token deployer fa = Ok a ->
  exists flags log,
    a = Scanner1.Scanned token deployer
          (Scanner1.mk_risk (Z.max 0 (Z.min 100 (Scanner1.score fa)))
             (if 70 <=? Z.max 0 (Z.min 100 (Scanner1.score fa)) then "HIGH"
              else if 40 <=? Z.max 0 (Z.min 100 (Scanner1.score fa)) then "MEDIUM"
              else "LOW") flags)
          log (Scanner1.stop_reason fa).
Proof.
  unfold Scanner1.aggregate. intros H.
  apply rbind_ok in H. destruct H as ([flags log] & _ & H).
  inversion H. exists flags, log. reflexivity.
Qed.

Lemma scanner_aggregate_score token deployer fa :
  exists flags log,
    Scanner.aggregate rt token deployer fa =
      Scanner.Scanned token deployer
        (Scanner.mk_risk (Z.max 0 (Z.min 100 (Scanner.score fa)))
           (if 70 <=? Z.max 0 (Z.min 100 (Scanner.score fa)) then "HIGH"
            else if 30 <=? Z.max 0 (Z.min 100 (Scanner.score fa)) then "MEDIUM"
            else "LOW") flags)
        log (Scanner.stop_reason fa).
Proof.
  unfold Scanner.aggregate.
  destruct (Scanner.describe_chain rt (Scanner.chain fa) [] []) as [flags log].
  exists flags, log. reflexivity.
Qed.

(** A deep scan that returns a report went through the trace and
    through [aggregate]. *)
Lemma scanner1_scan_inv token s t deployer risk log stop s' :
  Scanner1.assess_token_risk rt pv self token s
    = (Ok (Scanner1.Scanned t deployer risk log stop), s') ->
  exists fa s1,
    Scanner1.trace_funding_source rt pv self deployer 3 s1 = (Ok fa, s') /\
    Scanner1.aggregate rt token deployer fa
      = Ok (Scanner1.Scanned t deployer risk log stop).
Proof.
  unfold Scanner1.assess_token_risk. intros H.
  apply bind_ok in H. destruct H as (db & s1 & _ & H).
  destruct db as [db |].
  { apply ret_ok in H. destruct H as [H _]. discriminate H. }
  apply bind_ok in H. destruct H as (data & s2 & _ & H).
  destruct (negb (truthy (_normalize_transfers_list data))).
  { apply ret_ok in H. destruct H as [H _]. discriminate H. }
  apply bind_ok in H. destruct H as (dep & s3 & _ & H).
  destruct dep as [dep |].
  2:{ apply ret_ok in H. destruct H as [H _]. discriminate H. }
  apply bind_ok in H. destruct H as (fa & s4 & Htrace & H).
  apply lift_ok in H. destruct H as [H ->].
  pose proof (scanner1_aggregate_score _ _ _ _ H) as (flags & lg & E).
  inversion E; subst.
  exists fa, s3. split; [exact Htrace | exact H].
Qed.

Lemma scanner_scan_inv token s t deployer risk log stop s' :
  Scanner.assess_token_risk rt pv self token s
    = (Ok (Scanner.Scanned t deployer risk log stop), s') ->
  exists fa s1,
    Scanner.trace_funding_source rt pv self deployer 3 s1 = (Ok fa, s') /\
    Scanner.aggregate rt token deployer fa
      = Scanner.Scanned t deployer risk log stop.
Proof.
  unfold Scanner.assess_token_risk. intros H.
  apply bind_ok in H. destruct H as (db & s1 & _ & H).
  destruct db as [db |].
  { apply ret_ok in H. destruct H as [H _]. discriminate H. }
  apply bind_ok in H. destruct H as (data & s2 & _ & H).
  destruct (negb (truthy (_normalize_transfers_list data))).
  { apply ret_ok in H. destruct H as [H _]. discriminate H. }
  apply bind_ok in H. destruct H as (dep & s3 & _ & H).
  destruct dep as [dep |].
  2:{ apply ret_ok in H. destruct H as [H _]. discriminate H. }
  apply bind_ok in H. destruct H as (fa & s4 & Htrace & H).
  apply ret_ok in H. destruct H as [H ->].
  pose proof (scanner_aggregate_score token dep fa) as (flags & lg & E).
  rewrite E in H. inversion H; subst.
  exists fa, s3. split; [exact Htrace |].
  rewrite E. reflexivity.
Qed.

(** C1: every report of a deep scan carries the total of the trace
    clamped by [max(0, min(100, total))], so the final score lies
    between 0 and 100 whatever the total is, negative totals included;
    in [scanner1.py] and in [Scanner.py] alike. *)
Theorem final_score_clamped token s :
  (forall t deployer risk log stop s',
      Scanner1.assess_token_risk rt pv self token s
        = (Ok (Scanner1.Scanned t deployer risk log stop), s') ->
      exists fa s1,
        Scanner1.trace_funding_source rt pv self deployer 3 s1 = (Ok fa, s') /\
        Scanner1.final_score risk = Z.max 0 (Z.min 100 (Scanner1.score fa)) /\
        0 <= Scanner1.final_score risk <= 100) /\
  (forall t deployer risk log stop s',
      Scanner.assess_token_risk rt pv self token s
        = (Ok (Scanner.Scanned t deployer risk log stop), s') ->
      exists fa s1,
        Scanner.trace_funding_source rt pv self deployer 3 s1 = (Ok fa, s') /\
        Scanner.final_score risk = Z.max 0 (Z.min 100 (Scanner.score fa)) /\
        0 <= Scanner.final_score risk <= 100).
Proof.
  split; intros t deployer risk log stop s' H.
  - apply scanner1_scan_inv in H. destruct H as (fa & s1 & Htrace & Hagg).
    apply scanner1_aggregate_score in Hagg. destruct Hagg as (flags & lg & E).
    inversion E; subst. exists fa, s1. simpl.
    split; [exact Htrace | split; [reflexivity | apply clamp_bounds]].
  - apply scanner_scan_inv in H. destruct H as (fa & s1 & Htrace & Hagg).
    pose proof (scanner_aggregate_score token deployer fa) as (flags & lg & E).
    rewrite E in Hagg. inversion Hagg; subst. exists fa, s1. simpl.
    split; [exact Htrace | split; [reflexivity | apply clamp_bounds]].
Qed.

End Aggregation.

(** ** The shape of a trace *)

Section Trace.
Context {W : Type} (rt : Runtime) (pv : Provider W) (self : SolanaTokenScanner).

Lemma range_of_length (ls : list Z) k :
  0 <= k -> ls = range k ->
  ls = range (Z.of_nat (List.length ls)) /\ Z.of_nat (List.length ls) = k.
Proof.
  intros Hk E.
  assert (Hlen : Z.of_nat (List.length ls) = k).
  { rewrite E, range_length. lia. }
  split; [rewrite Hlen; exact E | exact Hlen].
Qed.

Lemma scanner1_trace_layers start max_depth s r s' :
  Scanner1.trace_funding_source rt pv self start max_depth s = (Ok r, s') ->
  exists k, 0 <= k <= Z.of_nat (Z.to_nat (max_depth + 1)) + 1 /\
            map Scanner1.layer (Scanner1.chain r) = range k.
Proof.
  intros Hrun.
  apply (Scanner1Facts.scanner1_trace_rule rt pv self
           (fun i st => 0 <= i /\ map Scanner1.layer (Scanner1.chain_info st) = range i)
           (fun st => exists k, 0 <= k <= Z.of_nat (Z.to_nat (max_depth + 1)) + 1 /\
                                map Scanner1.layer (Scanner1.chain_info st) = range k))
    in Hrun.
  - destruct Hrun as (st & HQ & ->). exact HQ.
  - intros i st d f st' Hi [Hpos Hlayers] Hout.
    destruct Hout as [ | d vo dist hop cex now0 _ Hhop _ Hcex
                       | d vo dist hop now0 _ _ Hhop _
                       | d vo dist hop now0 _ _ Hhop _ ]; simpl.
    + exists i. split; [lia | exact Hlayers].
    + exists (i + 2). split; [lia |].
      rewrite map_app, Hlayers. simpl.
      rewrite (Scanner1Spec.hop_layer _ _ _ _ _ Hhop), (Scanner1Spec.cex_layer _ _ _ _ Hcex).
      symmetry. apply range_snoc2. exact Hpos.
    + exists (i + 1). split; [lia |].
      rewrite map_app, Hlayers. simpl.
      rewrite (Scanner1Spec.hop_layer _ _ _ _ _ Hhop).
      symmetry. apply range_snoc. exact Hpos.
    + split; [lia |].
      rewrite map_app, Hlayers. simpl.
      rewrite (Scanner1Spec.hop_layer _ _ _ _ _ Hhop).
      symmetry. apply range_snoc. exact Hpos.
  - intros st [Hpos Hlayers].
    exists (Z.of_nat (Z.to_nat (max_depth + 1))). split; [lia | exact Hlayers].
  - split; [lia | reflexivity].
Qed.

(** In [Scanner.py] no entry is added beyond the address traced, so the
    chain is never longer than the number of turns. *)
Lemma scanner_trace_layers start max_depth s r s' :
  Scanner.trace_funding_source rt pv self start max_depth s = (Ok r, s') ->
  exists k, 0 <= k <= Z.of_nat (Z.to_nat (max_depth + 1)) /\
            map Scanner.layer (Scanner.chain r) = range k.
Proof.
  intros Hrun.
  apply (ScannerFacts.scanner_trace_rule rt pv self
           (fun i st => 0 <= i /\ map Scanner.layer (Scanner.chain_info st) = range i)
           (fun st => exists k, 0 <= k <= Z.of_nat (Z.to_nat (max_depth + 1)) /\
                                map Scanner.layer (Scanner.chain_info st) = range k))
    in Hrun.
  - destruct Hrun as (st & HQ & ->). exact HQ.
  - intros i st d f st' Hi [Hpos Hlayers] Hout.
    destruct Hout as [ | d name hop Hhop
                       | d dist hop _ Hhop
                       | d dist hop _ Hhop ]; simpl.
    + exists i. split; [lia | exact Hlayers].
    + exists (i + 1). split; [lia |].
      rewrite map_app, Hlayers. simpl.
      rewrite (ScannerSpec.cex_layer _ _ _ _ Hhop).
      symmetry. apply range_snoc. exact Hpos.
    + exists (i + 1). split; [lia |].
      rewrite map_app, Hlayers. simpl.
      rewrite (ScannerSpec.hop_layer _ _ _ _ Hhop).
      symmetry. apply range_snoc. exact Hpos.
    + split; [lia |].
      rewrite map_app, Hlayers. simpl.
      rewrite (ScannerSpec.hop_layer _ _ _ _ Hhop).
      symmetry. apply range_snoc. exact Hpos.
  - intros st [Hpos Hlayers].
    exists (Z.of_nat (Z.to_nat (max_depth + 1))). split; [lia | exact Hlayers].
  - split; [lia | reflexivity].
Qed.

(** C2: in every trace that [trace_funding_source] returns, the layers
    of the entries are 0, 1, 2, ... in order, the entry of a known
    entity included, and there are at most [max_depth + 2] entries; in
    [scanner1.py] and in [Scanner.py] alike, for [max_depth = 3] as for
    any depth that is not negative. *)
Theorem trace_layers_consecutive start max_depth s :
  0 <= max_depth ->
  (forall r s',
      Scanner1.trace_funding_source rt pv self start max_depth s = (Ok r, s') ->
      Scanner1Spec.consecutive_layers (Scanner1.chain r) /\
      Z.of_nat (List.length (Scanner1.chain r)) <= max_depth + 2) /\
  (forall r s',
      Scanner.trace_funding_source rt pv self start max_depth s = (Ok r, s') ->
      ScannerSpec.consecutive_layers (Scanner.chain r) /\
      Z.of_nat (List.length (Scanner.chain r)) <= max_depth + 2).
Proof.
  intros Hdepth. split; intros r s' Hrun.
  - apply scanner1_trace_layers in Hrun. destruct Hrun as (k & Hk & Hlayers).
    apply range_of_length in Hlayers; [| lia].
    destruct Hlayers as [Hcons Hlen]. rewrite length_map in Hcons, Hlen.
    split; [exact Hcons | lia].
  - apply scanner_trace_layers in Hrun. destruct Hrun as (k & Hk & Hlayers).
    apply range_of_length in Hlayers; [| lia].
    destruct Hlayers as [Hcons Hlen]. rewrite length_map in Hcons, Hlen.
    split; [exact Hcons | lia].
Qed.

(** ** The second look at the age of a busy wallet *)

(** When the page of transfers is full and the wallet seems younger
    than a day, [verify_age] is the lookup of the history followed by
    the age computed from it. *)
Lemma verify_age_escalates a age now tct s s1 true_delta :
  age < 1 ->
  Scanner1.get_true_age_via_history rt pv self a s = (Ok (Some tct), s1) ->
  dt_sub now tct = Ok true_delta ->
  Scanner1.verify_age rt pv self a age 100 (Some now) s
  = (Ok (td_days true_delta, 180 <? td_days true_delta), s1).
Proof.
  intros Hage Hhist Hsub.
  unfold Scanner1.verify_age.
  assert (Hcond : (age <? 1) && (100 <=? 100) = true).
  { apply andb_true_iff. split; [apply Z.ltb_lt; exact Hage | reflexivity]. }
  rewrite Hcond. unfold bind. rewrite Hhist.
  unfold ret, lift. rewrite Hsub. reflexivity.
Qed.

(** C4: on a hop whose primary lookup returns a full page of 100
    transfers and whose earliest timestamp is less than a day old, the
    history is looked up; when it yields a date, the entry of the hop
    carries the age counted from that date, and it is marked
    verified-old exactly when that age exceeds 180 days. *)
Theorem truncation_escalation depth st s d s1 ct now s2 delta tct s3 true_delta f st' s' :
  Scanner1.get_address_details rt pv self (Scanner1.current_addr st) s
    = (Ok (Some d), s1) ->
  Scanner1.tx_count d = 100 ->
  Scanner1.creation_time d = Some ct ->
  datetime_now_utc pv s1 = (Ok now, s2) ->
  dt_sub now ct = Ok delta ->
  td_days delta < 1 ->
  Scanner1.get_true_age_via_history rt pv self (Scanner1.current_addr st) s2
    = (Ok (Some tct), s3) ->
  dt_sub now tct = Ok true_delta ->
  Scanner1.trace_iteration rt pv self depth st s = (Ok (f, st'), s') ->
  exists hop rest,
    Scanner1.chain_info st' = (Scanner1.chain_info st ++ hop :: rest)%list /\
    Scanner1.layer hop = depth /\
    Scanner1.address hop = Scanner1.current_addr st /\
    Scanner1.age_days hop = td_days true_delta /\
    Scanner1.is_verified_old hop = Some (180 <? td_days true_delta).
Proof.
  intros Hd Hcount Hct Hnow Hsub Hyoung Hhist Htrue Hrun.
  unfold Scanner1.trace_iteration in Hrun.
  apply bind_ok in Hrun. destruct Hrun as (d0 & s0 & Hd0 & Hrun).
  rewrite Hd in Hd0. inversion Hd0; subst d0 s0. clear Hd0.
  apply bind_ok in Hrun. destruct Hrun as ([[ad ah] now0] & s2' & Hage & Hrun).
  unfold Scanner1.primary_age in Hage. rewrite Hct in Hage.
  unfold bind in Hage. rewrite Hnow in Hage. unfold lift in Hage.
  rewrite Hsub in Hage. unfold ret in Hage. inversion Hage; subst ad ah now0 s2'.
  clear Hage.
  apply bind_ok in Hrun. destruct Hrun as ([ad' vo] & s3' & Hver & Hrun).
  rewrite Hcount in Hver.
  rewrite (verify_age_escalates _ _ _ _ _ _ _ Hyoung Hhist Htrue) in Hver.
  inversion Hver; subst ad' vo s3'. clear Hver.
  apply bind_ok in Hrun. destruct Hrun as ([l' total'] & s4 & Hdisp & Hrun).
  apply Scanner1Facts.scanner1_dispersion_check_ok in Hdisp.
  assert (Hl' : Scanner1.layer l' = depth /\
                Scanner1.address l' = Scanner1.current_addr st /\
                Scanner1.age_days l' = td_days true_delta /\
                Scanner1.is_verified_old l' = Some (180 <? td_days true_delta)).
  { destruct Hdisp as [[-> _] | (_ & _ & -> & _)]; repeat split; reflexivity. }
  destruct Hl' as (Hlayer & Haddress & Hdays & Hold).
  destruct (truthy (Scanner1.funder_entity d)).
  - apply ret_ok in Hrun. destruct Hrun as [Hrun _]. inversion Hrun; subst f st'.
    eexists. eexists. split; [reflexivity |].
    repeat split; assumption.
  - destruct (negb (truthy (Scanner1.funder d))).
    + apply ret_ok in Hrun. destruct Hrun as [Hrun _]. inversion Hrun; subst f st'.
      eexists. eexists. split; [reflexivity |].
      repeat split; assumption.
    + apply bind_ok in Hrun. destruct Hrun as (u & s5 & _ & Hrun).
      apply ret_ok in Hrun. destruct Hrun as [Hrun _]. inversion Hrun; subst f st'.
      eexists. eexists. split; [reflexivity |].
      repeat split; assumption.
Qed.

(** ** When the dispersion detector is called *)

Lemma scanner1_outcome_extends depth st d f st' :
  Scanner1Spec.outcome rt depth st d f st' ->
  exists tail, Scanner1.chain_info st' = (Scanner1.chain_info st ++ tail)%list.
Proof.
  intros Hout. destruct Hout; cbn [Scanner1.chain_info].
  - exists []. symmetry. apply app_nil_r.
  - eexists. reflexivity.
  - eexists. reflexivity.
  - eexists. reflexivity.
Qed.

Lemma scanner_outcome_extends depth st d f st' :
  ScannerSpec.outcome rt depth st d f st' ->
  exists tail, Scanner.chain_info st' = (Scanner.chain_info st ++ tail)%list.
Proof.
  intros Hout. destruct Hout; cbn [Scanner.chain_info].
  - exists []. symmetry. apply app_nil_r.
  - eexists. reflexivity.
  - eexists. reflexivity.
  - eexists. reflexivity.
Qed.

(** Every request for outgoing transfers that a trace of [scanner1.py]
    sends is for the address of an entry of the chain, at a depth above
    0, that is not verified-old. *)
Lemma scanner1_trace_requests start max_depth s r s' :
  Scanner1.trace_funding_source rt pv self start max_depth s = (Ok r, s') ->
  exists l,
    sent s' = (sent s ++ l)%list /\
    forall req a, In req l -> CommonSpec.queried_from req = Some a ->
      exists hop, In hop (Scanner1.chain r) /\ Scanner1.address hop = a /\
                  0 < Scanner1.layer hop /\
                  Scanner1.is_verified_old hop = Some false.
Proof.
  intros Hrun. unfold Scanner1.trace_funding_source in Hrun.
  apply bind_ok in Hrun. destruct Hrun as (st & s1 & Hloop & Hret).
  apply ret_ok in Hret. destruct Hret as [-> ->]. cbn [Scanner1.chain].
  replace (range (max_depth + 1))
    with (range (Z.of_nat (Z.to_nat (max_depth + 1)))) in Hloop
    by (unfold range; rewrite Nat2Z.id; reflexivity).
  pose (Inv := fun (st0 : Scanner1.loop_state) (s0 : state W) =>
    exists l,
      sent s0 = (sent s ++ l)%list /\
      forall req a, In req l -> CommonSpec.queried_from req = Some a ->
        exists hop, In hop (Scanner1.chain_info st0) /\ Scanner1.address hop = a /\
                    0 < Scanner1.layer hop /\
                    Scanner1.is_verified_old hop = Some false).
  apply (for_each_rule (Scanner1.trace_iteration rt pv self)
           (fun _ st0 s0 => Inv st0 s0) Inv (Z.to_nat (max_depth + 1)))
    in Hloop; [exact Hloop | | | ].
  - intros i st0 s0 f st0' s0' _ (l & El & Hl) Hbody.
    assert (HInv : Inv st0' s0').
    { pose proof (Scanner1Facts.scanner1_trace_iteration_outcome rt pv self
                    _ _ _ _ _ _ Hbody) as (d & s2 & _ & Hout).
      apply scanner1_outcome_extends in Hout. destruct Hout as (tail & Echain).
      destruct (Scanner1Facts.scanner1_trace_iteration_log rt pv self
                  _ _ _ _ _ _ Hbody) as (l' & El' & Hl').
      exists (l ++ l')%list. split.
      - rewrite El', El, app_assoc. reflexivity.
      - intros req a Hreq Hq. apply in_app_or in Hreq.
        destruct Hreq as [Hreq | Hreq].
        + destruct (Hl req a Hreq Hq) as (hop & Hin & Hrest).
          exists hop. split; [| exact Hrest].
          rewrite Echain. apply in_or_app. left. exact Hin.
        + destruct (Hl' req a Hreq Hq) as (Hpos & hop & Hin & Ha & Hlay & Hvo).
          exists hop. split; [exact Hin |].
          split; [exact Ha |]. split; [rewrite Hlay; exact Hpos | exact Hvo]. }
    destruct f; exact HInv.
  - intros st0 s0 HInv. exact HInv.
  - exists []. split; [symmetry; apply app_nil_r |].
    intros req a [].
Qed.

Lemma scanner_trace_requests start max_depth s r s' :
  Scanner.trace_funding_source rt pv self start max_depth s = (Ok r, s') ->
  exists l,
    sent s' = (sent s ++ l)%list /\
    forall req a, In req l -> CommonSpec.queried_from req = Some a ->
      exists hop, In hop (Scanner.chain r) /\ Scanner.address hop = a /\
                  0 < Scanner.layer hop /\ Scanner.is_cex hop = false.
Proof.
  intros Hrun. unfold Scanner.trace_funding_source in Hrun.
  apply bind_ok in Hrun. destruct Hrun as (st & s1 & Hloop & Hret).
  apply ret_ok in Hret. destruct Hret as [-> ->]. cbn [Scanner.chain].
  replace (range (max_depth + 1))
    with (range (Z.of_nat (Z.to_nat (max_depth + 1)))) in Hloop
    by (unfold range; rewrite Nat2Z.id; reflexivity).
  pose (Inv := fun (st0 : Scanner.loop_state) (s0 : state W) =>
    exists l,
      sent s0 = (sent s ++ l)%list /\
      forall req a, In req l -> CommonSpec.queried_from req = Some a ->
        exists hop, In hop (Scanner.chain_info st0) /\ Scanner.address hop = a /\
                    0 < Scanner.layer hop /\ Scanner.is_cex hop = false).
  apply (for_each_rule (Scanner.trace_iteration rt pv self)
           (fun _ st0 s0 => Inv st0 s0) Inv (Z.to_nat (max_depth + 1)))
    in Hloop; [exact Hloop | | | ].
  - intros i st0 s0 f st0' s0' _ (l & El & Hl) Hbody.
    assert (HInv : Inv st0' s0').
    { pose proof (ScannerFacts.scanner_trace_iteration_outcome rt pv self
                    _ _ _ _ _ _ Hbody) as (d & s2 & _ & Hout).
      apply scanner_outcome_extends in Hout. destruct Hout as (tail & Echain).
      destruct (ScannerFacts.scanner_trace_iteration_log rt pv self
                  _ _ _ _ _ _ Hbody) as (l' & El' & Hl').
      exists (l ++ l')%list. split.
      - rewrite El', El, app_assoc. reflexivity.
      - intros req a Hreq Hq. apply in_app_or in Hreq.
        destruct Hreq as [Hreq | Hreq].
        + destruct (Hl req a Hreq Hq) as (hop & Hin & Hrest).
          exists hop. split; [| exact Hrest].
          rewrite Echain. apply in_or_app. left. exact Hin.
        + destruct (Hl' req a Hreq Hq) as (Hpos & hop & Hin & Ha & Hlay & Hcex).
          exists hop. split; [exact Hin |].
          split; [exact Ha |]. split; [rewrite Hlay; exact Hpos | exact Hcex]. }
    destruct f; exact HInv.
  - intros st0 s0 HInv. exact HInv.
  - exists []. split; [symmetry; apply app_nil_r |].
    intros req a [].
Qed.

Lemma age_risk_of_verified_old depth age :
  180 < age -> Scanner1.age_risk_of depth age true = -10.
Proof.
  intros Hold. unfold Scanner1.age_risk_of.
  destruct (age =? -1) eqn:E; [apply Z.eqb_eq in E; lia | reflexivity].
Qed.

(** No entry of a trace of [scanner1.py] that is marked verified-old is
    marked as a distributor, and its contribution is the reduction of
    10 that the age gives, with no dispersion penalty. *)
Lemma scanner1_verified_old_exempt start max_depth s r s' :
  Scanner1.trace_funding_source rt pv self start max_depth s = (Ok r, s') ->
  forall hop, In hop (Scanner1.chain r) ->
    Scanner1.is_verified_old hop = Some true ->
    Scanner1.is_distributor hop = Some false /\ Scanner1.risk_contribution hop = -10.
Proof.
  intros Hrun.
  pose (Inv := fun (st : Scanner1.loop_state) =>
    forall hop, In hop (Scanner1.chain_info st) ->
      Scanner1.is_verified_old hop = Some true ->
      Scanner1.is_distributor hop = Some false /\ Scanner1.risk_contribution hop = -10).
  assert (Hscored : forall depth a vo dist hop,
             Scanner1Spec.scored_hop depth a vo dist hop ->
             Scanner1.is_verified_old hop = Some true ->
             Scanner1.is_distributor hop = Some false /\
             Scanner1.risk_contribution hop = -10).
  { intros depth a vo dist hop [? ? ? Hvo Hdist Hgate Hold Hrisk] Htrue.
    rewrite Hvo in Htrue. inversion Htrue; subst vo.
    destruct dist.
    - destruct (Hgate eq_refl) as [_ Hfalse]. discriminate Hfalse.
    - split; [exact Hdist |].
      rewrite Hrisk, age_risk_of_verified_old by (apply Hold; reflexivity).
      reflexivity. }
  apply (Scanner1Facts.scanner1_trace_rule rt pv self (fun _ st => Inv st) Inv)
    in Hrun.
  - destruct Hrun as (st & HQ & ->). exact HQ.
  - intros i st d f st' _ HI Hout.
    assert (HInv : Inv st').
    { destruct Hout as [ | d vo dist hop cex now0 _ Hhop _ Hcex
                         | d vo dist hop now0 _ _ Hhop _
                         | d vo dist hop now0 _ _ Hhop _ ];
        [exact HI | | | ];
        intros h Hin Htrue; cbn [Scanner1.chain_info] in Hin;
        apply in_app_or in Hin; destruct Hin as [Hin | Hin];
        try exact (HI h Hin Htrue).
      - destruct Hin as [<- | [<- | []]].
        + exact (Hscored _ _ _ _ _ Hhop Htrue).
        + rewrite (Scanner1Spec.cex_verified_old _ _ _ _ Hcex) in Htrue.
          discriminate Htrue.
      - destruct Hin as [<- | []]. exact (Hscored _ _ _ _ _ Hhop Htrue).
      - destruct Hin as [<- | []]. exact (Hscored _ _ _ _ _ Hhop Htrue). }
    destruct f; exact HInv.
  - intros st HI. exact HI.
  - intros hop [].
Qed.

(** C5: in a trace, the dispersion detector (the only sender of
    requests for outgoing transfers) is called only for the address of
    an entry at a depth above 0 that is not verified-old; so an entry
    marked verified-old is never marked as a distributor and carries no
    dispersion penalty.  [Scanner.py] has no verified-old mark: there
    the detector is called only at a depth above 0, on an entry that is
    not a trusted entity. *)
Theorem dispersion_gate start max_depth s :
  (forall r s',
      Scanner1.trace_funding_source rt pv self start max_depth s = (Ok r, s') ->
      (exists l,
          sent s' = (sent s ++ l)%list /\
          forall req a, In req l -> CommonSpec.queried_from req = Some a ->
            exists hop, In hop (Scanner1.chain r) /\ Scanner1.address hop = a /\
                        0 < Scanner1.layer hop /\
                        Scanner1.is_verified_old hop = Some false) /\
      (forall hop, In hop (Scanner1.chain r) ->
          Scanner1.is_verified_old hop = Some true ->
          Scanner1.is_distributor hop = Some false /\
          Scanner1.risk_contribution hop = -10)) /\
  (forall r s',
      Scanner.trace_funding_source rt pv self start max_depth s = (Ok r, s') ->
      exists l,
        sent s' = (sent s ++ l)%list /\
        forall req a, In req l -> CommonSpec.queried_from req = Some a ->
          exists hop, In hop (Scanner.chain r) /\ Scanner.address hop = a /\
                      0 < Scanner.layer hop /\ Scanner.is_cex hop = false).
Proof.
  split.
  - intros r s' Hrun. split.
    + exact (scanner1_trace_requests _ _ _ _ _ Hrun).
    + exact (scanner1_verified_old_exempt _ _ _ _ _ Hrun).
  - intros r s' Hrun. exact (scanner_trace_requests _ _ _ _ _ Hrun).
Qed.

(** ** The known-entity stop of [scanner1.py] *)

(** C3, as the code has it: on a turn at depth [d] whose funder carries
    an entity name, the running total is reduced by 40, one more entry
    is appended at depth [d + 1] for the funder, marked as a known
    entity and carrying a reduction of its own of 20 (the smaller of
    the two), the stop reason names the entity, and the walk ends
    there: whatever depths remain, no further turn is taken. *)
Theorem known_entity_stop depth st s d s1 f st' s' :
  Scanner1.get_address_details rt pv self (Scanner1.current_addr st) s
    = (Ok (Some d), s1) ->
  truthy (Scanner1.funder_entity d) = true ->
  Scanner1.trace_iteration rt pv self depth st s = (Ok (f, st'), s') ->
  f = Break /\
  Scanner1.trace_stop_reason st'
    = "Funded by Known Entity: " ++ str rt (Scanner1.funder_entity d) /\
  (exists hop cex,
      Scanner1.chain_info st' = (Scanner1.chain_info st ++ [hop; cex])%list /\
      Scanner1.layer hop = depth /\
      Scanner1.address hop = Scanner1.current_addr st /\
      Scanner1.funded_by_entity hop = Some (Scanner1.funder_entity d) /\
      Scanner1.layer cex = depth + 1 /\
      Scanner1.address cex = Scanner1.funder d /\
      Scanner1.is_cex cex = true /\
      Scanner1.entity_name cex = Scanner1.funder_entity d /\
      Scanner1.risk_contribution cex = -20 /\
      Scanner1.trace_risk_score st'
        = Scanner1.trace_risk_score st + Scanner1.risk_contribution hop - 40 - 20) /\
  (forall rest,
      for_each (Scanner1.trace_iteration rt pv self) (depth :: rest) st s = (Ok st', s')).
Proof.
  intros Hd He Hrun.
  pose proof (Scanner1Facts.scanner1_trace_iteration_outcome rt pv self _ _ _ _ _ _ Hrun)
    as (d0 & s0 & Hd0 & Hout).
  rewrite Hd in Hd0. inversion Hd0; subst d0 s0. clear Hd0.
  inversion Hout as [ | d1 vo dist hop cex now0 _ Hhop Hfund Hcex
                      | d1 vo dist hop now0 He' | d1 vo dist hop now0 He' ];
    subst; try congruence.
  destruct Hhop, Hcex.
  split; [reflexivity |]. split; [reflexivity |]. split.
  - exists hop, cex. simpl. repeat split; assumption || reflexivity.
  - intros rest. simpl. unfold bind. rewrite Hrun. reflexivity.
Qed.

(** ** The total a trace returns *)

Lemma scanner1_contributions_app a b :
  Scanner1Spec.contributions (a ++ b)
  = Scanner1Spec.contributions a + Scanner1Spec.contributions b.
Proof.
  induction a as [| h a IH]; simpl.
  - reflexivity.
  - fold (Scanner1Spec.contributions (a ++ b)). fold (Scanner1Spec.contributions a).
    rewrite IH. lia.
Qed.

Lemma scanner_contributions_app a b :
  ScannerSpec.contributions (a ++ b)
  = ScannerSpec.contributions a + ScannerSpec.contributions b.
Proof.
  induction a as [| h a IH]; simpl.
  - reflexivity.
  - fold (ScannerSpec.contributions (a ++ b)). fold (ScannerSpec.contributions a).
    rewrite IH. lia.
Qed.

Lemma scanner1_contributions_zero chain :
  (forall h, In h chain -> Scanner1.risk_contribution h = 0) ->
  Scanner1Spec.contributions chain = 0.
Proof.
  induction chain as [| h chain IH]; intros Hall; simpl.
  - reflexivity.
  - fold (Scanner1Spec.contributions chain).
    rewrite IH by (intros h' Hin; apply Hall; right; exact Hin).
    rewrite (Hall h) by (left; reflexivity). reflexivity.
Qed.

Lemma scanner_contributions_zero chain :
  (forall h, In h chain -> Scanner.risk_contribution h = 0) ->
  ScannerSpec.contributions chain = 0.
Proof.
  induction chain as [| h chain IH]; intros Hall; simpl.
  - reflexivity.
  - fold (ScannerSpec.contributions chain).
    rewrite IH by (intros h' Hin; apply Hall; right; exact Hin).
    rewrite (Hall h) by (left; reflexivity). reflexivity.
Qed.

(** The total of [scanner1.py] starts at 0 and is the sum of the
    contributions recorded in the chain, less 40 for the known-entity
    stop, which no entry records. *)
Lemma scanner1_score_accounts start max_depth s r s' :
  Scanner1.trace_funding_source rt pv self start max_depth s = (Ok r, s') ->
  Scanner1.score r
  = 0 + Scanner1Spec.contributions (Scanner1.chain r)
    - 40 * Z.of_nat (List.length (filter Scanner1.is_cex (Scanner1.chain r))).
Proof.
  intros Hrun.
  apply (Scanner1Facts.scanner1_trace_rule rt pv self
           (fun _ st =>
              Scanner1.trace_risk_score st
              = 0 + Scanner1Spec.contributions (Scanner1.chain_info st)
                - 40 * Z.of_nat (List.length (filter Scanner1.is_cex (Scanner1.chain_info st))))
           (fun st =>
              Scanner1.trace_risk_score st
              = 0 + Scanner1Spec.contributions (Scanner1.chain_info st)
                - 40 * Z.of_nat (List.length (filter Scanner1.is_cex (Scanner1.chain_info st)))))
    in Hrun.
  - destruct Hrun as (st & HQ & ->). exact HQ.
  - intros i st d f st' _ HI Hout.
    destruct Hout as [ | d vo dist hop cex now0 _ Hhop _ Hcex
                       | d vo dist hop now0 _ _ Hhop _
                       | d vo dist hop now0 _ _ Hhop _ ];
      cbn [Scanner1.chain_info Scanner1.trace_risk_score].
    + exact HI.
    + rewrite scanner1_contributions_app, filter_app, length_app.
      cbn [Scanner1Spec.contributions fold_right filter].
      rewrite (Scanner1Spec.hop_is_cex _ _ _ _ _ Hhop).
      rewrite (Scanner1Spec.cex_is_cex _ _ _ _ Hcex).
      rewrite (Scanner1Spec.cex_risk _ _ _ _ Hcex).
      cbn [List.length]. lia.
    + rewrite scanner1_contributions_app, filter_app, length_app.
      cbn [Scanner1Spec.contributions fold_right filter].
      rewrite (Scanner1Spec.hop_is_cex _ _ _ _ _ Hhop).
      cbn [List.length]. lia.
    + rewrite scanner1_contributions_app, filter_app, length_app.
      cbn [Scanner1Spec.contributions fold_right filter].
      rewrite (Scanner1Spec.hop_is_cex _ _ _ _ _ Hhop).
      cbn [List.length]. lia.
  - intros st HI. exact HI.
  - reflexivity.
Qed.

(** The total of [Scanner.py] starts at 20 and is raised by exactly the
    contributions recorded in the chain. *)
Lemma scanner_score_accounts start max_depth s r s' :
  Scanner.trace_funding_source rt pv self start max_depth s = (Ok r, s') ->
  Scanner.score r = 20 + ScannerSpec.contributions (Scanner.chain r).
Proof.
  intros Hrun.
  apply (ScannerFacts.scanner_trace_rule rt pv self
           (fun _ st =>
              Scanner.trace_risk_score st
              = 20 + ScannerSpec.contributions (Scanner.chain_info st))
           (fun st =>
              Scanner.trace_risk_score st
              = 20 + ScannerSpec.contributions (Scanner.chain_info st)))
    in Hrun.
  - destruct Hrun as (st & HQ & ->). exact HQ.
  - intros i st d f st' _ HI Hout.
    destruct Hout as [ | d name hop Hhop | d dist hop _ Hhop | d dist hop _ Hhop ];
      cbn [Scanner.chain_info Scanner.trace_risk_score]; try exact HI;
      rewrite scanner_contributions_app;
      cbn [ScannerSpec.contributions fold_right]; lia.
  - intros st HI. exact HI.
  - reflexivity.
Qed.

(** C10: [Scanner.py] starts the running total at 20 and [scanner1.py]
    at 0, so a trace none of whose entries carries a contribution (no
    age risk, no dispersion penalty) and none of whose entries is a
    known entity returns the score 20 in the first and 0 in the
    second. *)
Theorem baseline_score start max_depth s :
  (forall r s',
      Scanner.trace_funding_source rt pv self start max_depth s = (Ok r, s') ->
      (forall h, In h (Scanner.chain r) ->
                 Scanner.risk_contribution h = 0 /\ Scanner.is_cex h = false) ->
      Scanner.score r = 20) /\
  (forall r s',
      Scanner1.trace_funding_source rt pv self start max_depth s = (Ok r, s') ->
      (forall h, In h (Scanner1.chain r) ->
                 Scanner1.risk_contribution h = 0 /\ Scanner1.is_cex h = false) ->
      Scanner1.score r = 0).
Proof.
  split; intros r s' Hrun Hquiet.
  - rewrite (scanner_score_accounts _ _ _ _ _ Hrun).
    rewrite scanner_contributions_zero by (intros h Hin; apply (Hquiet h Hin)).
    reflexivity.
  - rewrite (scanner1_score_accounts _ _ _ _ _ Hrun).
    rewrite scanner1_contributions_zero by (intros h Hin; apply (Hquiet h Hin)).
    assert (Hnone : filter Scanner1.is_cex (Scanner1.chain r) = []).
    { induction (Scanner1.chain r) as [| h chain IH]; simpl.
      - reflexivity.
      - rewrite (proj2 (Hquiet h (or_introl eq_refl))).
        apply IH. intros h' Hin. apply Hquiet. right. exact Hin. }
    rewrite Hnone. reflexivity.
Qed.

End Trace.

(** The wallet [HOT_D]: a page of 100 transfers, the earliest twelve
    hours old, and a history that begins 200 days ago.  The entry says
    200 days and verified-old. *)
Lemma truncation_escalation_witness :
  exists f st' s' hop rest,
    Scanner1.trace_iteration Fixtures.runtime Fixtures.provider Fixtures.scanner1
      0 Fixtures.at_hot_d Fixtures.start = (Ok (f, st'), s') /\
    Scanner1.chain_info st' = hop :: rest /\
    Scanner1.address hop = PStr "HOT_D" /\
    Scanner1.age_days hop = 200 /\
    Scanner1.is_verified_old hop = Some true.
Proof.
  evaluate (Scanner1.get_address_details Fixtures.runtime Fixtures.provider
              Fixtures.scanner1 (Scanner1.current_addr Fixtures.at_hot_d)
              Fixtures.start) Ed.
  match type of Ed with _ = (_, ?s1) =>
    evaluate (datetime_now_utc Fixtures.provider s1) En
  end.
  match type of En with _ = (_, ?s2) =>
    evaluate (Scanner1.get_true_age_via_history Fixtures.runtime Fixtures.provider
                Fixtures.scanner1 (Scanner1.current_addr Fixtures.at_hot_d) s2) Eh
  end.
  evaluate (Scanner1.trace_iteration Fixtures.runtime Fixtures.provider
              Fixtures.scanner1 0 Fixtures.at_hot_d Fixtures.start) Er.
  assert (Hsub : dt_sub (mk_datetime Fixtures.noon (Some 0))
                        (mk_datetime 1793750400000000 (Some 0)) = Ok 43200000000)
    by (vm_compute; reflexivity).
  assert (Hyoung : td_days 43200000000 < 1) by (vm_compute; reflexivity).
  assert (Htrue : dt_sub (mk_datetime Fixtures.noon (Some 0))
                         (mk_datetime 1776513600000000 (Some 0)) = Ok 17280000000000)
    by (vm_compute; reflexivity).
  assert (Hdays : td_days 17280000000000 = 200) by (vm_compute; reflexivity).
  destruct (truncation_escalation Fixtures.runtime Fixtures.provider Fixtures.scanner1
              0 Fixtures.at_hot_d Fixtures.start _ _ _ _ _ _ _ _ _ _ _ _
              Ed eq_refl eq_refl En Hsub Hyoung Eh Htrue Er)
    as (hop & rest & Hchain & _ & Haddress & Hage & Hold).
  rewrite Hdays in Hage, Hold.
  eexists. eexists. eexists. exists hop, rest.
  split; [exact Er |]. split; [exact Hchain |].
  split; [exact Haddress |]. split; [exact Hage | exact Hold].
Defined.

(** The trace from [DEPLOYER_H], whose funder is the busy wallet
    [HOT_D]: its outgoing transfers would make the detector answer
    true, and its entry at depth 1, verified-old, is not marked as a
    distributor. *)
Lemma dispersion_gate_witness :
  exists r s',
    Scanner1.trace_funding_source Fixtures.runtime Fixtures.provider Fixtures.scanner1
      (PStr "DEPLOYER_H") 3 Fixtures.start = (Ok r, s') /\
    fst (analyze_dispersion_pattern Fixtures.provider Fixtures.scanner1
           (PStr "HOT_D") Fixtures.start) = Ok true /\
    exists hop,
      nth_error (Scanner1.chain r) 1 = Some hop /\
      Scanner1.address hop = PStr "HOT_D" /\
      Scanner1.is_verified_old hop = Some true /\
      Scanner1.is_distributor hop = Some false /\
      Scanner1.risk_contribution hop = -10.
Proof.
  evaluate (Scanner1.trace_funding_source Fixtures.runtime Fixtures.provider
              Fixtures.scanner1 (PStr "DEPLOYER_H") 3 Fixtures.start) E.
  eexists. eexists. split; [exact E |].
  split; [vm_compute; reflexivity |].
  eexists. split; [reflexivity |].
  split; [reflexivity |]. split; [reflexivity |].
  apply (proj2 (proj1 (dispersion_gate Fixtures.runtime Fixtures.provider
                         Fixtures.scanner1 (PStr "DEPLOYER_H") 3 Fixtures.start)
                  _ _ E)).
  - right. left. reflexivity.
  - reflexivity.
Defined.

(** The turn at depth 1 of the trace from [DEPLOYER_A]: the wallet
    [FUNDER_B] was funded by an address the provider names Binance. *)
Lemma known_entity_stop_witness :
  exists f st' s',
    Scanner1.trace_iteration Fixtures.runtime Fixtures.provider Fixtures.scanner1
      1 Fixtures.at_funder_b Fixtures.start = (Ok (f, st'), s') /\
    truthy (Scanner1.funder_entity Fixtures.funder_b_details) = true /\
    f = Break /\
    Scanner1.trace_stop_reason st' = "Funded by Known Entity: Binance" /\
    map Scanner1.layer (Scanner1.chain_info st') = [1; 2] /\
    Scanner1.trace_risk_score st' = 10 + 30 - 40 - 20.
Proof.
  evaluate (Scanner1.get_address_details Fixtures.runtime Fixtures.provider
              Fixtures.scanner1 (Scanner1.current_addr Fixtures.at_funder_b)
              Fixtures.start) Ed.
  evaluate (Scanner1.trace_iteration Fixtures.runtime Fixtures.provider
              Fixtures.scanner1 1 Fixtures.at_funder_b Fixtures.start) Er.
  assert (He : truthy (Scanner1.funder_entity Fixtures.funder_b_details) = true)
    by reflexivity.
  destruct (known_entity_stop Fixtures.runtime Fixtures.provider Fixtures.scanner1
              1 Fixtures.at_funder_b Fixtures.start Fixtures.funder_b_details
              _ _ _ _ Ed He Er) as (Hf & Hstop & _ & _).
  eexists. eexists. eexists.
  split; [exact Er |]. split; [exact He |]. split; [exact Hf |].
  split; [exact Hstop |]. split; reflexivity.
Defined.

(** C3 as the specification words it does not hold: on that turn the
    total is reduced by 40 and the entry of the entity carries a
    reduction of 20, which is not the larger one. *)
Lemma entity_reduction_not_larger :
  exists f st' s',
    Scanner1.trace_iteration Fixtures.runtime Fixtures.provider Fixtures.scanner1
      1 Fixtures.at_funder_b Fixtures.start = (Ok (f, st'), s') /\
    fst (Scanner1.get_address_details Fixtures.runtime Fixtures.provider
           Fixtures.scanner1 (PStr "FUNDER_B") Fixtures.start)
      = Ok (Some Fixtures.funder_b_details) /\
    truthy (Scanner1.funder_entity Fixtures.funder_b_details) = true /\
    ~ Scanner1Spec.entity_stop_as_specified Fixtures.runtime 1 Fixtures.at_funder_b
        Fixtures.funder_b_details f st'.
Proof.
  evaluate (Scanner1.trace_iteration Fixtures.runtime Fixtures.provider
              Fixtures.scanner1 1 Fixtures.at_funder_b Fixtures.start) Er.
  eexists. eexists. eexists.
  split; [exact Er |].
  split; [vm_compute; reflexivity |].
  split; [reflexivity |].
  intros (_ & _ & hop & cex & reduction & own & Hchain & _ & _ & _ & Hown & _ & Hlarger & Htotal).
  cbn [Scanner1.chain_info Scanner1.trace_risk_score Fixtures.at_funder_b app] in Hchain, Htotal.
  inversion Hchain; subst hop cex.
  cbn [Scanner1.risk_contribution] in Hown, Htotal.
  lia.
Qed.

(** The trace from [OLD_G], a wallet 672 days old that nobody funded:
    one entry without contribution, and the score is the initial
    total. *)
Lemma baseline_score_witness :
  (exists r s',
      Scanner.trace_funding_source Fixtures.runtime Fixtures.provider Fixtures.scanner
        (PStr "OLD_G") 3 Fixtures.start = (Ok r, s') /\
      List.length (Scanner.chain r) = 1%nat /\ Scanner.score r = 20) /\
  (exists r s',
      Scanner1.trace_funding_source Fixtures.runtime Fixtures.provider Fixtures.scanner1
        (PStr "OLD_G") 3 Fixtures.start = (Ok r, s') /\
      List.length (Scanner1.chain r) = 1%nat /\ Scanner1.score r = 0).
Proof.
  split.
  - evaluate (Scanner.trace_funding_source Fixtures.runtime Fixtures.provider
                Fixtures.scanner (PStr "OLD_G") 3 Fixtures.start) E.
    eexists. eexists. split; [exact E |]. split; [reflexivity |].
    apply (proj1 (baseline_score Fixtures.runtime Fixtures.provider Fixtures.scanner
                    (PStr "OLD_G") 3 Fixtures.start) _ _ E).
    intros h [<- | []]. split; reflexivity.
  - evaluate (Scanner1.trace_funding_source Fixtures.runtime Fixtures.provider
                Fixtures.scanner1 (PStr "OLD_G") 3 Fixtures.start) E.
    eexists. eexists. split; [exact E |]. split; [reflexivity |].
    apply (proj2 (baseline_score Fixtures.runtime Fixtures.provider Fixtures.scanner1
                    (PStr "OLD_G") 3 Fixtures.start) _ _ E).
    intros h [<- | []]. split; reflexivity.
Defined.

(** ** The dispersion detector *)

Section Dispersion.
Context {W : Type} (pv : Provider W) (self : SolanaTokenScanner).
Import CommonSpec.

Lemma existsb_py_eq_strings a acc :
  existsb (py_eq (PStr a)) (map PStr acc) = true <-> In a acc.
Proof.
  rewrite existsb_exists. split.
  - intros (x & Hin & Heq). apply in_map_iff in Hin.
    destruct Hin as (b & <- & Hb). simpl in Heq.
    apply String.eqb_eq in Heq. subst b. exact Hb.
  - intros Hin. exists (PStr a). split.
    + apply in_map. exact Hin.
    + simpl. apply String.eqb_refl.
Qed.

(** The loop leaves in [receivers] one copy of each destination that
    the transfers name; a transfer that names none adds nothing. *)
Lemma collect_receivers_strings txs dests :
  Forall2 destination_of txs dests ->
  forall acc, NoDup acc ->
  exists R,
    collect_receivers txs (map PStr acc) = Ok (map PStr R) /\
    NoDup R /\
    (forall x, In x R <-> In x acc \/ In x (named dests)).
Proof.
  induction 1 as [| tx d txs dests Hdest _ IH]; intros acc Hnd.
  - exists acc. simpl. split; [reflexivity |]. split; [exact Hnd |].
    intros x. split; [intros Hx; left; exact Hx | intros [Hx | []]; exact Hx].
  - destruct d as [a |]; cbn [destination_of named] in *.
    + destruct Hdest as (Hne & kvs & to_kvs & -> & Hto & Haddr).
      cbn [collect_receivers get_default get rbind]. rewrite Hto.
      cbn [get_default get rbind]. rewrite Haddr. cbn [rbind truthy].
      assert (Htruthy : negb (a =? "")%string = true).
      { apply negb_true_iff. apply String.eqb_neq. exact Hne. }
      rewrite Htruthy. cbn [set_add rbind].
      destruct (existsb (py_eq (PStr a)) (map PStr acc)) eqn:Hex.
      * apply existsb_py_eq_strings in Hex.
        destruct (IH acc Hnd) as (R & Hrun & HndR & Hin).
        exists R. split; [exact Hrun |]. split; [exact HndR |].
        intros x. rewrite Hin. simpl. split.
        -- intros [Hx | Hx]; [left; exact Hx | right; right; exact Hx].
        -- intros [Hx | [Hx | Hx]];
             [left; exact Hx | left; subst x; exact Hex | right; exact Hx].
      * assert (Hnotin : ~ In a acc).
        { intros Hin. apply existsb_py_eq_strings in Hin. congruence. }
        assert (Hnd' : NoDup (acc ++ [a])).
        { apply NoDup_app; [exact Hnd | repeat constructor; intros [] |].
          intros x Hx [Hxa | []]. subst x. exact (Hnotin Hx). }
        destruct (IH (acc ++ [a])%list Hnd') as (R & Hrun & HndR & Hin).
        exists R. split.
        -- rewrite map_app in Hrun. exact Hrun.
        -- split; [exact HndR |].
           intros x. rewrite Hin. rewrite in_app_iff. simpl. split.
           ++ intros [[Hx | [Hx | []]] | Hx];
                [left; exact Hx | right; left; exact Hx | right; right; exact Hx].
           ++ intros [Hx | [Hx | Hx]];
                [left; left; exact Hx | left; right; left; exact Hx | right; exact Hx].
    + destruct Hdest as (kvs & -> & Hshape).
      assert (Hskip : forall receivers,
                 collect_receivers (PDict kvs :: txs) receivers
                 = collect_receivers txs receivers).
      { intros receivers. cbn [collect_receivers get_default get rbind].
        revert Hshape.
        destruct (lookup "toAddress" kvs) as [[| | | | | to_kvs] |];
          intros Hshape; try contradiction.
        - unfold get. cbn [get_default rbind]. revert Hshape.
          destruct (lookup "address" to_kvs) as [v |]; intros Hshape.
          + rewrite Hshape. reflexivity.
          + reflexivity.
        - reflexivity. }
      rewrite Hskip. exact (IH acc Hnd).
Qed.

Lemma collect_receivers_count txs dests :
  Forall2 destination_of txs dests ->
  exists receivers,
    collect_receivers txs [] = Ok receivers /\
    Z.of_nat (List.length receivers) = unique_receivers (named dests).
Proof.
  intros Hall.
  destruct (collect_receivers_strings txs dests Hall [] (NoDup_nil _))
    as (R & Hrun & Hnd & Hin).
  exists (map PStr R). split; [exact Hrun |].
  unfold unique_receivers. rewrite length_map. f_equal.
  apply Permutation_length. apply NoDup_Permutation.
  - exact Hnd.
  - apply NoDup_nodup.
  - intros x. rewrite Hin, nodup_In. simpl. tauto.
Qed.

(** The share exceeds one half exactly when twice the receivers are
    more than the transfers. *)
Lemma share_above_half k n :
  0 < n -> ((1 # 2 < receiver_share k n)%Q <-> n < 2 * k).
Proof.
  intros Hn. destruct n as [| p | p]; try lia.
  unfold receiver_share, Qdiv, Qinv, Qmult, Qlt, inject_Z. cbn [Qnum Qden].
  rewrite Pos.mul_1_l. lia.
Qed.

(** The test [unique_ratio > 0.5] of the code, on the same numbers. *)
Lemma ratio_above_half k n :
  0 < n -> (negb (Qle_bool (unique_ratio k n) (1 # 2)) = true <-> n < 2 * k).
Proof.
  intros Hn. destruct n as [| p | p]; try lia.
  unfold unique_ratio, Qle_bool. cbn [Qnum Qden Z.to_pos].
  rewrite negb_true_iff, Z.leb_gt. lia.
Qed.

(** C6: with fewer than 20 outgoing transfers the detector answers
    false.  With 20 or more it answers true exactly when the share of
    the distinct receivers in the transfers, uniqueReceivers /
    totalTransfers, exceeds 1/2 and the distinct receivers are more
    than 20.  The receivers are the destinations that the transfers
    name; a transfer that names none counts among the transfers and
    adds no receiver. *)
Theorem dispersion_threshold address s data s1 txs :
  truthy address = true ->
  _get pv self "/transfers"
    (Some [("from", address); ("chain", PStr "solana"); ("limit", PInt 100)]) s
    = (Ok data, s1) ->
  _normalize_transfers_list data = PList txs ->
  (Z.of_nat (List.length txs) < 20 ->
   analyze_dispersion_pattern pv self address s = (Ok false, s1)) /\
  (20 <= Z.of_nat (List.length txs) ->
   forall dests, Forall2 destination_of txs dests ->
   exists b,
     analyze_dispersion_pattern pv self address s = (Ok b, s1) /\
     (b = true <->
      (1 # 2 < receiver_share (unique_receivers (named dests))
                 (Z.of_nat (List.length txs)))%Q /\
      20 < unique_receivers (named dests))).
Proof.
  intros Haddr Hget Hnorm.
  assert (Hrun : analyze_dispersion_pattern pv self address s
                 = (dispersion_of (PList txs), s1)).
  { unfold analyze_dispersion_pattern. rewrite Haddr. cbn [negb].
    unfold bind. rewrite Hget. unfold lift. rewrite Hnorm. reflexivity. }
  rewrite Hrun. clear Hrun. unfold dispersion_of. cbn [len rbind].
  split.
  - intros Hsmall. destruct txs as [| tx txs]; [reflexivity |].
    cbn [truthy negb].
    apply Z.ltb_lt in Hsmall. rewrite Hsmall. reflexivity.
  - intros Hbig dests Hall.
    destruct txs as [| tx txs]; [simpl in Hbig; lia |].
    cbn [truthy negb iter rbind].
    assert (Hnot : (Z.of_nat (List.length (tx :: txs)) <? 20) = false)
      by (apply Z.ltb_ge; exact Hbig).
    rewrite Hnot.
    destruct (collect_receivers_count _ _ Hall) as (receivers & Hrun & Hcount).
    rewrite Hrun. cbn [rbind]. rewrite Hcount.
    assert (Hpos : 0 < Z.of_nat (List.length (tx :: txs))) by lia.
    destruct (negb (Qle_bool (unique_ratio (unique_receivers (named dests))
                                (Z.of_nat (List.length (tx :: txs)))) (1 # 2))
              && (20 <? unique_receivers (named dests))) eqn:Hb.
    + exists true. split; [reflexivity |].
      rewrite (share_above_half _ _ Hpos).
      apply andb_true_iff in Hb. destruct Hb as [Hratio Hcnt].
      apply (ratio_above_half _ _ Hpos) in Hratio. apply Z.ltb_lt in Hcnt. tauto.
    + exists false. split; [reflexivity |].
      rewrite (share_above_half _ _ Hpos).
      split; [discriminate |].
      intros [Hratio Hcnt]. apply (ratio_above_half _ _ Hpos) in Hratio.
      apply Z.ltb_lt in Hcnt.
      rewrite Hratio, Hcnt in Hb. discriminate Hb.
Qed.

End Dispersion.

Lemma fan_out_sends from n k :
  Forall2 CommonSpec.sends_to (Fixtures.fan_out from n k) (Fixtures.fan_out_receivers n k).
Proof.
  unfold Fixtures.fan_out, Fixtures.fan_out_receivers.
  induction (seq 0 n) as [| i l IH]; simpl; constructor; [| exact IH].
  split; [discriminate |].
  eexists. eexists. split; [reflexivity |]. split; reflexivity.
Qed.

Lemma outgoing_names n k m :
  Forall2 CommonSpec.destination_of (Samples.outgoing n k m)
    (Samples.outgoing_destinations n k m).
Proof.
  unfold Samples.outgoing, Samples.outgoing_destinations.
  apply Forall2_app.
  - pose proof (fan_out_sends "X" n k) as Hsends.
    induction Hsends as [| tx a txs addrs Hsend _ IH]; simpl; constructor;
      [exact Hsend | exact IH].
  - induction m as [| m IH]; simpl; constructor; [| exact IH].
    eexists. split; [reflexivity |]. exact I.
Qed.

(** The provider of the samples serves its document at the first
    attempt. *)
Lemma served_at_once doc self endpoint ps (s : state unit) :
  exists s1, _get (Samples.serving doc) self endpoint ps s = (Ok doc, s1).
Proof. eexists. reflexivity. Qed.

(** The three samples of the specification (25 transfers to 21
    receivers, 25 to 10, 15 to 15), and four more: 42 transfers to 21
    receivers, a share of exactly one half; 41 transfers to 21
    receivers; 25 transfers of which 4 name no destination, to 21
    receivers; and 25 transfers of which 5 name no destination, to 20
    receivers. *)
Lemma dispersion_threshold_witness :
  fst (Samples.answer_for 25 21 0) = Ok true /\
  fst (Samples.answer_for 25 10 0) = Ok false /\
  fst (Samples.answer_for 15 15 0) = Ok false /\
  fst (Samples.answer_for 42 21 0) = Ok false /\
  fst (Samples.answer_for 41 21 0) = Ok true /\
  fst (Samples.answer_for 21 21 4) = Ok true /\
  fst (Samples.answer_for 20 20 5) = Ok false.
Proof.
  assert (Hsample : forall n k m,
    (20 <= n + m)%nat ->
    exists b,
      fst (Samples.answer_for n k m) = Ok b /\
      (b = true <->
       (1 # 2 < CommonSpec.receiver_share
                  (CommonSpec.unique_receivers
                     (CommonSpec.named (Samples.outgoing_destinations n k m)))
                  (Z.of_nat (List.length (Samples.outgoing n k m))))%Q /\
       20 < CommonSpec.unique_receivers
              (CommonSpec.named (Samples.outgoing_destinations n k m)))).
  { intros n k m Hbig.
    destruct (served_at_once (PList (Samples.outgoing n k m)) Fixtures.scanner1
                "/transfers"
                (Some [("from", PStr "X"); ("chain", PStr "solana"); ("limit", PInt 100)])
                Fixtures.start)
      as (s1 & Eget).
    assert (Hlen : 20 <= Z.of_nat (List.length (Samples.outgoing n k m))).
    { unfold Samples.outgoing, Fixtures.fan_out.
      rewrite length_app, length_map, length_seq, repeat_length. lia. }
    assert (Hnorm : _normalize_transfers_list (PList (Samples.outgoing n k m))
                    = PList (Samples.outgoing n k m)).
    { destruct (Samples.outgoing n k m); [simpl in Hlen; lia | reflexivity]. }
    destruct (proj2 (dispersion_threshold
                       (Samples.serving (PList (Samples.outgoing n k m)))
                       Fixtures.scanner1 (PStr "X") Fixtures.start _ _ _
                       eq_refl Eget Hnorm)
                Hlen _ (outgoing_names n k m)) as (b & Hrun & Hiff).
    exists b. unfold Samples.answer_for. rewrite Hrun. split; [reflexivity | exact Hiff]. }
  assert (Hyes : forall n k m, (20 <= n + m)%nat ->
    (1 # 2 < CommonSpec.receiver_share
               (CommonSpec.unique_receivers
                  (CommonSpec.named (Samples.outgoing_destinations n k m)))
               (Z.of_nat (List.length (Samples.outgoing n k m))))%Q ->
    20 < CommonSpec.unique_receivers
           (CommonSpec.named (Samples.outgoing_destinations n k m)) ->
    fst (Samples.answer_for n k m) = Ok true).
  { intros n k m Hbig Hshare Hcount.
    destruct (Hsample n k m Hbig) as (b & Hrun & Hiff).
    rewrite Hrun. f_equal. apply Hiff. split; assumption. }
  assert (Hno : forall n k m, (20 <= n + m)%nat ->
    ~ ((1 # 2 < CommonSpec.receiver_share
                  (CommonSpec.unique_receivers
                     (CommonSpec.named (Samples.outgoing_destinations n k m)))
                  (Z.of_nat (List.length (Samples.outgoing n k m))))%Q /\
       20 < CommonSpec.unique_receivers
              (CommonSpec.named (Samples.outgoing_destinations n k m))) ->
    fst (Samples.answer_for n k m) = Ok false).
  { intros n k m Hbig Hnot.
    destruct (Hsample n k m Hbig) as (b & Hrun & Hiff).
    rewrite Hrun. f_equal. destruct b; [| reflexivity].
    contradiction (Hnot (proj1 Hiff eq_refl)). }
  split; [| split; [| split; [| split; [| split; [| split]]]]].
  - apply Hyes; [lia | vm_compute; reflexivity | vm_compute; reflexivity].
  - apply Hno; [lia |]. intros [_ Hcount]. vm_compute in Hcount. discriminate Hcount.
  - destruct (served_at_once (PList (Samples.outgoing 15 15 0)) Fixtures.scanner1
                "/transfers"
                (Some [("from", PStr "X"); ("chain", PStr "solana"); ("limit", PInt 100)])
                Fixtures.start)
      as (s1 & Eget).
    unfold Samples.answer_for.
    rewrite (proj1 (dispersion_threshold
                      (Samples.serving (PList (Samples.outgoing 15 15 0)))
                      Fixtures.scanner1 (PStr "X") Fixtures.start _ _ _
                      eq_refl Eget eq_refl)); [reflexivity |].
    vm_compute. reflexivity.
  - apply Hno; [lia |]. intros [Hshare _]. vm_compute in Hshare. discriminate Hshare.
  - apply Hyes; [lia | vm_compute; reflexivity | vm_compute; reflexivity].
  - apply Hyes; [lia | vm_compute; reflexivity | vm_compute; reflexivity].
  - apply Hno; [lia |]. intros [_ Hcount]. vm_compute in Hcount. discriminate Hcount.
Defined.

(** ** The database pre-check *)

Section Classifier.
Context {W : Type} (rt : Runtime) (pv : Provider W) (self : SolanaTokenScanner).


(** The same document in [Scanner.py]: the verdict is Known and Low,
    and the score is 0. *)
Lemma scanner_classify_plain data entity label entity_name label_name :
  get data "arkhamEntity" = Ok entity ->
  get data "arkhamLabel" = Ok label ->
  Scanner.name_or_unknown entity = Ok (PStr entity_name) ->
  Scanner.name_or_unknown label = Ok (PStr label_name) ->
  any_in Scanner.bad_keywords (str_lower rt (entity_name ++ " " ++ label_name)) = false ->
  any_in (cex_keywords self) (str_lower rt (entity_name ++ " " ++ label_name)) = false ->
  Scanner.classify rt self data
  = Ok (if truthy entity
        then Some (Scanner.mk_db_status "KNOWN" 0 "LOW"
                     ["Established Project: " ++ entity_name]
                     (Scanner.mk_db_details entity_name "Known Entity"))
        else None).
Proof.
  intros He Hl Hen Hln Hbad Hgood.
  unfold Scanner.classify.
  destruct (truthy data) eqn:Hdata; cbn [negb].
  - rewrite He. cbn [rbind]. rewrite Hl. cbn [rbind].
    destruct (truthy entity); destruct (truthy label); cbn [negb andb];
      try reflexivity;
      rewrite Hen; cbn [rbind]; rewrite Hln; cbn [rbind Scanner.full_name_of];
      rewrite Hbad, Hgood; reflexivity.
  - destruct data as [| [|] | n | str | l | kvs]; try discriminate He.
    destruct kvs; [| discriminate Hdata].
    inversion He; subst entity. reflexivity.
Qed.


End Classifier.



(** ** Lookups that find nothing *)

Section NoData.
Context {W : Type} (rt : Runtime) (pv : Provider W) (self : SolanaTokenScanner).

(** [_get] always returns: every failure is turned into [None]. *)
Lemma get_attempts_returns n req (s : state W) :
  exists v s', get_attempts pv n req s = (Ok v, s').
Proof.
  revert s. induction n as [| n IH]; intros s; simpl.
  - eexists. eexists. reflexivity.
  - unfold bind, http_get.
    destruct (requests_get pv req (world s)) as [[resp |] w'].
    + destruct (status_code resp =? 200).
      * eexists. eexists. reflexivity.
      * unfold sleep. apply IH.
    + eexists. eexists. reflexivity.
Qed.

Lemma _get_returns endpoint params (s : state W) :
  exists v s', _get pv self endpoint params s = (Ok v, s').
Proof. apply get_attempts_returns. Qed.

(** [get_address_details] returns [None] for an address that is
    [None] or empty, and for no other. *)
Lemma scanner1_details_none a s s' :
  Scanner1.get_address_details rt pv self a s = (Ok None, s') -> truthy a = false.
Proof.
  unfold Scanner1.get_address_details.
  destruct (truthy a); [| reflexivity]. simpl. intros H.
  apply bind_ok in H. destruct H as (d1 & s1 & _ & H).
  apply bind_ok in H. destruct H as (tl & s2 & _ & H).
  destruct (negb (truthy tl)).
  - apply ret_ok in H. destruct H as [H _]. discriminate H.
  - apply bind_ok in H. destruct H as (d & s3 & _ & H).
    apply ret_ok in H. destruct H as [H _]. discriminate H.
Qed.

(** C9, what the code does: when the details of the starting address
    cannot be resolved, the loop is left at once and the trace reports
    ["Max depth reached"], the reason it was initialised with, whatever
    the depth allowed; no reason of its own is given to a failed
    lookup.  ([scanner1.py] first, [Scanner.py] second.) *)
Theorem lookup_failure_reports_max_depth max_depth (s : state W) :
  Scanner1.trace_funding_source rt pv self PNone max_depth s
    = (Ok (Scanner1.mk_trace 0 [] "Max depth reached"), s) /\
  Scanner.trace_funding_source rt pv self PNone max_depth s
    = (Ok (Scanner.mk_trace 20 [] "Max depth reached"), s).
Proof.
  unfold Scanner1.trace_funding_source, Scanner.trace_funding_source, range.
  destruct (Z.to_nat (max_depth + 1)); split; reflexivity.
Qed.




End NoData.

(** The token [TOKEN_F], whose first transfer names no address: the
    deployer is [None], the trace has no entry, and the report gives
    ["Max depth reached"] as the reason the walk stopped. *)
Example unresolved_deployer_report :
  fst (Scanner1.assess_token_risk Fixtures.runtime Fixtures.provider Fixtures.scanner1
         "TOKEN_F" Fixtures.start)
  = Ok (Scanner1.Scanned "TOKEN_F" PNone (Scanner1.mk_risk 0 "LOW" []) []
          "Max depth reached").
Proof. vm_compute. reflexivity. Qed.

(** The chain of old wallets [H0], [H1], ...: the walk uses up its
    depth, and reports the same reason. *)
Example exhausted_depth_report :
  exists r,
    fst (Scanner1.trace_funding_source Fixtures.runtime Fixtures.provider
           Fixtures.scanner1 (PStr "H0") 3 Fixtures.start) = Ok r /\
    map Scanner1.layer (Scanner1.chain r) = [0; 1; 2; 3] /\
    Scanner1.stop_reason r = "Max depth reached".
Proof. eexists. split; [vm_compute; reflexivity | split; reflexivity]. Qed.



(** The trace from [DEPLOYER_A]: three entries with layers 0, 1, 2 in
    either version, the last one the entry of the exchange. *)
Lemma trace_layers_consecutive_witness :
  0 <= 3 /\
  (exists r s',
      Scanner1.trace_funding_source Fixtures.runtime Fixtures.provider Fixtures.scanner1
        (PStr "DEPLOYER_A") 3 Fixtures.start = (Ok r, s') /\
      map Scanner1.layer (Scanner1.chain r) = [0; 1; 2] /\
      Scanner1Spec.consecutive_layers (Scanner1.chain r) /\
      Z.of_nat (List.length (Scanner1.chain r)) <= 3 + 2) /\
  (exists r s',
      Scanner.trace_funding_source Fixtures.runtime Fixtures.provider Fixtures.scanner
        (PStr "DEPLOYER_A") 3 Fixtures.start = (Ok r, s') /\
      map Scanner.layer (Scanner.chain r) = [0; 1; 2] /\
      ScannerSpec.consecutive_layers (Scanner.chain r) /\
      Z.of_nat (List.length (Scanner.chain r)) <= 3 + 2).
Proof.
  assert (Hdepth : 0 <= 3) by lia.
  split; [exact Hdepth |]. split.
  - evaluate (Scanner1.trace_funding_source Fixtures.runtime Fixtures.provider
                Fixtures.scanner1 (PStr "DEPLOYER_A") 3 Fixtures.start) E.
    eexists. eexists. split; [exact E |]. split; [reflexivity |].
    exact (proj1 (trace_layers_consecutive Fixtures.runtime Fixtures.provider
                    Fixtures.scanner1 (PStr "DEPLOYER_A") 3 Fixtures.start Hdepth) _ _ E).
  - evaluate (Scanner.trace_funding_source Fixtures.runtime Fixtures.provider
                Fixtures.scanner (PStr "DEPLOYER_A") 3 Fixtures.start) E.
    eexists. eexists. split; [exact E |]. split; [reflexivity |].
    exact (proj2 (trace_layers_consecutive Fixtures.runtime Fixtures.provider
                    Fixtures.scanner (PStr "DEPLOYER_A") 3 Fixtures.start Hdepth) _ _ E).
Defined.

(** The token [TOKEN_A] of the table: the trace of [scanner1.py] totals
    -20 and the report says 0; the trace of [Scanner.py] totals 110 and
    the report says 100. *)
Lemma final_score_clamped_witness :
  (exists fa s1 s',
      Scanner1.trace_funding_source Fixtures.runtime Fixtures.provider Fixtures.scanner1
        (PStr "DEPLOYER_A") 3 s1 = (Ok fa, s') /\
      0 = Z.max 0 (Z.min 100 (Scanner1.score fa)) /\ 0 <= 0 <= 100) /\
  (exists fa s1 s',
      Scanner.trace_funding_source Fixtures.runtime Fixtures.provider Fixtures.scanner
        (PStr "DEPLOYER_A") 3 s1 = (Ok fa, s') /\
      100 = Z.max 0 (Z.min 100 (Scanner.score fa)) /\ 0 <= 100 <= 100).
Proof.
  split.
  - evaluate (Scanner1.assess_token_risk Fixtures.runtime Fixtures.provider
                Fixtures.scanner1 "TOKEN_A" Fixtures.start) E.
    destruct (proj1 (final_score_clamped Fixtures.runtime Fixtures.provider
                       Fixtures.scanner1 "TOKEN_A" Fixtures.start) _ _ _ _ _ _ E)
      as (fa & s1 & Htrace & Hscore & Hbounds).
    exists fa, s1. eexists. split; [exact Htrace |]. split; [exact Hscore | exact Hbounds].
  - evaluate (Scanner.assess_token_risk Fixtures.runtime Fixtures.provider
                Fixtures.scanner "TOKEN_A" Fixtures.start) E.
    destruct (proj2 (final_score_clamped Fixtures.runtime Fixtures.provider
                       Fixtures.scanner "TOKEN_A" Fixtures.start) _ _ _ _ _ _ E)
      as (fa & s1 & Htrace & Hscore & Hbounds).
    exists fa, s1. eexists. split; [exact Htrace |]. split; [exact Hscore | exact Hbounds].
Defined.

End Properties.

(* ================================================================== *)
(** * Further properties of the code                                   *)
(* ================================================================== *)

Module Coverage.
Import Py Eff Common Facts.
Local Open Scope py_scope.
Local Open Scope eff_scope.

(** ** [_get] *)

Section Transport.
Context {W : Type} (pv : Provider W) (self : SolanaTokenScanner).

Lemma get_attempts_repeats n req (s : state W) :
  exists v s' k,
    get_attempts pv n req s = (Ok v, s') /\
    (k <= n)%nat /\ (1 <= n -> 1 <= k)%nat /\
    sent s' = (sent s ++ repeat req k)%list.
Proof.
  revert s. induction n as [| n IH]; intros s.
  - exists PNone, s, 0%nat. simpl. rewrite app_nil_r.
    repeat split; lia.
  - cbn [get_attempts]. unfold bind, http_get.
    destruct (requests_get pv req (world s)) as [[resp |] w'].
    + destruct (status_code resp =? 200).
      * eexists. eexists. exists 1%nat. split; [reflexivity |].
        repeat split; lia.
      * unfold sleep.
        destruct (IH (mk_state (time_sleep pv 1000 w') (sent s ++ [req])%list))
          as (v & s' & k & Hrun & Hk & _ & Hsent).
        exists v, s', (S k). split; [exact Hrun |].
        split; [lia |]. split; [lia |].
        rewrite Hsent. cbn [sent repeat]. rewrite <- app_assoc. reflexivity.
    + eexists. eexists. exists 1%nat. split; [reflexivity |].
      repeat split; lia.
Qed.

(** X1: [_get] never raises, and it calls [requests.get] at least once
    and at most three times, each time with the same request. *)
Theorem get_retries_bounded endpoint ps (s : state W) :
  exists v s' k,
    _get pv self endpoint ps s = (Ok v, s') /\
    (1 <= k <= 3)%nat /\
    sent s' = (sent s ++ repeat (mk_request (base_url self ++ endpoint)
                                   (self_headers self) ps) k)%list.
Proof.
  unfold _get.
  destruct (get_attempts_repeats 3 (mk_request (base_url self ++ endpoint)
                                      (self_headers self) ps) s)
    as (v & s' & k & Hrun & Hk & Hpos & Hsent).
  exists v, s', k. split; [exact Hrun |]. split; [lia | exact Hsent].
Qed.

Lemma get_attempts_refused n req (s : state W) :
  (forall w resp w', requests_get pv req w = (Some resp, w') ->
                     (status_code resp =? 200) = false) ->
  exists s', get_attempts pv n req s = (Ok PNone, s').
Proof.
  intros Hrefused. revert s. induction n as [| n IH]; intros s.
  - eexists. reflexivity.
  - cbn [get_attempts]. unfold bind, http_get.
    destruct (requests_get pv req (world s)) as [[resp |] w'] eqn:E.
    + rewrite (Hrefused _ _ _ E). unfold sleep. apply IH.
    + eexists. reflexivity.
Qed.

(** X2: when the provider never answers a request with status 200
    (it refuses, or the call raises), [_get] returns [None]. *)
Theorem get_outage_is_none endpoint ps (s : state W) :
  (forall w resp w',
      requests_get pv (mk_request (base_url self ++ endpoint) (self_headers self) ps) w
        = (Some resp, w') ->
      (status_code resp =? 200) = false) ->
  exists s', _get pv self endpoint ps s = (Ok PNone, s').
Proof. intros Hrefused. apply get_attempts_refused. exact Hrefused. Qed.

End Transport.

(** The table has no row for the token [NOPE]: every answer is 404. *)
Lemma get_outage_is_none_witness :
  exists s', _get Fixtures.provider Fixtures.scanner1 "/intelligence/address/NOPE" None
               Fixtures.start = (Ok PNone, s').
Proof.
  apply (get_outage_is_none Fixtures.provider Fixtures.scanner1).
  intros w resp w' H. vm_compute in H. inversion H. reflexivity.
Defined.

(** ** The verdicts of the database pre-check *)

Section Verdicts.
Context {W : Type} (rt : Runtime) (pv : Provider W) (self : SolanaTokenScanner).

(** X3: the blacklist is tested first.  A document whose combined name
    text, in the lower case that [str.lower()] gives it, contains a
    blacklist keyword gets the verdict Known, 100, High, whatever
    trusted-issuer keywords the text contains as well; in both
    versions. *)
Theorem blacklist_wins data entity label entity_name label_name :
  get data "arkhamEntity" = Ok entity ->
  get data "arkhamLabel" = Ok label ->
  truthy entity || truthy label = true ->
  Scanner1.name_or_unknown entity = Ok (PStr entity_name) ->
  Scanner1.name_or_unknown label = Ok (PStr label_name) ->
  (any_in Scanner1.bad_keywords (str_lower rt (entity_name ++ " " ++ label_name)) = true ->
   exists db,
     Scanner1.classify rt self data = Ok (Some db) /\
     Scanner1.risk_score db = 100 /\ Scanner1.db_label db = "HIGH" /\
     Scanner1.reason (Scanner1.details db) = "Database Blacklist") /\
  (any_in Scanner.bad_keywords (str_lower rt (entity_name ++ " " ++ label_name)) = true ->
   exists db,
     Scanner.classify rt self data = Ok (Some db) /\
     Scanner.risk_score db = 100 /\ Scanner.db_label db = "HIGH" /\
     Scanner.reason (Scanner.details db) = "Database Blacklist").
Proof.
  intros He Hl Hsome Hen Hln.
  assert (Hdata : truthy data = true).
  { destruct data as [| [|] | n | str | l | kvs]; try discriminate He.
    destruct kvs; [| reflexivity].
    inversion He; subst. inversion Hl; subst. discriminate Hsome. }
  assert (Hgate : negb (truthy entity) && negb (truthy label) = false).
  { destruct (truthy entity); destruct (truthy label);
      try reflexivity; discriminate Hsome. }
  split; intros Hbad.
  - unfold Scanner1.classify. rewrite Hdata. cbn [negb].
    rewrite He. cbn [rbind]. rewrite Hl. cbn [rbind]. rewrite Hgate.
    rewrite Hen. cbn [rbind]. rewrite Hln. cbn [rbind Scanner1.full_name_of].
    rewrite Hbad. eexists. split; [reflexivity |]. repeat split.
  - unfold Scanner.classify. rewrite Hdata. cbn [negb].
    rewrite He. cbn [rbind]. rewrite Hl. cbn [rbind]. rewrite Hgate.
    change (Scanner.name_or_unknown entity) with (Scanner1.name_or_unknown entity).
    change (Scanner.name_or_unknown label) with (Scanner1.name_or_unknown label).
    rewrite Hen. cbn [rbind]. rewrite Hln. cbn [rbind Scanner.full_name_of].
    rewrite Hbad. eexists. split; [reflexivity |]. repeat split.
Qed.

(** Every verdict of [scanner1.py] is Known, and either 100 with High
    or at most 10 with Low. *)
Lemma scanner1_classify_range data db :
  Scanner1.classify rt self data = Ok (Some db) ->
  Scanner1.status db = "KNOWN" /\
  ((Scanner1.risk_score db = 100 /\ Scanner1.db_label db = "HIGH") \/
   (0 <= Scanner1.risk_score db <= 10 /\ Scanner1.db_label db = "LOW")).
Proof.
  unfold Scanner1.classify.
  destruct (negb (truthy data)); [discriminate |].
  intros H.
  apply rbind_ok in H. destruct H as (entity & _ & H).
  apply rbind_ok in H. destruct H as (label & _ & H).
  destruct (negb (truthy entity) && negb (truthy label)); [discriminate |].
  apply rbind_ok in H. destruct H as (en & _ & H).
  apply rbind_ok in H. destruct H as (ln & _ & H).
  apply rbind_ok in H. destruct H as (full & _ & H).
  destruct (any_in Scanner1.bad_keywords full).
  { inversion H; subst db. split; [reflexivity |]. left. split; reflexivity. }
  destruct (any_in (cex_keywords self) full).
  { inversion H; subst db. split; [reflexivity |]. right. simpl. split; [lia | reflexivity]. }
  destruct (truthy entity); [| discriminate].
  inversion H; subst db. split; [reflexivity |]. right. simpl. split; [lia | reflexivity].
Qed.

Lemma scanner_classify_range data db :
  Scanner.classify rt self data = Ok (Some db) ->
  Scanner.status db = "KNOWN" /\
  ((Scanner.risk_score db = 100 /\ Scanner.db_label db = "HIGH") \/
   (Scanner.risk_score db = 0 /\ Scanner.db_label db = "LOW")).
Proof.
  unfold Scanner.classify.
  destruct (negb (truthy data)); [discriminate |].
  intros H.
  apply rbind_ok in H. destruct H as (entity & _ & H).
  apply rbind_ok in H. destruct H as (label & _ & H).
  destruct (negb (truthy entity) && negb (truthy label)); [discriminate |].
  apply rbind_ok in H. destruct H as (en & _ & H).
  apply rbind_ok in H. destruct H as (ln & _ & H).
  apply rbind_ok in H. destruct H as (full & _ & H).
  destruct (any_in Scanner.bad_keywords full).
  { inversion H; subst db. split; [reflexivity |]. left. split; reflexivity. }
  destruct (any_in (cex_keywords self) full).
  { inversion H; subst db. split; [reflexivity |]. right. split; reflexivity. }
  destruct (truthy entity); [| discriminate].
  inversion H; subst db. split; [reflexivity |]. right. split; reflexivity.
Qed.

(** What [assess_token_risk] returns, by cases. *)
Lemma scanner1_assess_cases token s a s' :
  Scanner1.assess_token_risk rt pv self token s = (Ok a, s') ->
  (exists db data, Scanner1.classify rt self data = Ok (Some db) /\
      a = Scanner1.Known token
            (Scanner1.mk_risk (Scanner1.risk_score db) (Scanner1.db_label db)
               (Scanner1.db_flags db)) (Scanner1.details db)) \/
  (exists msg, a = Scanner1.Error token msg) \/
  (exists deployer fa s1,
      Scanner1.trace_funding_source rt pv self deployer 3 s1 = (Ok fa, s') /\
      Scanner1.aggregate rt token deployer fa = Ok a).
Proof.
  unfold Scanner1.assess_token_risk. intros H.
  apply bind_ok in H. destruct H as (db & s1 & Hdb & H).
  destruct db as [db |].
  { apply ret_ok in H. destruct H as [-> _]. left.
    unfold Scanner1.check_database_status in Hdb.
    apply bind_ok in Hdb. destruct Hdb as (data & s2 & _ & Hdb).
    apply lift_ok in Hdb. destruct Hdb as [Hdb _].
    exists db, data. split; [exact Hdb | reflexivity]. }
  apply bind_ok in H. destruct H as (data & s2 & _ & H).
  destruct (negb (truthy (_normalize_transfers_list data))).
  { apply ret_ok in H. destruct H as [-> _]. right. left. eexists. reflexivity. }
  apply bind_ok in H. destruct H as (dep & s3 & _ & H).
  destruct dep as [dep |].
  2:{ apply ret_ok in H. destruct H as [-> _]. right. left. eexists. reflexivity. }
  apply bind_ok in H. destruct H as (fa & s4 & Htrace & H).
  apply lift_ok in H. destruct H as [H ->].
  right. right. exists dep, fa, s3. split; [exact Htrace | exact H].
Qed.

Lemma scanner_assess_cases token s a s' :
  Scanner.assess_token_risk rt pv self token s = (Ok a, s') ->
  (exists db data, Scanner.classify rt self data = Ok (Some db) /\
      a = Scanner.Known token
            (Scanner.mk_risk (Scanner.risk_score db) (Scanner.db_label db)
               (Scanner.db_flags db)) (Scanner.details db)) \/
  (exists msg, a = Scanner.Error token msg) \/
  (exists deployer fa s1,
      Scanner.trace_funding_source rt pv self deployer 3 s1 = (Ok fa, s') /\
      a = Scanner.aggregate rt token deployer fa).
Proof.
  unfold Scanner.assess_token_risk. intros H.
  apply bind_ok in H. destruct H as (db & s1 & Hdb & H).
  destruct db as [db |].
  { apply ret_ok in H. destruct H as [-> _]. left.
    unfold Scanner.check_database_status in Hdb.
    apply bind_ok in Hdb. destruct Hdb as (data & s2 & _ & Hdb).
    apply lift_ok in Hdb. destruct Hdb as [Hdb _].
    exists db, data. split; [exact Hdb | reflexivity]. }
  apply bind_ok in H. destruct H as (data & s2 & _ & H).
  destruct (negb (truthy (_normalize_transfers_list data))).
  { apply ret_ok in H. destruct H as [-> _]. right. left. eexists. reflexivity. }
  apply bind_ok in H. destruct H as (dep & s3 & _ & H).
  destruct dep as [dep |].
  2:{ apply ret_ok in H. destruct H as [-> _]. right. left. eexists. reflexivity. }
  apply bind_ok in H. destruct H as (fa & s4 & Htrace & H).
  apply ret_ok in H. destruct H as [-> ->].
  right. right. exists dep, fa, s3. split; [exact Htrace | reflexivity].
Qed.

(** X4: whatever [assess_token_risk] returns (a known verdict, an
    error, a report of a deep scan) names the token it was called
    with; in both versions. *)
Theorem report_names_token token (s : state W) :
  (forall a s', Scanner1.assess_token_risk rt pv self token s = (Ok a, s') ->
                ReportSpec.scanner1_token_of a = token) /\
  (forall a s', Scanner.assess_token_risk rt pv self token s = (Ok a, s') ->
                ReportSpec.scanner_token_of a = token).
Proof.
  split; intros a s' H.
  - apply scanner1_assess_cases in H.
    destruct H as [(db & data & _ & ->) | [(msg & ->) | (dep & fa & s1 & _ & H)]];
      try reflexivity.
    apply Properties.scanner1_aggregate_score in H.
    destruct H as (flags & lg & ->). reflexivity.
  - apply scanner_assess_cases in H.
    destruct H as [(db & data & _ & ->) | [(msg & ->) | (dep & fa & s1 & _ & ->)]];
      try reflexivity.
    destruct (Properties.scanner_aggregate_score rt token dep fa) as (flags & lg & ->).
    reflexivity.
Qed.

(** X5: every risk assessment that [assess_token_risk] returns, from
    the database or from a deep scan, has a score between 0 and 100 and
    a label that agrees with it: High from 70 on, Low below the lower
    cutoff (40 in [scanner1.py], 30 in [Scanner.py]), Medium between. *)
Theorem report_score_and_label token (s : state W) :
  (forall a s' risk,
      Scanner1.assess_token_risk rt pv self token s = (Ok a, s') ->
      ReportSpec.scanner1_risk_of a = Some risk ->
      0 <= Scanner1.final_score risk <= 100 /\
      ((Scanner1.label risk = "HIGH" /\ 70 <= Scanner1.final_score risk) \/
       (Scanner1.label risk = "MEDIUM" /\ 40 <= Scanner1.final_score risk < 70) \/
       (Scanner1.label risk = "LOW" /\ Scanner1.final_score risk < 40))) /\
  (forall a s' risk,
      Scanner.assess_token_risk rt pv self token s = (Ok a, s') ->
      ReportSpec.scanner_risk_of a = Some risk ->
      0 <= Scanner.final_score risk <= 100 /\
      ((Scanner.label risk = "HIGH" /\ 70 <= Scanner.final_score risk) \/
       (Scanner.label risk = "MEDIUM" /\ 30 <= Scanner.final_score risk < 70) \/
       (Scanner.label risk = "LOW" /\ Scanner.final_score risk < 30))).
Proof.
  split; intros a s' risk H Hrisk.
  - apply scanner1_assess_cases in H.
    destruct H as [(db & data & Hc & ->) | [(msg & ->) | (dep & fa & s1 & _ & H)]].
    + inversion Hrisk; subst risk. cbn [Scanner1.final_score Scanner1.label].
      apply scanner1_classify_range in Hc.
      destruct Hc as [_ [[-> ->] | [Hlow ->]]].
      * split; [lia |]. left. split; [reflexivity | lia].
      * split; [lia |]. right. right. split; [reflexivity | lia].
    + discriminate Hrisk.
    + apply Properties.scanner1_aggregate_score in H.
      destruct H as (flags & lg & ->). inversion Hrisk; subst risk.
      cbn [Scanner1.final_score Scanner1.label].
      split; [lia |].
      destruct (70 <=? Z.max 0 (Z.min 100 (Scanner1.score fa))) eqn:E70.
      * left. split; [reflexivity | apply Z.leb_le; exact E70].
      * apply Z.leb_gt in E70.
        destruct (40 <=? Z.max 0 (Z.min 100 (Scanner1.score fa))) eqn:E40.
        -- right. left. apply Z.leb_le in E40. split; [reflexivity | lia].
        -- right. right. apply Z.leb_gt in E40. split; [reflexivity | lia].
  - apply scanner_assess_cases in H.
    destruct H as [(db & data & Hc & ->) | [(msg & ->) | (dep & fa & s1 & _ & ->)]].
    + inversion Hrisk; subst risk. cbn [Scanner.final_score Scanner.label].
      apply scanner_classify_range in Hc.
      destruct Hc as [_ [[-> ->] | [-> ->]]].
      * split; [lia |]. left. split; [reflexivity | lia].
      * split; [lia |]. right. right. split; [reflexivity | lia].
    + discriminate Hrisk.
    + destruct (Properties.scanner_aggregate_score rt token dep fa)
        as (flags & lg & E).
      rewrite E in Hrisk. inversion Hrisk; subst risk.
      cbn [Scanner.final_score Scanner.label].
      split; [lia |].
      destruct (70 <=? Z.max 0 (Z.min 100 (Scanner.score fa))) eqn:E70.
      * left. split; [reflexivity | apply Z.leb_le; exact E70].
      * apply Z.leb_gt in E70.
        destruct (30 <=? Z.max 0 (Z.min 100 (Scanner.score fa))) eqn:E30.
        -- right. left. apply Z.leb_le in E30. split; [reflexivity | lia].
        -- right. right. apply Z.leb_gt in E30. split; [reflexivity | lia].
Qed.

End Verdicts.

(** An entity named after an exchange and an exploit: the blacklist
    decides.  An entity whose name spells "hack" with the Kelvin sign:
    its lower case contains the keyword. *)
Lemma blacklist_wins_witness :
  (exists db,
      Scanner1.classify Fixtures.runtime Fixtures.scanner1
        (PDict [("arkhamEntity", PDict [("name", PStr "Binance Exploiter")])])
      = Ok (Some db) /\
      Scanner1.risk_score db = 100 /\ Scanner1.db_label db = "HIGH" /\
      Scanner1.reason (Scanner1.details db) = "Database Blacklist") /\
  any_in (cex_keywords Fixtures.scanner1)
    (str_lower Fixtures.runtime ("Binance Exploiter" ++ " " ++ "Unknown"))
  = true /\
  (exists db,
      Scanner.classify Fixtures.runtime Fixtures.scanner
        (PDict [("arkhamEntity", PDict [("name", PStr Samples.kelvin_labs)])])
      = Ok (Some db) /\
      Scanner.risk_score db = 100 /\ Scanner.db_label db = "HIGH" /\
      Scanner.reason (Scanner.details db) = "Database Blacklist").
Proof.
  split; [| split; [reflexivity |]].
  - apply (proj1 (blacklist_wins Fixtures.runtime Fixtures.scanner1
                    (PDict [("arkhamEntity", PDict [("name", PStr "Binance Exploiter")])])
                    (PDict [("name", PStr "Binance Exploiter")]) PNone
                    "Binance Exploiter" "Unknown"
                    eq_refl eq_refl eq_refl eq_refl eq_refl)).
    reflexivity.
  - apply (proj2 (blacklist_wins Fixtures.runtime Fixtures.scanner
                    (PDict [("arkhamEntity", PDict [("name", PStr Samples.kelvin_labs)])])
                    (PDict [("name", PStr Samples.kelvin_labs)]) PNone
                    Samples.kelvin_labs "Unknown"
                    eq_refl eq_refl eq_refl eq_refl eq_refl)).
    reflexivity.
Defined.

(** The reports of [TOKEN_A] (a deep scan) and of [RAYDIUM] (a known
    entity). *)
Lemma report_names_token_witness :
  (exists a s', Scanner1.assess_token_risk Fixtures.runtime Fixtures.provider
                  Fixtures.scanner1 "TOKEN_A" Fixtures.start = (Ok a, s') /\
                ReportSpec.scanner1_token_of a = "TOKEN_A") /\
  (exists a s', Scanner.assess_token_risk Fixtures.runtime Fixtures.provider
                  Fixtures.scanner "RAYDIUM" Fixtures.start = (Ok a, s') /\
                ReportSpec.scanner_token_of a = "RAYDIUM").
Proof.
  split.
  - evaluate (Scanner1.assess_token_risk Fixtures.runtime Fixtures.provider
                Fixtures.scanner1 "TOKEN_A" Fixtures.start) E.
    eexists. eexists. split; [exact E |].
    exact (proj1 (report_names_token Fixtures.runtime Fixtures.provider
                    Fixtures.scanner1 "TOKEN_A" Fixtures.start) _ _ E).
  - evaluate (Scanner.assess_token_risk Fixtures.runtime Fixtures.provider
                Fixtures.scanner "RAYDIUM" Fixtures.start) E.
    eexists. eexists. split; [exact E |].
    exact (proj2 (report_names_token Fixtures.runtime Fixtures.provider
                    Fixtures.scanner "RAYDIUM" Fixtures.start) _ _ E).
Defined.

Lemma report_score_and_label_witness :
  (exists a s' risk,
      Scanner1.assess_token_risk Fixtures.runtime Fixtures.provider
        Fixtures.scanner1 "RAYDIUM" Fixtures.start = (Ok a, s') /\
      ReportSpec.scanner1_risk_of a = Some risk /\
      Scanner1.final_score risk = 10 /\ 0 <= Scanner1.final_score risk <= 100) /\
  (exists a s' risk,
      Scanner.assess_token_risk Fixtures.runtime Fixtures.provider
        Fixtures.scanner "TOKEN_A" Fixtures.start = (Ok a, s') /\
      ReportSpec.scanner_risk_of a = Some risk /\
      Scanner.final_score risk = 100 /\ 0 <= Scanner.final_score risk <= 100).
Proof.
  split.
  - evaluate (Scanner1.assess_token_risk Fixtures.runtime Fixtures.provider
                Fixtures.scanner1 "RAYDIUM" Fixtures.start) E.
    eexists. eexists. eexists. split; [exact E |].
    split; [reflexivity |]. split; [reflexivity |].
    exact (proj1 (proj1 (report_score_and_label Fixtures.runtime Fixtures.provider
                           Fixtures.scanner1 "RAYDIUM" Fixtures.start)
                    _ _ _ E eq_refl)).
  - evaluate (Scanner.assess_token_risk Fixtures.runtime Fixtures.provider
                Fixtures.scanner "TOKEN_A" Fixtures.start) E.
    eexists. eexists. eexists. split; [exact E |].
    split; [reflexivity |]. split; [reflexivity |].
    exact (proj1 (proj2 (report_score_and_label Fixtures.runtime Fixtures.provider
                           Fixtures.scanner "TOKEN_A" Fixtures.start)
                    _ _ _ E eq_refl)).
Defined.

(** ** [sorted] and the comprehension over the transfers *)

Lemma insert_by_key_ok x l r :
  insert_by_key x l = Ok r ->
  List.length r = S (List.length l) /\ (forall y, In y r <-> y = x \/ In y l).
Proof.
  revert r. induction l as [| y l IH]; intros r H.
  - inversion H; subst r. split; [reflexivity |].
    intros z. simpl. split; [intros [<- | []]; left; reflexivity | intros [-> | []]; left; reflexivity].
  - cbn [insert_by_key] in H.
    apply rbind_ok in H. destruct H as (lt & _ & H).
    destruct lt.
    + apply rbind_ok in H. destruct H as (r0 & Hr0 & H).
      inversion H; subst r. destruct (IH _ Hr0) as [Hlen Hin].
      split; [simpl; rewrite Hlen; reflexivity |].
      intros z. simpl. rewrite Hin. tauto.
    + inversion H; subst r. split; [reflexivity |].
      intros z. simpl. split.
      * intros [<- | Hz]; [left; reflexivity | right; exact Hz].
      * intros [-> | Hz]; [left; reflexivity | right; exact Hz].
Qed.

Lemma sort_by_key_ok l r :
  sort_by_key l = Ok r ->
  List.length r = List.length l /\ (forall y, In y r <-> In y l).
Proof.
  revert r. induction l as [| x l IH]; intros r H.
  - inversion H; subst r. split; [reflexivity | intros y; tauto].
  - cbn [sort_by_key] in H.
    apply rbind_ok in H. destruct H as (r0 & Hr0 & H).
    destruct (IH _ Hr0) as [Hlen Hin].
    apply insert_by_key_ok in H. destruct H as [Hlen' Hin'].
    split; [rewrite Hlen', Hlen; reflexivity |].
    intros y. rewrite Hin', Hin. simpl. split.
    + intros [-> | Hy]; [left; reflexivity | right; exact Hy].
    + intros [<- | Hy]; [left; reflexivity | right; exact Hy].
Qed.

(** What [sorted] returns holds the items it was given, as many of
    them. *)
Lemma sorted_ok key l r :
  sorted key l = Ok r ->
  List.length r = List.length l /\ (forall y, In y r -> In y l).
Proof.
  unfold sorted. intros H.
  apply rbind_ok in H. destruct H as (keyed & Hkeyed & H).
  apply rbind_ok in H. destruct H as (r0 & Hr0 & H).
  inversion H; subst r. clear H.
  apply sort_by_key_ok in Hr0. destruct Hr0 as [Hlen Hin].
  assert (Hsnd : map snd keyed = l).
  { clear Hlen Hin r0. revert keyed Hkeyed.
    induction l as [| x l IH]; intros keyed Hkeyed.
    - inversion Hkeyed. reflexivity.
    - apply rbind_ok in Hkeyed. destruct Hkeyed as (k & _ & Hkeyed).
      apply rbind_ok in Hkeyed. destruct Hkeyed as (r1 & Hr1 & Hkeyed).
      inversion Hkeyed; subst keyed. simpl. rewrite (IH _ Hr1). reflexivity. }
  split.
  - rewrite length_map, Hlen, <- Hsnd, length_map. reflexivity.
  - intros y Hy. apply in_map_iff in Hy. destruct Hy as ([k x] & <- & Hx).
    apply Hin in Hx. rewrite <- Hsnd. apply in_map_iff.
    exists (k, x). split; [reflexivity | exact Hx].
Qed.

(** The comprehension keeps the items whose key holds a true value. *)
Lemma filter_get_ok k l r :
  filter_get k l = Ok r ->
  forall t, In t r -> exists v, get t k = Ok v /\ truthy v = true.
Proof.
  revert r. induction l as [| x l IH]; intros r H t Ht.
  - inversion H; subst r. destruct Ht.
  - cbn [filter_get] in H.
    apply rbind_ok in H. destruct H as (v & Hv & H).
    apply rbind_ok in H. destruct H as (r0 & Hr0 & H).
    inversion H; subst r. clear H.
    destruct (truthy v) eqn:Hvt.
    + destruct Ht as [<- | Ht].
      * exists v. split; assumption.
      * exact (IH _ Hr0 t Ht).
    + exact (IH _ Hr0 t Ht).
Qed.

(** The first of the sorted valid transfers has a timestamp that holds
    a true value. *)
Lemma first_sorted_valid k txs valid_txs sorted_txs first_tx :
  filter_get k txs = Ok valid_txs ->
  sorted (fun x => get x k) valid_txs = Ok sorted_txs ->
  first sorted_txs = Ok first_tx ->
  exists v, get first_tx k = Ok v /\ truthy v = true.
Proof.
  intros Hvalid Hsorted Hfirst.
  apply (filter_get_ok _ _ _ Hvalid).
  apply (proj2 (sorted_ok _ _ _ Hsorted)).
  destruct sorted_txs as [| x rest]; [discriminate Hfirst |].
  inversion Hfirst; subst. left. reflexivity.
Qed.

(** ** [get_address_details] *)

Section Details.
Context {W : Type} (rt : Runtime) (pv : Provider W) (self : SolanaTokenScanner).

Lemma scanner1_details_of_transfers_ok a tx_list d :
  truthy a = true ->
  Scanner1.details_of_transfers rt a tx_list = Ok d ->
  Scanner1.d_address d = a /\
  (Scanner1.creation_time d = None ->
   Scanner1.funder d = PNone /\ Scanner1.funder_entity d = PNone /\
   Scanner1.tx_count d = 0) /\
  (truthy (Scanner1.funder_entity d) = true -> truthy (Scanner1.funder d) = true) /\
  py_eq (Scanner1.funder d) a = false /\
  0 <= Scanner1.tx_count d.
Proof.
  intros Ha H. unfold Scanner1.details_of_transfers in H.
  assert (Hnone : py_eq PNone a = false) by (destruct a; try reflexivity; discriminate Ha).
  apply rbind_ok in H. destruct H as (txs & _ & H).
  apply rbind_ok in H. destruct H as (valid_txs & Hvalid & H).
  destruct valid_txs as [| t valid_txs].
  { inversion H; subst d. cbn.
    repeat split; try reflexivity; try discriminate; try exact Hnone; lia. }
  apply rbind_ok in H. destruct H as (sorted_txs & Hsorted & H).
  apply rbind_ok in H. destruct H as (first_tx & Hfirst & H).
  destruct (first_sorted_valid _ _ _ _ _ Hvalid Hsorted Hfirst) as (v & Hv & Hvt).
  apply rbind_ok in H. destruct H as (ts & Hts & H).
  rewrite Hv in Hts. inversion Hts; subst ts. clear Hts.
  rewrite Hvt in H.
  apply rbind_ok in H. destruct H as (ct & Hct & H).
  assert (Hsome : ct <> None).
  { destruct v; try discriminate Hct.
    apply rbind_ok in Hct. destruct Hct as (t0 & _ & Hct).
    inversion Hct. discriminate. }
  apply rbind_ok in H. destruct H as (from_data & _ & H).
  apply rbind_ok in H. destruct H as (to_data & _ & H).
  apply rbind_ok in H. destruct H as (from_entity & _ & H).
  apply rbind_ok in H. destruct H as (from_label & _ & H).
  apply rbind_ok in H. destruct H as (entity_str & _ & H).
  apply rbind_ok in H. destruct H as (entity_str' & _ & H).
  apply rbind_ok in H. destruct H as (from_addr & _ & H).
  apply rbind_ok in H. destruct H as (to_addr & _ & H).
  destruct (py_eq to_addr a && truthy from_addr) eqn:Hcond.
  - apply andb_true_iff in Hcond. destruct Hcond as [_ Hfrom].
    destruct (py_eq from_addr a) eqn:Hself.
    + apply rbind_ok in H. destruct H as (n & Hn & H). inversion H; subst d. cbn.
      split; [reflexivity |]. split; [intros E; contradiction |].
      split; [discriminate |]. split; [exact Hnone |].
      destruct tx_list; inversion Hn; lia.
    + apply rbind_ok in H. destruct H as (n & Hn & H). inversion H; subst d. cbn.
      split; [reflexivity |]. split; [intros E; contradiction |].
      split; [intros _; exact Hfrom |]. split; [exact Hself |].
      destruct tx_list; inversion Hn; lia.
  - rewrite Hnone in H.
    apply rbind_ok in H. destruct H as (n & Hn & H). inversion H; subst d. cbn.
    split; [reflexivity |]. split; [intros E; contradiction |].
    split; [discriminate |]. split; [exact Hnone |].
    destruct tx_list; inversion Hn; lia.
Qed.

Lemma scanner_details_of_transfers_ok a tx_list d :
  truthy a = true ->
  Scanner.details_of_transfers rt a tx_list = Ok d ->
  Scanner.d_address d = a /\
  (Scanner.creation_time d = None -> Scanner.funder d = PNone) /\
  py_eq (Scanner.funder d) a = false.
Proof.
  intros Ha H. unfold Scanner.details_of_transfers in H.
  assert (Hnone : py_eq PNone a = false) by (destruct a; try reflexivity; discriminate Ha).
  apply rbind_ok in H. destruct H as (txs & _ & H).
  apply rbind_ok in H. destruct H as (valid_txs & Hvalid & H).
  destruct valid_txs as [| t valid_txs].
  { inversion H; subst d. cbn. repeat split; try reflexivity. exact Hnone. }
  apply rbind_ok in H. destruct H as (sorted_txs & Hsorted & H).
  apply rbind_ok in H. destruct H as (first_tx & Hfirst & H).
  destruct (first_sorted_valid _ _ _ _ _ Hvalid Hsorted Hfirst) as (v & Hv & Hvt).
  apply rbind_ok in H. destruct H as (ts & Hts & H).
  rewrite Hv in Hts. inversion Hts; subst ts. clear Hts.
  rewrite Hvt in H.
  apply rbind_ok in H. destruct H as (ct & Hct & H).
  assert (Hsome : ct <> None).
  { destruct v; try discriminate Hct.
    apply rbind_ok in Hct. destruct Hct as (t0 & _ & Hct).
    inversion Hct. discriminate. }
  apply rbind_ok in H. destruct H as (from_data & _ & H).
  apply rbind_ok in H. destruct H as (to_data & _ & H).
  apply rbind_ok in H. destruct H as (from_addr0 & _ & H).
  apply rbind_ok in H. destruct H as (to_addr0 & _ & H).
  apply rbind_ok in H. destruct H as (from_addr & _ & H).
  apply rbind_ok in H. destruct H as (to_addr & _ & H).
  inversion H; subst d. cbn.
  split; [reflexivity |]. split; [intros E; contradiction |].
  destruct (py_eq to_addr a && truthy from_addr).
  - destruct (py_eq from_addr a) eqn:Hself; [exact Hnone | exact Hself].
  - rewrite Hnone. exact Hnone.
Qed.

(** X6: [get_address_details] of [scanner1.py] returns [None] exactly
    for an address that is [None] or empty.  The record it returns
    otherwise is about the address asked for; its funder is never that
    address itself; an entity name comes only with a funder; and a
    record without creation time has no funder, no entity and a
    transfer count of 0. *)
Theorem details_invariants a (s : state W) r s' :
  Scanner1.get_address_details rt pv self a s = (Ok r, s') ->
  (r = None <-> truthy a = false) /\
  (forall d, r = Some d ->
     Scanner1.d_address d = a /\
     (Scanner1.creation_time d = None ->
      Scanner1.funder d = PNone /\ Scanner1.funder_entity d = PNone /\
      Scanner1.tx_count d = 0) /\
     (truthy (Scanner1.funder_entity d) = true -> truthy (Scanner1.funder d) = true) /\
     py_eq (Scanner1.funder d) a = false /\
     0 <= Scanner1.tx_count d).
Proof.
  unfold Scanner1.get_address_details.
  destruct (truthy a) eqn:Ha; cbn [negb].
  2:{ intros H. apply ret_ok in H. destruct H as [-> _].
      split; [tauto | discriminate]. }
  intros H.
  assert (Hnone : py_eq PNone a = false) by (destruct a; try reflexivity; discriminate Ha).
  apply bind_ok in H. destruct H as (d1 & s1 & _ & H).
  apply bind_ok in H. destruct H as (tl & s2 & _ & H).
  destruct (negb (truthy tl)).
  - apply ret_ok in H. destruct H as [-> _].
    split; [split; discriminate |].
    intros d E. inversion E; subst d. cbn.
    repeat split; try reflexivity; try discriminate; try exact Hnone; lia.
  - apply bind_ok in H. destruct H as (d & s3 & Hd & H).
    apply ret_ok in H. destruct H as [-> _].
    apply lift_ok in Hd. destruct Hd as [Hd _].
    split; [split; discriminate |].
    intros d0 E. inversion E; subst d0.
    exact (scanner1_details_of_transfers_ok a tl d Ha Hd).
Qed.

(** X7: the same for [Scanner.py]: [None] exactly for an address that
    is [None] or empty; otherwise a record about the address asked for,
    whose funder is never that address itself, and which has no funder
    when it has no creation time. *)
Theorem scanner_details_invariants a (s : state W) r s' :
  Scanner.get_address_details rt pv self a s = (Ok r, s') ->
  (r = None <-> truthy a = false) /\
  (forall d, r = Some d ->
     Scanner.d_address d = a /\
     (Scanner.creation_time d = None -> Scanner.funder d = PNone) /\
     py_eq (Scanner.funder d) a = false).
Proof.
  unfold Scanner.get_address_details.
  destruct (truthy a) eqn:Ha; cbn [negb].
  2:{ intros H. apply ret_ok in H. destruct H as [-> _].
      split; [tauto | discriminate]. }
  intros H.
  assert (Hnone : py_eq PNone a = false) by (destruct a; try reflexivity; discriminate Ha).
  apply bind_ok in H. destruct H as (d1 & s1 & _ & H).
  apply bind_ok in H. destruct H as (tl & s2 & _ & H).
  destruct (negb (truthy tl)).
  - apply ret_ok in H. destruct H as [-> _].
    split; [split; discriminate |].
    intros d E. inversion E; subst d. cbn.
    repeat split; try reflexivity. exact Hnone.
  - apply bind_ok in H. destruct H as (d & s3 & Hd & H).
    apply ret_ok in H. destruct H as [-> _].
    apply lift_ok in Hd. destruct Hd as [Hd _].
    split; [split; discriminate |].
    intros d0 E. inversion E; subst d0.
    exact (scanner_details_of_transfers_ok a tl d Ha Hd).
Qed.

End Details.

(** The wallet [FUNDER_B] of the table, in [scanner1.py] and in
    [Scanner.py]. *)
Lemma details_invariants_witness :
  exists d s',
    Scanner1.get_address_details Fixtures.runtime Fixtures.provider Fixtures.scanner1
      (PStr "FUNDER_B") Fixtures.start = (Ok (Some d), s') /\
    Scanner1.d_address d = PStr "FUNDER_B" /\
    Scanner1.funder d = PStr "EXCHANGE_C" /\
    py_eq (Scanner1.funder d) (PStr "FUNDER_B") = false.
Proof.
  evaluate (Scanner1.get_address_details Fixtures.runtime Fixtures.provider
              Fixtures.scanner1 (PStr "FUNDER_B") Fixtures.start) E.
  eexists. eexists. split; [exact E |].
  destruct (proj2 (details_invariants Fixtures.runtime Fixtures.provider
                     Fixtures.scanner1 _ _ _ _ E) _ eq_refl)
    as (Haddr & _ & _ & Hself & _).
  split; [exact Haddr |]. split; [reflexivity | exact Hself].
Defined.

Lemma scanner_details_invariants_witness :
  exists d s',
    Scanner.get_address_details Fixtures.runtime Fixtures.provider Fixtures.scanner
      (PStr "FUNDER_B") Fixtures.start = (Ok (Some d), s') /\
    Scanner.d_address d = PStr "FUNDER_B" /\
    py_eq (Scanner.funder d) (PStr "FUNDER_B") = false.
Proof.
  evaluate (Scanner.get_address_details Fixtures.runtime Fixtures.provider
              Fixtures.scanner (PStr "FUNDER_B") Fixtures.start) E.
  eexists. eexists. split; [exact E |].
  destruct (proj2 (scanner_details_invariants Fixtures.runtime Fixtures.provider
                     Fixtures.scanner _ _ _ _ E) _ eq_refl)
    as (Haddr & _ & Hself).
  split; [exact Haddr | exact Hself].
Defined.

(** ** [main.py] *)

Section Batch.
Context {W : Type} (rt : Runtime) (pv : Provider W) (message : exn -> string).

Lemma scanner_assess_token self token (s : state W) a s' :
  Scanner.assess_token_risk rt pv self token s = (Ok a, s') ->
  ReportSpec.scanner_token_of a = token.
Proof.
  intros H. apply scanner_assess_cases in H.
  destruct H as [(db & data & _ & ->) | [(msg & ->) | (dep & fa & s1 & _ & ->)]];
    try reflexivity.
  destruct (Properties.scanner_aggregate_score rt token dep fa) as (flags & lg & ->).
  reflexivity.
Qed.

Lemma scan_tokens_returns scanner tokens :
  forall results (s : state W),
    exists out s',
      Main.scan_tokens rt pv message scanner tokens results s = (Ok out, s') /\
      exists added,
        out = (results ++ added)%list /\
        map ReportSpec.scanner_token_of added = tokens.
Proof.
  induction tokens as [| token rest IH]; intros results s.
  - exists results, s. split; [reflexivity |].
    exists []. split; [symmetry; apply app_nil_r | reflexivity].
  - cbn [Main.scan_tokens]. unfold bind, try_except.
    destruct (Scanner.assess_token_risk rt pv scanner token s) as [[a | e] s1] eqn:E.
    + unfold ret, sleep.
      destruct (IH (append results a)
                  (mk_state (time_sleep pv 1000 (world s1)) (sent s1)))
        as (out & s' & Hrun & added & Hout & Hadded).
      exists out, s'. split; [exact Hrun |].
      exists (a :: added). split.
      * rewrite Hout. unfold append. rewrite <- app_assoc. reflexivity.
      * cbn [map]. rewrite Hadded, (scanner_assess_token _ _ _ _ _ E). reflexivity.
    + unfold ret, sleep.
      destruct (IH (append results (Scanner.Error token (message e)))
                  (mk_state (time_sleep pv 1000 (world s1)) (sent s1)))
        as (out & s' & Hrun & added & Hout & Hadded).
      exists out, s'. split; [exact Hrun |].
      exists (Scanner.Error token (message e) :: added). split.
      * rewrite Hout. unfold append. rewrite <- app_assoc. reflexivity.
      * cbn [map ReportSpec.scanner_token_of]. rewrite Hadded. reflexivity.
Qed.

(** X8: the loop of [main.py] never raises, whatever happens inside
    the scanner: it returns the results it had, followed by one result
    per token, in the order of the tokens, each naming its token.  So
    the script ends with seven results, one for each token of its
    list. *)
Theorem batch_reports_every_token self tokens results (s : state W) :
  (exists out s',
     Main.scan_tokens rt pv message self tokens results s = (Ok out, s') /\
     exists added,
       out = (results ++ added)%list /\
       map ReportSpec.scanner_token_of added = tokens) /\
  (forall api_key, exists out s',
     Main.main rt pv message api_key s = (Ok out, s') /\
     map ReportSpec.scanner_token_of out = Main.token_list).
Proof.
  split.
  - apply scan_tokens_returns.
  - intros api_key. unfold Main.main.
    destruct (scan_tokens_returns (Scanner.__init__ api_key) Main.token_list [] s)
      as (out & s' & Hrun & added & Hout & Hadded).
    exists out, s'. split; [exact Hrun |].
    rewrite Hout. exact Hadded.
Qed.

End Batch.

(** ** The exceptions the scanner can raise *)

Lemma fails_only_ok {A} (P : exn -> Prop) (a : A) : ReportSpec.fails_only P (Ok a).
Proof. intros e H. discriminate H. Qed.

Lemma fails_only_raise {A} (P : exn -> Prop) e :
  P e -> ReportSpec.fails_only P (@Raise A e).
Proof. intros HP e' H. inversion H; subst. exact HP. Qed.

Lemma fails_only_rbind {A B} (P : exn -> Prop) (r : result A) (k : A -> result B) :
  ReportSpec.fails_only P r ->
  (forall a, r = Ok a -> ReportSpec.fails_only P (k a)) ->
  ReportSpec.fails_only P (rbind r k).
Proof.
  intros Hr Hk e H. destruct r as [a | e0]; simpl in H.
  - exact (Hk a eq_refl e H).
  - inversion H; subst. exact (Hr e eq_refl).
Qed.

Ltac fails_by_cases := intros ? ?H; try discriminate H; inversion H; reflexivity.

Lemma get_default_fails d k v : ReportSpec.fails_only ReportSpec.external (get_default d k v).
Proof. destruct d; fails_by_cases. Qed.

Lemma get_fails d k : ReportSpec.fails_only ReportSpec.external (get d k).
Proof. apply get_default_fails. Qed.

Lemma len_fails v : ReportSpec.fails_only ReportSpec.external (len v).
Proof. destruct v; fails_by_cases. Qed.

Lemma iter_fails v : ReportSpec.fails_only ReportSpec.external (iter v).
Proof. destruct v; fails_by_cases. Qed.

Lemma concat_fails lit v : ReportSpec.fails_only ReportSpec.external (concat lit v).
Proof. destruct v; fails_by_cases. Qed.

Lemma dt_sub_fails a b : ReportSpec.fails_only ReportSpec.external (dt_sub a b).
Proof. unfold dt_sub. destruct (utcoffset a), (utcoffset b); fails_by_cases. Qed.

Lemma py_lt_fails a b : ReportSpec.fails_only ReportSpec.external (py_lt a b).
Proof. destruct a, b; fails_by_cases. Qed.

Lemma set_add_fails x l : ReportSpec.fails_only ReportSpec.external (set_add x l).
Proof. destruct x; fails_by_cases. Qed.

Lemma insert_by_key_fails x l : ReportSpec.fails_only ReportSpec.external (insert_by_key x l).
Proof.
  induction l as [| y l IH]; cbn [insert_by_key].
  - apply fails_only_ok.
  - apply fails_only_rbind; [apply py_lt_fails |].
    intros lt _. destruct lt; [| apply fails_only_ok].
    apply fails_only_rbind; [exact IH | intros r _; apply fails_only_ok].
Qed.

Lemma sort_by_key_fails l : ReportSpec.fails_only ReportSpec.external (sort_by_key l).
Proof.
  induction l as [| x l IH]; cbn [sort_by_key].
  - apply fails_only_ok.
  - apply fails_only_rbind; [exact IH | intros r _; apply insert_by_key_fails].
Qed.

Lemma sorted_fails key l :
  (forall x, ReportSpec.fails_only ReportSpec.external (key x)) ->
  ReportSpec.fails_only ReportSpec.external (sorted key l).
Proof.
  intros Hkey. unfold sorted.
  apply fails_only_rbind.
  - induction l as [| x l IH]; [apply fails_only_ok |].
    apply fails_only_rbind; [apply Hkey | intros k _].
    apply fails_only_rbind; [exact IH | intros r _; apply fails_only_ok].
  - intros keyed _.
    apply fails_only_rbind; [apply sort_by_key_fails | intros r _; apply fails_only_ok].
Qed.

Lemma filter_get_fails k l : ReportSpec.fails_only ReportSpec.external (filter_get k l).
Proof.
  induction l as [| t l IH]; cbn [filter_get].
  - apply fails_only_ok.
  - apply fails_only_rbind; [apply get_fails | intros v _].
    apply fails_only_rbind; [exact IH | intros r _; apply fails_only_ok].
Qed.

Lemma collect_receivers_fails txs :
  forall receivers, ReportSpec.fails_only ReportSpec.external (collect_receivers txs receivers).
Proof.
  induction txs as [| tx txs IH]; intros receivers; cbn [collect_receivers].
  - apply fails_only_ok.
  - apply fails_only_rbind; [apply get_default_fails | intros to_data _].
    apply fails_only_rbind; [apply get_fails | intros to_addr _].
    apply fails_only_rbind; [| intros r _; apply IH].
    destruct (truthy to_addr); [apply set_add_fails | apply fails_only_ok].
Qed.

(** Splits the goal that a computation raises only exceptions with [P]
    along the structure of the computation. *)
Ltac fails_tac :=
  repeat match goal with
  | |- ReportSpec.fails_only _ (rbind _ _) => apply fails_only_rbind; [| intros ? ?]
  | |- ReportSpec.fails_only _ (Ok _) => apply fails_only_ok
  | |- ReportSpec.fails_only _ (Raise _) => apply fails_only_raise; reflexivity
  | |- ReportSpec.fails_only _ (get _ _) => apply get_fails
  | |- ReportSpec.fails_only _ (get_default _ _ _) => apply get_default_fails
  | |- ReportSpec.fails_only _ (len _) => apply len_fails
  | |- ReportSpec.fails_only _ (iter _) => apply iter_fails
  | |- ReportSpec.fails_only _ (concat _ _) => apply concat_fails
  | |- ReportSpec.fails_only _ (dt_sub _ _) => apply dt_sub_fails
  | |- ReportSpec.fails_only _ (filter_get _ _) => apply filter_get_fails
  | |- ReportSpec.fails_only _ (collect_receivers _ _) => apply collect_receivers_fails
  | |- ReportSpec.fails_only _ (if ?b then _ else _) => destruct b
  | |- ReportSpec.fails_only _ (match ?x with _ => _ end) => destruct x
  end.

Lemma dispersion_of_fails tx_list : ReportSpec.fails_only ReportSpec.external (dispersion_of tx_list).
Proof. unfold dispersion_of. fails_tac. Qed.

(** The sorted list of a list that is not empty has a first item. *)
Lemma first_of_sorted key x l r :
  sorted key (x :: l) = Ok r -> exists y, first r = Ok y.
Proof.
  intros H. destruct (sorted_ok _ _ _ H) as [Hlen _].
  destruct r as [| y r]; [discriminate Hlen |].
  exists y. reflexivity.
Qed.

Section Methods.
Context {W : Type}.

Lemma raises_only_ret {A} (P : exn -> Prop) (a : A) : ReportSpec.raises_only P (@ret W A a).
Proof. intros s e s' H. discriminate H. Qed.

Lemma raises_only_lift {A} (P : exn -> Prop) (r : result A) :
  ReportSpec.fails_only P r -> ReportSpec.raises_only P (@lift W A r).
Proof. intros Hr s e s' H. inversion H; subst. exact (Hr e eq_refl). Qed.

Lemma raises_only_raise {A} (P : exn -> Prop) e :
  P e -> ReportSpec.raises_only P (@raise W A e).
Proof. intros HP s e' s' H. inversion H; subst. exact HP. Qed.

(** The rest of a method runs on a value that the first part
    returned. *)
Lemma raises_only_bind {A B} (P : exn -> Prop) (c : M W A) (k : A -> M W B) :
  ReportSpec.raises_only P c ->
  (forall a, (exists s s1, c s = (Ok a, s1)) -> ReportSpec.raises_only P (k a)) ->
  ReportSpec.raises_only P (bind c k).
Proof.
  intros Hc Hk s e s' H. unfold bind in H.
  destruct (c s) as [[a | e0] s1] eqn:E.
  - exact (Hk a (ex_intro _ s (ex_intro _ s1 E)) s1 e s' H).
  - inversion H; subst. exact (Hc _ _ _ E).
Qed.

Lemma raises_only_for_each {St} (P : exn -> Prop) (body : Z -> St -> M W (flow * St)) items :
  (forall i st, ReportSpec.raises_only P (body i st)) ->
  forall st, ReportSpec.raises_only P (for_each body items st).
Proof.
  intros Hbody. induction items as [| item rest IH]; intros st; cbn [for_each].
  - apply raises_only_ret.
  - apply raises_only_bind; [apply Hbody |].
    intros [f st'] _. destruct f; [apply IH | apply raises_only_ret].
Qed.

Context (pv : Provider W) (self : SolanaTokenScanner).

Lemma raises_only_sleep (P : exn -> Prop) ms : ReportSpec.raises_only P (sleep pv ms).
Proof. intros s e s' H. discriminate H. Qed.

Lemma raises_only_now (P : exn -> Prop) : ReportSpec.raises_only P (datetime_now pv).
Proof.
  intros s e s' H. unfold datetime_now in H.
  destruct (clock_local pv (world s)). discriminate H.
Qed.

Lemma raises_only_now_utc (P : exn -> Prop) : ReportSpec.raises_only P (datetime_now_utc pv).
Proof.
  intros s e s' H. unfold datetime_now_utc in H.
  destruct (clock_utc pv (world s)). discriminate H.
Qed.

Lemma raises_only_get (P : exn -> Prop) endpoint ps :
  ReportSpec.raises_only P (_get pv self endpoint ps).
Proof.
  intros s e s' H.
  destruct (get_attempts_repeats pv 3
              (mk_request (base_url self ++ endpoint) (self_headers self) ps) s)
    as (v & s1 & k & Hrun & _).
  unfold _get in H. rewrite Hrun in H. discriminate H.
Qed.

Lemma analyze_raises a :
  ReportSpec.raises_only ReportSpec.external (analyze_dispersion_pattern pv self a).
Proof.
  unfold analyze_dispersion_pattern.
  destruct (negb (truthy a)); [apply raises_only_ret |].
  apply raises_only_bind; [apply raises_only_get |].
  intros data _. apply raises_only_lift. apply dispersion_of_fails.
Qed.

End Methods.

(** Splits the goal that a method raises only exceptions with [P] along
    the structure of the method; what is left is about the pure
    parts. *)
Ltac raises_tac :=
  repeat match goal with
  | |- ReportSpec.raises_only _ (bind _ _) => apply raises_only_bind; [| intros ? ?]
  | |- ReportSpec.raises_only _ (ret _) => apply raises_only_ret
  | |- ReportSpec.raises_only _ (lift _) => apply raises_only_lift
  | |- ReportSpec.raises_only _ (raise _) => apply raises_only_raise; reflexivity
  | |- ReportSpec.raises_only _ (sleep _ _) => apply raises_only_sleep
  | |- ReportSpec.raises_only _ (datetime_now _) => apply raises_only_now
  | |- ReportSpec.raises_only _ (datetime_now_utc _) => apply raises_only_now_utc
  | |- ReportSpec.raises_only _ (_get _ _ _ _) => apply raises_only_get
  | |- ReportSpec.raises_only _ (analyze_dispersion_pattern _ _ _) => apply analyze_raises
  | |- ReportSpec.raises_only _ (if ?b then _ else _) => destruct b
  | |- ReportSpec.raises_only _ (match ?x with _ => _ end) => destruct x
  end.

Section Faults.
Context {W : Type} (rt : Runtime) (pv : Provider W) (self : SolanaTokenScanner).

(** [datetime.fromisoformat] raises [ValueError] on a text it cannot
    read, and nothing else. *)
Hypothesis parser_raises : forall text e, fromisoformat rt text = Raise e -> e = ValueError.

Lemma fromisoformat_fails text : ReportSpec.fails_only ReportSpec.external (fromisoformat rt text).
Proof. intros e H. rewrite (parser_raises _ _ H). reflexivity. Qed.

(** *** [scanner1.py] *)

Lemma scanner1_classify_fails data :
  ReportSpec.fails_only ReportSpec.external (Scanner1.classify rt self data).
Proof.
  unfold Scanner1.classify, Scanner1.name_or_unknown, Scanner1.full_name_of.
  fails_tac.
Qed.

Lemma scanner1_details_of_transfers_fails a tx_list :
  ReportSpec.fails_only ReportSpec.external (Scanner1.details_of_transfers rt a tx_list).
Proof.
  unfold Scanner1.details_of_transfers.
  apply fails_only_rbind; [apply iter_fails | intros txs _].
  apply fails_only_rbind; [apply filter_get_fails | intros valid_txs _].
  destruct valid_txs as [| t valid_txs]; [apply fails_only_ok |].
  apply fails_only_rbind; [apply sorted_fails; intros x; apply get_fails |].
  intros sorted_txs Hsorted.
  destruct (first_of_sorted _ _ _ _ Hsorted) as (first_tx & ->). cbn [rbind].
  apply fails_only_rbind; [apply get_fails | intros ts _].
  apply fails_only_rbind.
  { destruct (truthy ts); [| apply fails_only_ok].
    destruct ts; try (apply fails_only_raise; reflexivity).
    apply fails_only_rbind; [apply fromisoformat_fails | intros t0 _; apply fails_only_ok]. }
  intros creation_time _. fails_tac.
Qed.

Lemma scanner1_find_deployer_fails tx_list :
  ReportSpec.fails_only ReportSpec.external (Scanner1.find_deployer tx_list).
Proof.
  unfold Scanner1.find_deployer.
  apply fails_only_rbind; [apply iter_fails | intros txs _].
  apply fails_only_rbind; [apply filter_get_fails | intros valid_txs _].
  destruct valid_txs as [| t valid_txs]; [apply fails_only_ok |].
  apply fails_only_rbind; [apply sorted_fails; intros x; apply get_fails |].
  intros sorted_txs Hsorted.
  destruct (first_of_sorted _ _ _ _ Hsorted) as (first_tx & ->). cbn [rbind].
  fails_tac.
Qed.

Lemma scanner1_check_database_raises token :
  ReportSpec.raises_only ReportSpec.external (Scanner1.check_database_status rt pv self token).
Proof.
  unfold Scanner1.check_database_status. raises_tac. apply scanner1_classify_fails.
Qed.

Lemma scanner1_history_raises a :
  ReportSpec.raises_only ReportSpec.external (Scanner1.get_true_age_via_history rt pv self a).
Proof.
  unfold Scanner1.get_true_age_via_history. cbv zeta. raises_tac; fails_tac.
Qed.

Lemma scanner1_details_raises a :
  ReportSpec.raises_only ReportSpec.external (Scanner1.get_address_details rt pv self a).
Proof.
  unfold Scanner1.get_address_details. cbv zeta. raises_tac.
  apply scanner1_details_of_transfers_fails.
Qed.

Lemma scanner1_primary_age_raises st ct :
  ReportSpec.raises_only ReportSpec.external (Scanner1.primary_age pv st ct).
Proof. unfold Scanner1.primary_age. raises_tac; fails_tac. Qed.

(** The second look reads [now] only after a creation time was found,
    in this turn or in an earlier one. *)
Lemma scanner1_verify_age_raises a age n now0 :
  ((age <? 1) && (100 <=? n) = true -> now0 <> None) ->
  ReportSpec.raises_only ReportSpec.external (Scanner1.verify_age rt pv self a age n now0).
Proof.
  intros Hnow. unfold Scanner1.verify_age.
  destruct ((age <? 1) && (100 <=? n)); [| apply raises_only_ret].
  apply raises_only_bind; [apply scanner1_history_raises |].
  intros [tct |] _; [| apply raises_only_ret].
  destruct now0 as [n0 |]; [| exfalso; apply Hnow; reflexivity].
  raises_tac; fails_tac.
Qed.

Lemma scanner1_dispersion_check_raises depth vo l total :
  ReportSpec.raises_only ReportSpec.external (Scanner1.dispersion_check pv self depth vo l total).
Proof. unfold Scanner1.dispersion_check. raises_tac. Qed.

(** A record without creation time counts no transfer. *)
Lemma scanner1_details_untimed a (s : state W) d s' :
  Scanner1.get_address_details rt pv self a s = (Ok (Some d), s') ->
  Scanner1.creation_time d = None -> Scanner1.tx_count d = 0.
Proof.
  unfold Scanner1.get_address_details.
  destruct (truthy a) eqn:Ha; cbn [negb].
  2:{ intros H. apply ret_ok in H. destruct H as [H _]. discriminate H. }
  intros H.
  apply bind_ok in H. destruct H as (d1 & s1 & _ & H).
  apply bind_ok in H. destruct H as (tl & s2 & _ & H).
  destruct (negb (truthy tl)).
  - apply ret_ok in H. destruct H as [H _]. inversion H; subst d. reflexivity.
  - apply bind_ok in H. destruct H as (d0 & s3 & Hd & H).
    apply ret_ok in H. destruct H as [H _]. inversion H; subst d0.
    apply lift_ok in Hd. destruct Hd as [Hd _].
    intros Hct.
    exact (proj2 (proj2 (proj1 (proj2
             (scanner1_details_of_transfers_ok rt a tl d Ha Hd)) Hct))).
Qed.

Lemma scanner1_primary_age_now st ct (s : state W) age hours now0 s' :
  Scanner1.primary_age pv st ct s = (Ok (age, hours, now0), s') ->
  ct = None \/ now0 <> None.
Proof.
  unfold Scanner1.primary_age. destruct ct as [ct |]; [| left; reflexivity].
  intros H. right.
  apply bind_ok in H. destruct H as (n0 & s1 & _ & H).
  apply bind_ok in H. destruct H as (delta & s2 & _ & H).
  apply ret_ok in H. destruct H as [H _]. inversion H. discriminate.
Qed.

Lemma scanner1_trace_iteration_raises depth st :
  ReportSpec.raises_only ReportSpec.external (Scanner1.trace_iteration rt pv self depth st).
Proof.
  unfold Scanner1.trace_iteration.
  apply raises_only_bind; [apply scanner1_details_raises |].
  intros [d |] (s & s1 & Hd); [| apply raises_only_ret].
  cbv zeta.
  apply raises_only_bind; [apply scanner1_primary_age_raises |].
  intros [[age hours] now0] (s2 & s3 & Hage).
  apply raises_only_bind.
  { apply scanner1_verify_age_raises. intros Hcond.
    destruct (scanner1_primary_age_now _ _ _ _ _ _ _ Hage) as [Hct | Hnow]; [| exact Hnow].
    rewrite (scanner1_details_untimed _ _ _ _ Hd Hct) in Hcond.
    rewrite andb_false_r in Hcond. discriminate Hcond. }
  intros [age' vo] _.
  apply raises_only_bind; [apply scanner1_dispersion_check_raises |].
  intros [l' total'] _. raises_tac.
Qed.

Lemma scanner1_trace_raises start max_depth :
  ReportSpec.raises_only ReportSpec.external (Scanner1.trace_funding_source rt pv self start max_depth).
Proof.
  unfold Scanner1.trace_funding_source. cbv zeta.
  apply raises_only_bind; [| intros st _; apply raises_only_ret].
  apply raises_only_for_each. apply scanner1_trace_iteration_raises.
Qed.

Lemma scanner1_trace_iteration_hours depth st (s : state W) f st' s' :
  Scanner1.trace_iteration rt pv self depth st s = (Ok (f, st'), s') ->
  Forall ReportSpec.hours_known (Scanner1.chain_info st) ->
  Forall ReportSpec.hours_known (Scanner1.chain_info st').
Proof.
  unfold Scanner1.trace_iteration. intros H Hchain.
  apply bind_ok in H. destruct H as (d & s1 & _ & H).
  destruct d as [d |].
  2:{ apply ret_ok in H. destruct H as [H _]. inversion H; subst. exact Hchain. }
  apply bind_ok in H. destruct H as ([[age hours] now0] & s2 & _ & H).
  apply bind_ok in H. destruct H as ([age' vo] & s3 & _ & H).
  apply bind_ok in H. destruct H as ([l' total'] & s4 & Hdisp & H).
  apply Scanner1Facts.scanner1_dispersion_check_ok in Hdisp.
  assert (Hl' : Scanner1.age_hours l' = Some hours).
  { destruct Hdisp as [[-> _] | (_ & _ & -> & _)]; reflexivity. }
  assert (Hknown : forall e, ReportSpec.hours_known l' /\
                             ReportSpec.hours_known (Scanner1.set_funded_by l' e)).
  { intros e. split; intros _; cbn; rewrite Hl'; discriminate. }
  destruct (truthy (Scanner1.funder_entity d)).
  - apply ret_ok in H. destruct H as [H _]. inversion H; subst f st'.
    cbn [Scanner1.chain_info]. apply Forall_app. split; [exact Hchain |].
    constructor; [apply Hknown |]. constructor; [| constructor].
    intros Hcex. discriminate Hcex.
  - destruct (negb (truthy (Scanner1.funder d))).
    + apply ret_ok in H. destruct H as [H _]. inversion H; subst f st'.
      cbn [Scanner1.chain_info]. apply Forall_app. split; [exact Hchain |].
      constructor; [apply (Hknown PNone) | constructor].
    + apply bind_ok in H. destruct H as (u & s5 & _ & H).
      apply ret_ok in H. destruct H as [H _]. inversion H; subst f st'.
      cbn [Scanner1.chain_info]. apply Forall_app. split; [exact Hchain |].
      constructor; [apply (Hknown PNone) | constructor].
Qed.

Lemma scanner1_trace_hours start max_depth (s : state W) fa s' :
  Scanner1.trace_funding_source rt pv self start max_depth s = (Ok fa, s') ->
  Forall ReportSpec.hours_known (Scanner1.chain fa).
Proof.
  unfold Scanner1.trace_funding_source. intros H.
  apply bind_ok in H. destruct H as (st & s1 & Hloop & H).
  apply ret_ok in H. destruct H as [-> _]. cbn [Scanner1.chain].
  replace (range (max_depth + 1))
    with (range (Z.of_nat (Z.to_nat (max_depth + 1)))) in Hloop
    by (unfold range; rewrite Nat2Z.id; reflexivity).
  apply (for_each_rule (Scanner1.trace_iteration rt pv self)
           (fun _ st _ => Forall ReportSpec.hours_known (Scanner1.chain_info st))
           (fun st _ => Forall ReportSpec.hours_known (Scanner1.chain_info st))
           (Z.to_nat (max_depth + 1))) in Hloop; [exact Hloop | | | constructor].
  - intros i st0 s0 f st0' s0' _ HI Hbody.
    pose proof (scanner1_trace_iteration_hours _ _ _ _ _ _ Hbody HI) as Hnext.
    destruct f; exact Hnext.
  - intros st0 s0 HI. exact HI.
Qed.

Lemma scanner1_describe_layer_fails l :
  ReportSpec.hours_known l ->
  ReportSpec.fails_only ReportSpec.external (Scanner1.describe_layer rt l).
Proof.
  intros Hknown. unfold Scanner1.describe_layer. cbv zeta.
  destruct (Scanner1.is_cex l) eqn:Hcex; [apply fails_only_ok |].
  specialize (Hknown Hcex).
  destruct (Scanner1.age_hours l) as [h |]; [| contradiction].
  fails_tac.
Qed.

Lemma scanner1_describe_chain_fails layers :
  Forall ReportSpec.hours_known layers ->
  forall flags chain_desc,
    ReportSpec.fails_only ReportSpec.external
      (Scanner1.describe_chain rt layers flags chain_desc).
Proof.
  induction 1 as [| l layers Hl _ IH]; intros flags chain_desc;
    cbn [Scanner1.describe_chain].
  - apply fails_only_ok.
  - apply fails_only_rbind; [apply scanner1_describe_layer_fails; exact Hl |].
    intros [desc new_flags] _. apply IH.
Qed.

Lemma scanner1_assess_raises token :
  ReportSpec.raises_only ReportSpec.external
    (Scanner1.assess_token_risk rt pv self token).
Proof.
  unfold Scanner1.assess_token_risk.
  apply raises_only_bind; [apply scanner1_check_database_raises |].
  intros [db |] _; [apply raises_only_ret |]. cbv zeta.
  apply raises_only_bind; [apply raises_only_get |].
  intros data _.
  destruct (negb (truthy (_normalize_transfers_list data))); [apply raises_only_ret |].
  apply raises_only_bind; [apply raises_only_lift, scanner1_find_deployer_fails |].
  intros [deployer |] _; [| apply raises_only_ret].
  apply raises_only_bind; [apply scanner1_trace_raises |].
  intros fa (s & s1 & Htrace).
  apply raises_only_lift. unfold Scanner1.aggregate. cbv zeta.
  apply fails_only_rbind.
  - apply scanner1_describe_chain_fails. exact (scanner1_trace_hours _ _ _ _ _ Htrace).
  - intros [flags chain_desc] _. apply fails_only_ok.
Qed.

(** *** [Scanner.py] *)

Lemma scanner_classify_fails data :
  ReportSpec.fails_only ReportSpec.external (Scanner.classify rt self data).
Proof.
  unfold Scanner.classify, Scanner.name_or_unknown, Scanner.full_name_of.
  fails_tac.
Qed.

Lemma scanner_details_of_transfers_fails a tx_list :
  ReportSpec.fails_only ReportSpec.external (Scanner.details_of_transfers rt a tx_list).
Proof.
  unfold Scanner.details_of_transfers.
  apply fails_only_rbind; [apply iter_fails | intros txs _].
  apply fails_only_rbind; [apply filter_get_fails | intros valid_txs _].
  destruct valid_txs as [| t valid_txs]; [apply fails_only_ok |].
  apply fails_only_rbind; [apply sorted_fails; intros x; apply get_fails |].
  intros sorted_txs Hsorted.
  destruct (first_of_sorted _ _ _ _ Hsorted) as (first_tx & ->). cbn [rbind].
  apply fails_only_rbind; [apply get_fails | intros ts _].
  apply fails_only_rbind.
  { destruct (truthy ts); [| apply fails_only_ok].
    destruct ts; try (apply fails_only_raise; reflexivity).
    apply fails_only_rbind; [apply fromisoformat_fails | intros t0 _; apply fails_only_ok]. }
  intros creation_time _. fails_tac.
Qed.

Lemma scanner_find_deployer_fails tx_list :
  ReportSpec.fails_only ReportSpec.external (Scanner.find_deployer tx_list).
Proof.
  unfold Scanner.find_deployer.
  apply fails_only_rbind; [apply iter_fails | intros txs _].
  apply fails_only_rbind; [apply filter_get_fails | intros valid_txs _].
  destruct valid_txs as [| t valid_txs]; [apply fails_only_ok |].
  apply fails_only_rbind; [apply sorted_fails; intros x; apply get_fails |].
  intros sorted_txs Hsorted.
  destruct (first_of_sorted _ _ _ _ Hsorted) as (first_tx & ->). cbn [rbind].
  fails_tac.
Qed.

Lemma scanner_trace_iteration_raises depth st :
  ReportSpec.raises_only ReportSpec.external (Scanner.trace_iteration rt pv self depth st).
Proof.
  unfold Scanner.trace_iteration, Scanner.get_address_details, Scanner.primary_age,
    Scanner.entity_check, Scanner.check_is_known_entity, Scanner.dispersion_check.
  cbv zeta. raises_tac; fails_tac.
  apply scanner_details_of_transfers_fails.
Qed.

Lemma scanner_assess_raises token :
  ReportSpec.raises_only ReportSpec.external
    (Scanner.assess_token_risk rt pv self token).
Proof.
  unfold Scanner.assess_token_risk, Scanner.check_database_status.
  apply raises_only_bind.
  { raises_tac. apply scanner_classify_fails. }
  intros [db |] _; [apply raises_only_ret |]. cbv zeta.
  apply raises_only_bind; [apply raises_only_get |].
  intros data _.
  destruct (negb (truthy (_normalize_transfers_list data))); [apply raises_only_ret |].
  apply raises_only_bind; [apply raises_only_lift, scanner_find_deployer_fails |].
  intros [deployer |] _; [| apply raises_only_ret].
  apply raises_only_bind; [| intros fa _; apply raises_only_ret].
  unfold Scanner.trace_funding_source. cbv zeta.
  apply raises_only_bind; [| intros st _; apply raises_only_ret].
  apply raises_only_for_each. apply scanner_trace_iteration_raises.
Qed.

(** X9: whatever documents the provider serves, [assess_token_risk]
    never raises [KeyError], [IndexError] or [UnboundLocalError], in
    either version: the first item of a sorted list is read only from a
    list that is not empty, ["age_hours"] only from an entry that has
    it, and [now] only after it was assigned.  What it can raise comes
    from a document of an unexpected shape. *)
Theorem no_internal_error token (s : state W) :
  (forall e s', Scanner1.assess_token_risk rt pv self token s = (Raise e, s') ->
                ReportSpec.internal_error e = false) /\
  (forall e s', Scanner.assess_token_risk rt pv self token s = (Raise e, s') ->
                ReportSpec.internal_error e = false).
Proof.
  split; intros e s' H.
  - exact (scanner1_assess_raises token s e s' H).
  - exact (scanner_assess_raises token s e s' H).
Qed.

End Faults.

Lemma find_date_raises text table e :
  Fixtures.find_date text table = Raise e -> e = ValueError.
Proof.
  induction table as [| [d t] table IH]; cbn [Fixtures.find_date].
  - intros H. inversion H. reflexivity.
  - destruct (text =? d)%string; [discriminate | exact IH].
Qed.

(** An entity whose name is a number: adding the label name to it
    raises [TypeError]. *)
Lemma no_internal_error_witness :
  exists e s',
    Scanner1.assess_token_risk Fixtures.runtime (Samples.serving Samples.numbered_entity)
      Fixtures.scanner1 "TOKEN" Fixtures.start = (Raise e, s') /\
    e = TypeError /\ ReportSpec.internal_error e = false.
Proof.
  evaluate (Scanner1.assess_token_risk Fixtures.runtime
              (Samples.serving Samples.numbered_entity)
              Fixtures.scanner1 "TOKEN" Fixtures.start) E.
  eexists. eexists. split; [exact E |]. split; [reflexivity |].
  exact (proj1 (no_internal_error Fixtures.runtime
                  (Samples.serving Samples.numbered_entity) Fixtures.scanner1
                  (fun text e => find_date_raises text Fixtures.known_dates e)
                  "TOKEN" Fixtures.start) _ _ E).
Defined.

(** ** The requests of one assessment *)

Section Budget.
Context {W : Type} (rt : Runtime) (pv : Provider W) (self : SolanaTokenScanner).
Import ReportSpec.

Lemma calls_quiet {A} n (c : M W A) :
  (forall s r s', c s = (r, s') -> sent s' = sent s) -> calls_at_most n c.
Proof.
  intros Hc s r s' H. exists []. rewrite app_nil_r.
  split; [exact (Hc _ _ _ H) | simpl; lia].
Qed.

Lemma calls_ret {A} n (a : A) : calls_at_most n (@ret W A a).
Proof. apply calls_quiet. intros s r s' H. inversion H. reflexivity. Qed.

Lemma calls_lift {A} n (x : result A) : calls_at_most n (@lift W A x).
Proof. apply calls_quiet. intros s r s' H. inversion H. reflexivity. Qed.

Lemma calls_raise {A} n e : calls_at_most n (@raise W A e).
Proof. apply calls_quiet. intros s r s' H. inversion H. reflexivity. Qed.

Lemma calls_sleep n ms : calls_at_most n (sleep pv ms).
Proof. apply calls_quiet. intros s r s' H. inversion H. reflexivity. Qed.

Lemma calls_now n : calls_at_most n (datetime_now pv).
Proof.
  apply calls_quiet. intros s r s' H. unfold datetime_now in H.
  destruct (clock_local pv (world s)). inversion H. reflexivity.
Qed.

Lemma calls_now_utc n : calls_at_most n (datetime_now_utc pv).
Proof.
  apply calls_quiet. intros s r s' H. unfold datetime_now_utc in H.
  destruct (clock_utc pv (world s)). inversion H. reflexivity.
Qed.

Lemma calls_weaken {A} n m (c : M W A) :
  (n <= m)%nat -> calls_at_most n c -> calls_at_most m c.
Proof.
  intros Hnm Hc s r s' H. destruct (Hc _ _ _ H) as (l & El & Ll).
  exists l. split; [exact El | lia].
Qed.

(** A first part that makes at most [n] calls leaves the rest what
    remains of the budget. *)
Lemma calls_bind {A B} n m (c : M W A) (k : A -> M W B) :
  calls_at_most n c -> (n <= m)%nat ->
  (forall a, calls_at_most (m - n) (k a)) ->
  calls_at_most m (bind c k).
Proof.
  intros Hc Hnm Hk s r s' H. unfold bind in H.
  destruct (c s) as [[a | e] s1] eqn:E.
  - destruct (Hc _ _ _ E) as (l1 & E1 & L1).
    destruct (Hk a _ _ _ H) as (l2 & E2 & L2).
    exists (l1 ++ l2)%list. split.
    + rewrite E2, E1, app_assoc. reflexivity.
    + rewrite length_app. lia.
  - inversion H; subst. destruct (Hc _ _ _ E) as (l1 & E1 & L1).
    exists l1. split; [exact E1 | lia].
Qed.

Lemma calls_get endpoint ps : calls_at_most 3 (_get pv self endpoint ps).
Proof.
  intros s r s' H.
  destruct (get_attempts_repeats pv 3
              (mk_request (base_url self ++ endpoint) (self_headers self) ps) s)
    as (v & s1 & k & Hrun & Hk & _ & Hsent).
  unfold _get in H. rewrite Hrun in H. inversion H; subst.
  eexists. split; [exact Hsent |]. rewrite repeat_length. exact Hk.
Qed.

(** The calls of a loop: those of its turns, added up. *)
Lemma calls_for_each {St} (cost : Z -> nat) (body : Z -> St -> M W (flow * St)) items :
  (forall i st, calls_at_most (cost i) (body i st)) ->
  forall st, calls_at_most (list_sum (map cost items)) (for_each body items st).
Proof.
  intros Hbody. induction items as [| item rest IH]; intros st; cbn [for_each].
  - apply calls_ret.
  - change (list_sum (map cost (item :: rest)))
      with (cost item + list_sum (map cost rest))%nat.
    apply (calls_bind (cost item)); [apply Hbody | lia |].
    intros [f st'].
    replace (cost item + list_sum (map cost rest) - cost item)%nat
      with (list_sum (map cost rest)) by lia.
    destruct f; [apply IH | apply calls_ret].
Qed.

Lemma calls_analyze a : calls_at_most 3 (analyze_dispersion_pattern pv self a).
Proof.
  unfold analyze_dispersion_pattern.
  destruct (negb (truthy a)); [apply calls_ret |].
  apply (calls_bind 3); [apply calls_get | lia | intros data; apply calls_lift].
Qed.

(** *** [scanner1.py] *)

Lemma scanner1_calls_details a :
  calls_at_most 6 (Scanner1.get_address_details rt pv self a).
Proof.
  unfold Scanner1.get_address_details. cbv zeta.
  destruct (negb (truthy a)); [apply calls_ret |].
  apply (calls_bind 3); [apply calls_get | lia | intros tx_data].
  apply (calls_bind 3); [| lia |].
  - destruct (negb (truthy (_normalize_transfers_list tx_data))); [| apply calls_ret].
    apply (calls_bind 3); [apply calls_get | lia | intros d; apply calls_ret].
  - intros tx_list. destruct (negb (truthy tx_list)); [apply calls_ret |].
    apply (calls_bind 0); [apply calls_lift | lia | intros d; apply calls_ret].
Qed.

Lemma scanner1_calls_history a :
  calls_at_most 3 (Scanner1.get_true_age_via_history rt pv self a).
Proof.
  unfold Scanner1.get_true_age_via_history. cbv zeta.
  apply (calls_bind 0); [apply calls_lift | lia | intros endpoint].
  apply (calls_bind 3); [apply calls_get | lia | intros data].
  destruct (negb (truthy data)); [apply calls_ret |].
  apply (calls_bind 0); [apply calls_lift | lia | intros history_list].
  destruct history_list as [| | | | [| record records] |]; try apply calls_ret.
  destruct (Scanner1.first_history_time rt (record :: records)); apply calls_ret.
Qed.

Lemma scanner1_calls_verify_age a age n now0 :
  calls_at_most 3 (Scanner1.verify_age rt pv self a age n now0).
Proof.
  unfold Scanner1.verify_age.
  destruct ((age <? 1) && (100 <=? n)); [| apply calls_ret].
  apply (calls_bind 3); [apply scanner1_calls_history | lia |].
  intros [tct |]; [| apply calls_ret].
  apply (calls_bind 0); [destruct now0; [apply calls_ret | apply calls_raise] | lia |].
  intros n0.
  apply (calls_bind 0); [apply calls_lift | lia | intros delta; apply calls_ret].
Qed.

Lemma scanner1_calls_primary_age n st ct :
  calls_at_most n (Scanner1.primary_age pv st ct).
Proof.
  unfold Scanner1.primary_age. destruct ct as [ct |]; [| apply calls_ret].
  apply (calls_bind 0); [apply calls_now_utc | lia | intros now0].
  apply (calls_bind 0); [apply calls_lift | lia | intros delta; apply calls_ret].
Qed.

Lemma scanner1_calls_dispersion_check depth vo l total :
  calls_at_most (if 0 <? depth then 3 else 0)
    (Scanner1.dispersion_check pv self depth vo l total).
Proof.
  unfold Scanner1.dispersion_check.
  destruct (0 <? depth); [| apply calls_ret].
  destruct (negb vo); [| apply calls_ret].
  apply (calls_bind 3); [apply calls_analyze | lia |].
  intros b. destruct b; apply calls_ret.
Qed.

Lemma scanner1_calls_trace_iteration depth st :
  calls_at_most (scanner1_turn_cost depth) (Scanner1.trace_iteration rt pv self depth st).
Proof.
  unfold Scanner1.trace_iteration. cbv zeta.
  apply (calls_bind 6); [apply scanner1_calls_details | |].
  { unfold scanner1_turn_cost. destruct (0 <? depth); lia. }
  intros [d |]; [| apply calls_ret].
  apply (calls_bind 0); [apply scanner1_calls_primary_age | lia |].
  intros [[age hours] now0].
  apply (calls_bind 3); [apply scanner1_calls_verify_age | |].
  { unfold scanner1_turn_cost. destruct (0 <? depth); lia. }
  intros [age' vo].
  apply (calls_bind (if 0 <? depth then 3%nat else 0%nat));
    [apply scanner1_calls_dispersion_check | |].
  { unfold scanner1_turn_cost. destruct (0 <? depth); lia. }
  intros [l' total'].
  destruct (truthy (Scanner1.funder_entity d)); [apply calls_ret |].
  destruct (negb (truthy (Scanner1.funder d))); [apply calls_ret |].
  apply (calls_bind 0); [apply calls_sleep | lia | intros u; apply calls_ret].
Qed.

Lemma scanner1_calls_trace start max_depth :
  calls_at_most (list_sum (map scanner1_turn_cost (range (max_depth + 1))))
    (Scanner1.trace_funding_source rt pv self start max_depth).
Proof.
  unfold Scanner1.trace_funding_source. cbv zeta.
  apply (calls_bind (list_sum (map scanner1_turn_cost (range (max_depth + 1)))));
    [| lia | intros st; apply calls_ret].
  apply calls_for_each. apply scanner1_calls_trace_iteration.
Qed.

Lemma scanner1_calls_assess token :
  calls_at_most 51 (Scanner1.assess_token_risk rt pv self token).
Proof.
  unfold Scanner1.assess_token_risk, Scanner1.check_database_status.
  apply (calls_bind 3); [| lia |].
  { apply (calls_bind 3); [apply calls_get | lia | intros data; apply calls_lift]. }
  intros [db |]; [apply calls_ret |]. cbv zeta.
  apply (calls_bind 3); [apply calls_get | lia | intros data].
  destruct (negb (truthy (_normalize_transfers_list data))); [apply calls_ret |].
  apply (calls_bind 0); [apply calls_lift | lia |].
  intros [deployer |]; [| apply calls_ret].
  apply (calls_bind (list_sum (map scanner1_turn_cost (range (3 + 1)))));
    [apply scanner1_calls_trace | vm_compute; lia | intros fa; apply calls_lift].
Qed.

(** *** [Scanner.py] *)

Lemma scanner_calls_details a :
  calls_at_most 6 (Scanner.get_address_details rt pv self a).
Proof.
  unfold Scanner.get_address_details. cbv zeta.
  destruct (negb (truthy a)); [apply calls_ret |].
  apply (calls_bind 3); [apply calls_get | lia | intros tx_data].
  apply (calls_bind 3); [| lia |].
  - destruct (negb (truthy (_normalize_transfers_list tx_data))); [| apply calls_ret].
    apply (calls_bind 3); [apply calls_get | lia | intros d; apply calls_ret].
  - intros tx_list. destruct (negb (truthy tx_list)); [apply calls_ret |].
    apply (calls_bind 0); [apply calls_lift | lia | intros d; apply calls_ret].
Qed.

Lemma scanner_calls_primary_age n ct : calls_at_most n (Scanner.primary_age pv ct).
Proof.
  unfold Scanner.primary_age. destruct ct as [ct |]; [| apply calls_ret].
  apply (calls_bind 0); [apply calls_now | lia | intros now0].
  apply (calls_bind 0); [apply calls_lift | lia | intros delta; apply calls_ret].
Qed.

Lemma scanner_calls_known_entity a :
  calls_at_most 3 (Scanner.check_is_known_entity rt pv self a).
Proof.
  unfold Scanner.check_is_known_entity.
  apply (calls_bind 3); [apply calls_get | lia | intros data].
  destruct (truthy data); [| apply calls_ret].
  apply (calls_bind 0); [apply calls_lift | lia | intros entity].
  destruct (truthy entity); [| apply calls_ret].
  apply (calls_bind 0); [apply calls_lift | lia | intros name].
  destruct name; try apply calls_raise.
  destruct (any_in (cex_keywords self) (str_lower rt s)); [| apply calls_ret].
  apply (calls_bind 0); [apply calls_lift | lia | intros name; apply calls_ret].
Qed.

Lemma scanner_calls_entity_check depth a :
  calls_at_most (if 0 <? depth then 3 else 0) (Scanner.entity_check rt pv self depth a).
Proof.
  unfold Scanner.entity_check. destruct (0 <? depth); [| apply calls_ret].
  apply (calls_bind 3); [apply scanner_calls_known_entity | lia |].
  intros [is_known name]. destruct is_known; apply calls_ret.
Qed.

Lemma scanner_calls_dispersion_check depth l total :
  calls_at_most (if 0 <? depth then 3 else 0)
    (Scanner.dispersion_check pv self depth l total).
Proof.
  unfold Scanner.dispersion_check.
  destruct (0 <? depth); [| apply calls_ret].
  apply (calls_bind 3); [apply calls_analyze | lia |].
  intros b. destruct b; apply calls_ret.
Qed.

Lemma scanner_calls_trace_iteration depth st :
  calls_at_most (scanner_turn_cost depth) (Scanner.trace_iteration rt pv self depth st).
Proof.
  unfold Scanner.trace_iteration. cbv zeta.
  apply (calls_bind 6); [apply scanner_calls_details | |].
  { unfold scanner_turn_cost. destruct (0 <? depth); lia. }
  intros [d |]; [| apply calls_ret].
  apply (calls_bind 0); [apply scanner_calls_primary_age | lia |].
  intros age.
  apply (calls_bind (if 0 <? depth then 3%nat else 0%nat));
    [apply scanner_calls_entity_check | |].
  { unfold scanner_turn_cost. destruct (0 <? depth); lia. }
  intros [name |]; [apply calls_ret |].
  apply (calls_bind (if 0 <? depth then 3%nat else 0%nat));
    [apply scanner_calls_dispersion_check | |].
  { unfold scanner_turn_cost. destruct (0 <? depth); lia. }
  intros [l' total'].
  destruct (negb (truthy (Scanner.funder d))); [apply calls_ret |].
  apply (calls_bind 0); [apply calls_sleep | lia | intros u; apply calls_ret].
Qed.

Lemma scanner_calls_trace start max_depth :
  calls_at_most (list_sum (map scanner_turn_cost (range (max_depth + 1))))
    (Scanner.trace_funding_source rt pv self start max_depth).
Proof.
  unfold Scanner.trace_funding_source. cbv zeta.
  apply (calls_bind (list_sum (map scanner_turn_cost (range (max_depth + 1)))));
    [| lia | intros st; apply calls_ret].
  apply calls_for_each. apply scanner_calls_trace_iteration.
Qed.

Lemma scanner_calls_assess token :
  calls_at_most 48 (Scanner.assess_token_risk rt pv self token).
Proof.
  unfold Scanner.assess_token_risk, Scanner.check_database_status.
  apply (calls_bind 3); [| lia |].
  { apply (calls_bind 3); [apply calls_get | lia | intros data; apply calls_lift]. }
  intros [db |]; [apply calls_ret |]. cbv zeta.
  apply (calls_bind 3); [apply calls_get | lia | intros data].
  destruct (negb (truthy (_normalize_transfers_list data))); [apply calls_ret |].
  apply (calls_bind 0); [apply calls_lift | lia |].
  intros [deployer |]; [| apply calls_ret].
  apply (calls_bind (list_sum (map scanner_turn_cost (range (3 + 1)))));
    [apply scanner_calls_trace | vm_compute; lia | intros fa; apply calls_ret].
Qed.

(** X10: one call of [assess_token_risk] makes at most 51 calls of
    [requests.get] in [scanner1.py] and at most 48 in [Scanner.py],
    whether it returns or raises, and it only adds to the calls made
    before: three attempts for the database, three for the token's
    transfers, and for each of the four hops six for its transfers and
    three for each further lookup. *)
Theorem request_budget token (s : state W) :
  (forall r s', Scanner1.assess_token_risk rt pv self token s = (r, s') ->
     exists l, sent s' = (sent s ++ l)%list /\ (List.length l <= 51)%nat) /\
  (forall r s', Scanner.assess_token_risk rt pv self token s = (r, s') ->
     exists l, sent s' = (sent s ++ l)%list /\ (List.length l <= 48)%nat).
Proof.
  split; intros r s' H.
  - exact (scanner1_calls_assess token s r s' H).
  - exact (scanner_calls_assess token s r s' H).
Qed.

End Budget.

(** The scan of [TOKEN_A]: seven calls in [scanner1.py]. *)
Lemma request_budget_witness :
  exists r s' l,
    Scanner1.assess_token_risk Fixtures.runtime Fixtures.provider Fixtures.scanner1
      "TOKEN_A" Fixtures.start = (r, s') /\
    sent s' = (sent Fixtures.start ++ l)%list /\ (List.length l <= 51)%nat.
Proof.
  evaluate (Scanner1.assess_token_risk Fixtures.runtime Fixtures.provider
              Fixtures.scanner1 "TOKEN_A" Fixtures.start) E.
  destruct (proj1 (request_budget Fixtures.runtime Fixtures.provider Fixtures.scanner1
                     "TOKEN_A" Fixtures.start) _ _ E) as (l & Hl & Hlen).
  eexists. eexists. exists l. split; [exact E |]. split; [exact Hl | exact Hlen].
Defined.

(** ** The shape of a trace *)

Lemma marked_is_last {A} (P : A -> bool) l x :
  Forall (fun h => P h = false) l ->
  forall pre y post, (l ++ [x] = pre ++ y :: post)%list -> P y = true -> post = [].
Proof.
  induction 1 as [| a l Ha _ IH]; intros pre y post Heq Hy.
  - destruct pre as [| b pre]; simpl in Heq.
    + inversion Heq. reflexivity.
    + inversion Heq. destruct pre; discriminate.
  - destruct pre as [| b pre]; simpl in Heq.
    + inversion Heq; subst. rewrite Ha in Hy. discriminate Hy.
    + inversion Heq; subst. exact (IH pre y post H1 Hy).
Qed.

Lemma unmarked_everywhere {A} (P : A -> bool) l :
  Forall (fun h => P h = false) l ->
  forall pre y post, (l = pre ++ y :: post)%list -> P y = true -> post = [].
Proof.
  intros Hall pre y post Heq Hy. rewrite Forall_forall in Hall.
  rewrite (Hall y) in Hy; [discriminate Hy |].
  rewrite Heq. apply in_elt.
Qed.

Section Shape.
Context {W : Type} (rt : Runtime) (pv : Provider W) (self : SolanaTokenScanner).

Lemma scanner1_details_some a (s : state W) d s' :
  Scanner1.get_address_details rt pv self a s = (Ok (Some d), s') -> truthy a = true.
Proof.
  unfold Scanner1.get_address_details.
  destruct (truthy a); [reflexivity |]. cbn [negb].
  intros H. apply ret_ok in H. destruct H as [H _]. discriminate H.
Qed.

Lemma scanner_details_some a (s : state W) d s' :
  Scanner.get_address_details rt pv self a s = (Ok (Some d), s') -> truthy a = true.
Proof.
  unfold Scanner.get_address_details.
  destruct (truthy a); [reflexivity |]. cbn [negb].
  intros H. apply ret_ok in H. destruct H as [H _]. discriminate H.
Qed.

Lemma scanner_details_none a (s : state W) s' :
  Scanner.get_address_details rt pv self a s = (Ok None, s') -> truthy a = false.
Proof.
  unfold Scanner.get_address_details.
  destruct (truthy a); [| reflexivity]. cbn [negb]. intros H.
  apply bind_ok in H. destruct H as (d1 & s1 & _ & H).
  apply bind_ok in H. destruct H as (tl & s2 & _ & H).
  destruct (negb (truthy tl)).
  - apply ret_ok in H. destruct H as [H _]. discriminate H.
  - apply bind_ok in H. destruct H as (d & s3 & _ & H).
    apply ret_ok in H. destruct H as [H _]. discriminate H.
Qed.

(** The trace of [scanner1.py]: what holds of the chain, for a loop of
    [n] turns. *)
Lemma scanner1_trace_shape start max_depth (s : state W) fa s' :
  Scanner1.trace_funding_source rt pv self start max_depth s = (Ok fa, s') ->
  (List.length (Scanner1.chain fa) <= Z.to_nat (max_depth + 1) + 1)%nat /\
  (forall hop rest, Scanner1.chain fa = hop :: rest ->
     Scanner1.address hop = start /\ Scanner1.is_cex hop = false) /\
  (forall pre hop post, Scanner1.chain fa = (pre ++ hop :: post)%list ->
     Scanner1.is_cex hop = true -> post = []) /\
  (Scanner1.chain fa <> [] -> truthy start = true) /\
  (0 <= max_depth -> truthy start = true -> Scanner1.chain fa <> []).
Proof.
  unfold Scanner1.trace_funding_source. intros H.
  apply bind_ok in H. destruct H as (st & s1 & Hloop & H).
  apply ret_ok in H. destruct H as [-> _]. cbn [Scanner1.chain].
  replace (range (max_depth + 1))
    with (range (Z.of_nat (Z.to_nat (max_depth + 1)))) in Hloop
    by (unfold range; rewrite Nat2Z.id; reflexivity).
  apply (for_each_rule (Scanner1.trace_iteration rt pv self)
           (fun i st _ =>
              Z.of_nat (List.length (Scanner1.chain_info st)) = i /\
              Forall (fun h => Scanner1.is_cex h = false) (Scanner1.chain_info st) /\
              (forall hop rest, Scanner1.chain_info st = hop :: rest ->
                 Scanner1.address hop = start) /\
              (i = 0 -> Scanner1.current_addr st = start) /\
              (0 < i -> truthy (Scanner1.current_addr st) = true /\ truthy start = true))
           (fun st _ =>
              (List.length (Scanner1.chain_info st) <= Z.to_nat (max_depth + 1) + 1)%nat /\
              (forall hop rest, Scanner1.chain_info st = hop :: rest ->
                 Scanner1.address hop = start /\ Scanner1.is_cex hop = false) /\
              (forall pre hop post, Scanner1.chain_info st = (pre ++ hop :: post)%list ->
                 Scanner1.is_cex hop = true -> post = []) /\
              (Scanner1.chain_info st <> [] -> truthy start = true) /\
              (0 <= max_depth -> truthy start = true -> Scanner1.chain_info st <> []))
           (Z.to_nat (max_depth + 1))) in Hloop; [exact Hloop | | |].
  - (* one turn *)
    intros i st0 s0 f st0' s0' Hi (Hlen & Hall & Hfirst & Hzero & Hpos) Hbody.
    apply Scanner1Facts.scanner1_trace_iteration_outcome in Hbody.
    destruct Hbody as (d & s2 & Hdet & Hout).
    assert (Hstart : truthy (Scanner1.current_addr st0) = true -> truthy start = true).
    { intros Ht. destruct (Z.eq_dec i 0) as [E | E].
      - rewrite <- (Hzero E). exact Ht.
      - apply Hpos. lia. }
    assert (Hhead : forall hop tail h rest,
               Scanner1.address hop = Scanner1.current_addr st0 ->
               Scanner1.is_cex hop = false ->
               (Scanner1.chain_info st0 ++ hop :: tail)%list = h :: rest ->
               Scanner1.address h = start /\ Scanner1.is_cex h = false).
    { intros hop tail h rest Haddr Hcex Heq.
      destruct (Scanner1.chain_info st0) as [| c0 chain0] eqn:Echain.
      - simpl in Heq. inversion Heq; subst h. split; [| exact Hcex].
        rewrite Haddr. apply Hzero. simpl in Hlen. lia.
      - simpl in Heq. inversion Heq; subst h. split.
        + exact (Hfirst c0 chain0 eq_refl).
        + inversion Hall. assumption. }
    inversion Hout; subst.
    + (* the lookup returned None *)
      apply Properties.scanner1_details_none in Hdet.
      assert (Ei : Z.of_nat (List.length (Scanner1.chain_info st0')) = 0).
      { destruct (Z.eq_dec (Z.of_nat (List.length (Scanner1.chain_info st0'))) 0)
          as [E | E]; [exact E |].
        assert (Hgt : 0 < Z.of_nat (List.length (Scanner1.chain_info st0'))) by lia.
        destruct (Hpos Hgt) as [Ht _]. rewrite Ht in Hdet. discriminate Hdet. }
      assert (Hnil : Scanner1.chain_info st0' = []).
      { destruct (Scanner1.chain_info st0'); [reflexivity | simpl in Ei; lia]. }
      rewrite Hnil. split; [simpl; lia |].
      split; [intros hop rest Heq; discriminate Heq |].
      split; [intros pre hop post Heq; destruct pre; discriminate Heq |].
      split; [intros Hne; contradiction Hne; reflexivity |].
      intros _ Ht. rewrite <- (Hzero Ei), Hdet in Ht. discriminate Ht.
    + (* the funder is a known entity *)
      apply scanner1_details_some in Hdet.
      match goal with Hs : Scanner1Spec.scored_hop _ _ _ _ ?h |- _ =>
        pose proof (Scanner1Spec.hop_address _ _ _ _ _ Hs) as Haddr;
        pose proof (Scanner1Spec.hop_is_cex _ _ _ _ _ Hs) as Hcex
      end.
      cbn [Scanner1.chain_info]. split; [| split; [| split; [| split]]].
      * rewrite length_app. simpl. lia.
      * intros h rest Heq. exact (Hhead _ _ _ _ Haddr Hcex Heq).
      * intros pre y post Heq Hy.
        apply (marked_is_last Scanner1.is_cex (Scanner1.chain_info st0 ++ [hop]) cex)
          with (pre := pre) (y := y); [| | exact Hy].
        -- apply Forall_app. split; [exact Hall | constructor; [exact Hcex | constructor]].
        -- rewrite <- app_assoc. exact Heq.
      * intros _. exact (Hstart Hdet).
      * intros _ _ Hnil. apply app_eq_nil in Hnil. destruct Hnil as [_ Hnil].
        discriminate Hnil.
    + (* no funder *)
      apply scanner1_details_some in Hdet.
      match goal with Hs : Scanner1Spec.scored_hop _ _ _ _ ?h |- _ =>
        pose proof (Scanner1Spec.hop_address _ _ _ _ _ Hs) as Haddr;
        pose proof (Scanner1Spec.hop_is_cex _ _ _ _ _ Hs) as Hcex
      end.
      cbn [Scanner1.chain_info]. split; [| split; [| split; [| split]]].
      * rewrite length_app. simpl. lia.
      * intros h rest Heq. exact (Hhead _ _ _ _ Haddr Hcex Heq).
      * apply (unmarked_everywhere Scanner1.is_cex).
        apply Forall_app. split; [exact Hall | constructor; [exact Hcex | constructor]].
      * intros _. exact (Hstart Hdet).
      * intros _ _ Hnil. apply app_eq_nil in Hnil. destruct Hnil as [_ Hnil].
        discriminate Hnil.
    + (* the walk goes on *)
      apply scanner1_details_some in Hdet.
      match goal with Hs : Scanner1Spec.scored_hop _ _ _ _ ?h |- _ =>
        pose proof (Scanner1Spec.hop_address _ _ _ _ _ Hs) as Haddr;
        pose proof (Scanner1Spec.hop_is_cex _ _ _ _ _ Hs) as Hcex
      end.
      cbn [Scanner1.chain_info Scanner1.current_addr].
      split; [| split; [| split; [| split]]].
      * rewrite length_app. simpl. lia.
      * apply Forall_app. split; [exact Hall | constructor; [exact Hcex | constructor]].
      * intros h rest Heq. exact (proj1 (Hhead _ _ _ _ Haddr Hcex Heq)).
      * intros E. lia.
      * intros _. split; [assumption | exact (Hstart Hdet)].
  - (* the depth is exhausted *)
    intros st0 s0 (Hlen & Hall & Hfirst & Hzero & Hpos).
    split; [lia |]. split; [| split; [| split]].
    + intros h rest Heq. split; [exact (Hfirst h rest Heq) |].
      rewrite Heq in Hall. inversion Hall. assumption.
    + apply (unmarked_everywhere Scanner1.is_cex). exact Hall.
    + intros Hne. apply Hpos.
      destruct (Scanner1.chain_info st0); [contradiction Hne; reflexivity |].
      simpl in Hlen. lia.
    + intros Hd _ Hnil. rewrite Hnil in Hlen. simpl in Hlen. lia.
  - (* before the first turn *)
    cbn [Scanner1.chain_info Scanner1.current_addr].
    split; [reflexivity |]. split; [constructor |].
    split; [intros hop rest Heq; discriminate Heq |].
    split; [reflexivity | intros Hlt; lia].
Qed.

(** The trace of [Scanner.py]: the entry of a trusted entity is made in
    place of the entry of the address, so the chain is one shorter. *)
Lemma scanner_trace_shape start max_depth (s : state W) fa s' :
  Scanner.trace_funding_source rt pv self start max_depth s = (Ok fa, s') ->
  (List.length (Scanner.chain fa) <= Z.to_nat (max_depth + 1))%nat /\
  (forall hop rest, Scanner.chain fa = hop :: rest ->
     Scanner.address hop = start /\ Scanner.is_cex hop = false) /\
  (forall pre hop post, Scanner.chain fa = (pre ++ hop :: post)%list ->
     Scanner.is_cex hop = true -> post = []) /\
  (Scanner.chain fa <> [] -> truthy start = true) /\
  (0 <= max_depth -> truthy start = true -> Scanner.chain fa <> []).
Proof.
  unfold Scanner.trace_funding_source. intros H.
  apply bind_ok in H. destruct H as (st & s1 & Hloop & H).
  apply ret_ok in H. destruct H as [-> _]. cbn [Scanner.chain].
  replace (range (max_depth + 1))
    with (range (Z.of_nat (Z.to_nat (max_depth + 1)))) in Hloop
    by (unfold range; rewrite Nat2Z.id; reflexivity).
  apply (for_each_rule (Scanner.trace_iteration rt pv self)
           (fun i st _ =>
              Z.of_nat (List.length (Scanner.chain_info st)) = i /\
              Forall (fun h => Scanner.is_cex h = false) (Scanner.chain_info st) /\
              (forall hop rest, Scanner.chain_info st = hop :: rest ->
                 Scanner.address hop = start) /\
              (i = 0 -> Scanner.current_addr st = start) /\
              (0 < i -> truthy (Scanner.current_addr st) = true /\ truthy start = true))
           (fun st _ =>
              (List.length (Scanner.chain_info st) <= Z.to_nat (max_depth + 1))%nat /\
              (forall hop rest, Scanner.chain_info st = hop :: rest ->
                 Scanner.address hop = start /\ Scanner.is_cex hop = false) /\
              (forall pre hop post, Scanner.chain_info st = (pre ++ hop :: post)%list ->
                 Scanner.is_cex hop = true -> post = []) /\
              (Scanner.chain_info st <> [] -> truthy start = true) /\
              (0 <= max_depth -> truthy start = true -> Scanner.chain_info st <> []))
           (Z.to_nat (max_depth + 1))) in Hloop; [exact Hloop | | |].
  - (* one turn *)
    intros i st0 s0 f st0' s0' Hi (Hlen & Hall & Hfirst & Hzero & Hpos) Hbody.
    apply ScannerFacts.scanner_trace_iteration_outcome in Hbody.
    destruct Hbody as (d & s2 & Hdet & Hout).
    assert (Hstart : truthy (Scanner.current_addr st0) = true -> truthy start = true).
    { intros Ht. destruct (Z.eq_dec i 0) as [E | E].
      - rewrite <- (Hzero E). exact Ht.
      - apply Hpos. lia. }
    assert (Hhead : forall hop tail h rest,
               Scanner.address hop = Scanner.current_addr st0 ->
               (Scanner.is_cex hop = false \/ 0 < i) ->
               (Scanner.chain_info st0 ++ hop :: tail)%list = h :: rest ->
               Scanner.address h = start /\ Scanner.is_cex h = false).
    { intros hop tail h rest Haddr Hcex Heq.
      destruct (Scanner.chain_info st0) as [| c0 chain0] eqn:Echain.
      - simpl in Heq. inversion Heq; subst h. simpl in Hlen.
        destruct Hcex as [Hcex | Hgt]; [| lia].
        split; [| exact Hcex]. rewrite Haddr. apply Hzero. lia.
      - simpl in Heq. inversion Heq; subst h. split.
        + exact (Hfirst c0 chain0 eq_refl).
        + inversion Hall. assumption. }
    inversion Hout; subst.
    + (* the lookup returned None *)
      apply scanner_details_none in Hdet.
      assert (Ei : Z.of_nat (List.length (Scanner.chain_info st0')) = 0).
      { destruct (Z.eq_dec (Z.of_nat (List.length (Scanner.chain_info st0'))) 0)
          as [E | E]; [exact E |].
        assert (Hgt : 0 < Z.of_nat (List.length (Scanner.chain_info st0'))) by lia.
        destruct (Hpos Hgt) as [Ht _]. rewrite Ht in Hdet. discriminate Hdet. }
      assert (Hnil : Scanner.chain_info st0' = []).
      { destruct (Scanner.chain_info st0'); [reflexivity | simpl in Ei; lia]. }
      rewrite Hnil. split; [simpl; lia |].
      split; [intros hop rest Heq; discriminate Heq |].
      split; [intros pre hop post Heq; destruct pre; discriminate Heq |].
      split; [intros Hne; contradiction Hne; reflexivity |].
      intros _ Ht. rewrite <- (Hzero Ei), Hdet in Ht. discriminate Ht.
    + (* the address belongs to a trusted entity *)
      apply scanner_details_some in Hdet.
      match goal with Hs : ScannerSpec.trusted_hop _ _ _ ?h |- _ =>
        pose proof (ScannerSpec.cex_address _ _ _ _ Hs) as Haddr;
        pose proof (ScannerSpec.cex_depth _ _ _ _ Hs) as Hdepth
      end.
      cbn [Scanner.chain_info]. split; [| split; [| split; [| split]]].
      * rewrite length_app. simpl. lia.
      * intros h rest Heq. apply (Hhead _ _ _ _ Haddr) in Heq; [exact Heq |].
        right. exact Hdepth.
      * intros pre y post Heq Hy.
        exact (marked_is_last Scanner.is_cex (Scanner.chain_info st0) hop Hall
                 pre y post Heq Hy).
      * intros _. exact (Hstart Hdet).
      * intros _ _ Hnil. apply app_eq_nil in Hnil. destruct Hnil as [_ Hnil].
        discriminate Hnil.
    + (* no funder *)
      apply scanner_details_some in Hdet.
      match goal with Hs : ScannerSpec.scored_hop _ _ _ ?h |- _ =>
        pose proof (ScannerSpec.hop_address _ _ _ _ Hs) as Haddr;
        pose proof (ScannerSpec.hop_is_cex _ _ _ _ Hs) as Hcex
      end.
      cbn [Scanner.chain_info]. split; [| split; [| split; [| split]]].
      * rewrite length_app. simpl. lia.
      * intros h rest Heq. apply (Hhead _ _ _ _ Haddr) in Heq; [exact Heq |].
        left. exact Hcex.
      * apply (unmarked_everywhere Scanner.is_cex).
        apply Forall_app. split; [exact Hall | constructor; [exact Hcex | constructor]].
      * intros _. exact (Hstart Hdet).
      * intros _ _ Hnil. apply app_eq_nil in Hnil. destruct Hnil as [_ Hnil].
        discriminate Hnil.
    + (* the walk goes on *)
      apply scanner_details_some in Hdet.
      match goal with Hs : ScannerSpec.scored_hop _ _ _ ?h |- _ =>
        pose proof (ScannerSpec.hop_address _ _ _ _ Hs) as Haddr;
        pose proof (ScannerSpec.hop_is_cex _ _ _ _ Hs) as Hcex
      end.
      cbn [Scanner.chain_info Scanner.current_addr].
      split; [| split; [| split; [| split]]].
      * rewrite length_app. simpl. lia.
      * apply Forall_app. split; [exact Hall | constructor; [exact Hcex | constructor]].
      * intros h rest Heq. apply (Hhead _ _ _ _ Haddr) in Heq; [exact (proj1 Heq) |].
        left. exact Hcex.
      * intros E. lia.
      * intros _. split; [assumption | exact (Hstart Hdet)].
  - (* the depth is exhausted *)
    intros st0 s0 (Hlen & Hall & Hfirst & Hzero & Hpos).
    split; [lia |]. split; [| split; [| split]].
    + intros h rest Heq. split; [exact (Hfirst h rest Heq) |].
      rewrite Heq in Hall. inversion Hall. assumption.
    + apply (unmarked_everywhere Scanner.is_cex). exact Hall.
    + intros Hne. apply Hpos.
      destruct (Scanner.chain_info st0); [contradiction Hne; reflexivity |].
      simpl in Hlen. lia.
    + intros Hd _ Hnil. rewrite Hnil in Hlen. simpl in Hlen. lia.
  - (* before the first turn *)
    cbn [Scanner.chain_info Scanner.current_addr].
    split; [reflexivity |]. split; [constructor |].
    split; [intros hop rest Heq; discriminate Heq |].
    split; [reflexivity | intros Hlt; lia].
Qed.

(** X11: the chain a trace returns.  It starts with the entry of the
    start address, which is never the entry of an entity; an entry
    marked [is_cex] is the last one; the chain is empty exactly when
    the start address is [None] or empty (for a depth of 0 or more);
    and a trace of depth [max_depth] has at most [max_depth + 2]
    entries in [scanner1.py], where the entity is one more entry, and
    at most [max_depth + 1] in [Scanner.py]. *)
Theorem trace_shape start max_depth (s : state W) :
  0 <= max_depth ->
  (forall fa s',
     Scanner1.trace_funding_source rt pv self start max_depth s = (Ok fa, s') ->
     Z.of_nat (List.length (Scanner1.chain fa)) <= max_depth + 2 /\
     (forall hop rest, Scanner1.chain fa = hop :: rest ->
        Scanner1.address hop = start /\ Scanner1.is_cex hop = false) /\
     (forall pre hop post, Scanner1.chain fa = (pre ++ hop :: post)%list ->
        Scanner1.is_cex hop = true -> post = []) /\
     (Scanner1.chain fa = [] <-> truthy start = false)) /\
  (forall fa s',
     Scanner.trace_funding_source rt pv self start max_depth s = (Ok fa, s') ->
     Z.of_nat (List.length (Scanner.chain fa)) <= max_depth + 1 /\
     (forall hop rest, Scanner.chain fa = hop :: rest ->
        Scanner.address hop = start /\ Scanner.is_cex hop = false) /\
     (forall pre hop post, Scanner.chain fa = (pre ++ hop :: post)%list ->
        Scanner.is_cex hop = true -> post = []) /\
     (Scanner.chain fa = [] <-> truthy start = false)).
Proof.
  intros Hdepth. split; intros fa s' H.
  - apply scanner1_trace_shape in H.
    destruct H as (Hlen & Hfirst & Hlast & Hsome & Hnone).
    split; [lia |]. split; [exact Hfirst |]. split; [exact Hlast |].
    split.
    + intros Hnil. destruct (truthy start) eqn:Ht; [| reflexivity].
      contradiction (Hnone Hdepth eq_refl Hnil).
    + intros Ht. destruct (Scanner1.chain fa) as [| h rest] eqn:E; [reflexivity |].
      rewrite Hsome in Ht; [discriminate Ht | discriminate].
  - apply scanner_trace_shape in H.
    destruct H as (Hlen & Hfirst & Hlast & Hsome & Hnone).
    split; [lia |]. split; [exact Hfirst |]. split; [exact Hlast |].
    split.
    + intros Hnil. destruct (truthy start) eqn:Ht; [| reflexivity].
      contradiction (Hnone Hdepth eq_refl Hnil).
    + intros Ht. destruct (Scanner.chain fa) as [| h rest] eqn:E; [reflexivity |].
      rewrite Hsome in Ht; [discriminate Ht | discriminate].
Qed.

(** *** The score of [Scanner.py] *)

Lemma scanner_age_risk_nonneg depth age : 0 <= Scanner.age_risk_of depth age.
Proof.
  unfold Scanner.age_risk_of.
  destruct (negb (age =? -1)), (depth =? 0), (age <? 30), (age <? 90), (age <? 180); lia.
Qed.

Lemma scanner_trace_floor start max_depth (s : state W) fa s' :
  Scanner.trace_funding_source rt pv self start max_depth s = (Ok fa, s') ->
  10 <= Scanner.score fa.
Proof.
  intros H.
  apply (ScannerFacts.scanner_trace_rule rt pv self
           (fun _ st => 20 <= Scanner.trace_risk_score st)
           (fun st => 10 <= Scanner.trace_risk_score st)) in H.
  - destruct H as (st & Hst & ->). exact Hst.
  - intros i st d f st' _ HI Hout.
    assert (Hhop : forall dist hop, ScannerSpec.scored_hop i (Scanner.current_addr st) dist hop ->
                                    0 <= Scanner.risk_contribution hop).
    { intros dist hop Hs. rewrite (ScannerSpec.hop_risk _ _ _ _ Hs).
      pose proof (scanner_age_risk_nonneg i (Scanner.age_days hop)).
      destruct dist; lia. }
    inversion Hout; subst; cbn [Scanner.trace_risk_score].
    + lia.
    + match goal with Hs : ScannerSpec.trusted_hop _ _ _ _ |- _ =>
        rewrite (ScannerSpec.cex_risk _ _ _ _ Hs)
      end. lia.
    + match goal with Hs : ScannerSpec.scored_hop _ _ _ _ |- _ =>
        pose proof (Hhop _ _ Hs)
      end. lia.
    + match goal with Hs : ScannerSpec.scored_hop _ _ _ _ |- _ =>
        pose proof (Hhop _ _ Hs)
      end. lia.
  - intros st HI. lia.
  - cbn [Scanner.trace_risk_score]. lia.
Qed.

(** X12: a deep scan by [Scanner.py] never reports a score below 10:
    the trace starts from 20, a trusted entity takes 10 off and ends
    the walk, and nothing else lowers the total. *)
Theorem deep_scan_floor token (s : state W) t deployer risk log stop s' :
  Scanner.assess_token_risk rt pv self token s
    = (Ok (Scanner.Scanned t deployer risk log stop), s') ->
  10 <= Scanner.final_score risk <= 100.
Proof.
  intros H. apply scanner_assess_cases in H.
  destruct H as [(db & data & _ & H) | [(msg & H) | (dep & fa & s1 & Htrace & H)]];
    try discriminate H.
  destruct (Properties.scanner_aggregate_score rt token dep fa) as (flags & lg & E).
  rewrite E in H. inversion H; subst. cbn [Scanner.final_score].
  apply scanner_trace_floor in Htrace. lia.
Qed.

End Shape.

(** The walk from [DEPLOYER_A] in [scanner1.py] (the deployer, its
    funder, the exchange) and in [Scanner.py]. *)
Lemma trace_shape_witness :
  (exists fa s',
     Scanner1.trace_funding_source Fixtures.runtime Fixtures.provider Fixtures.scanner1
       (PStr "DEPLOYER_A") 3 Fixtures.start = (Ok fa, s') /\
     List.length (Scanner1.chain fa) = 3%nat /\
     Z.of_nat (List.length (Scanner1.chain fa)) <= 3 + 2) /\
  (exists fa s',
     Scanner.trace_funding_source Fixtures.runtime Fixtures.provider Fixtures.scanner
       (PStr "DEPLOYER_A") 3 Fixtures.start = (Ok fa, s') /\
     Z.of_nat (List.length (Scanner.chain fa)) <= 3 + 1).
Proof.
  assert (Hdepth : 0 <= 3) by lia.
  split.
  - evaluate (Scanner1.trace_funding_source Fixtures.runtime Fixtures.provider
                Fixtures.scanner1 (PStr "DEPLOYER_A") 3 Fixtures.start) E.
    eexists. eexists. split; [exact E |]. split; [reflexivity |].
    exact (proj1 (proj1 (trace_shape Fixtures.runtime Fixtures.provider
                           Fixtures.scanner1 (PStr "DEPLOYER_A") 3 Fixtures.start
                           Hdepth) _ _ E)).
  - evaluate (Scanner.trace_funding_source Fixtures.runtime Fixtures.provider
                Fixtures.scanner (PStr "DEPLOYER_A") 3 Fixtures.start) E.
    eexists. eexists. split; [exact E |].
    exact (proj1 (proj2 (trace_shape Fixtures.runtime Fixtures.provider
                           Fixtures.scanner (PStr "DEPLOYER_A") 3 Fixtures.start
                           Hdepth) _ _ E)).
Defined.

(** The scan of [TOKEN_G] by [Scanner.py]: an old deployer that nobody
    funded. *)
Lemma deep_scan_floor_witness :
  exists t deployer risk log stop s',
    Scanner.assess_token_risk Fixtures.runtime Fixtures.provider Fixtures.scanner
      "TOKEN_G" Fixtures.start = (Ok (Scanner.Scanned t deployer risk log stop), s') /\
    Scanner.final_score risk = 20 /\
    10 <= Scanner.final_score risk <= 100.
Proof.
  evaluate (Scanner.assess_token_risk Fixtures.runtime Fixtures.provider
              Fixtures.scanner "TOKEN_G" Fixtures.start) E.
  do 6 eexists. split; [exact E |]. split; [reflexivity |].
  exact (deep_scan_floor Fixtures.runtime Fixtures.provider Fixtures.scanner
           "TOKEN_G" Fixtures.start _ _ _ _ _ _ E).
Defined.

(** ** The trace log of a report *)

Section Report.
Context {W : Type} (rt : Runtime) (pv : Provider W) (self : SolanaTokenScanner).






End Report.


(** ** The age score *)

(** X14: the age score never grows with the age: of two wallets at the
    same depth, the older one scores at most what the younger one
    scores, in both versions (in [scanner1.py], for wallets that are
    not verified-old).  The younger age must not be -1, the value that
    stands for an unknown age and scores 0. *)
Theorem age_risk_monotone depth younger older :
  younger <= older -> younger <> -1 ->
  Scanner1.age_risk_of depth older false <= Scanner1.age_risk_of depth younger false /\
  Scanner.age_risk_of depth older <= Scanner.age_risk_of depth younger.
Proof.
  intros Hle Hknown.
  unfold Scanner1.age_risk_of, Scanner.age_risk_of.
  destruct (younger =? -1) eqn:Ey; [apply Z.eqb_eq in Ey; contradiction |].
  cbn [negb].
  destruct (older =? -1) eqn:Eo; cbn [negb];
    destruct (depth =? 0);
    repeat match goal with
    | |- context [?a <? ?b] =>
        let E := fresh "E" in
        destruct (a <? b) eqn:E;
        [apply Z.ltb_lt in E | apply Z.ltb_ge in E]
    end; lia.
Qed.

Lemma age_risk_monotone_witness :
  Scanner1.age_risk_of 0 40 false <= Scanner1.age_risk_of 0 3 false /\
  Scanner.age_risk_of 0 40 <= Scanner.age_risk_of 0 3.
Proof. apply (age_risk_monotone 0 3 40); lia. Defined.

(** ** The trusted entities of [Scanner.py] *)

Section Trusted.
Context {W : Type} (rt : Runtime) (pv : Provider W) (self : SolanaTokenScanner).

(** No keyword of the whitelist is the empty text (whose lower case is
    the empty text). *)
Hypothesis keywords_nonempty : any_in (cex_keywords self) (str_lower rt "") = false.

Lemma known_entity_sound a (s : state W) name s' :
  Scanner.check_is_known_entity rt pv self a s = (Ok (true, name), s') ->
  exists n, name = PStr n /\ any_in (cex_keywords self) (str_lower rt n) = true.
Proof.
  unfold Scanner.check_is_known_entity. intros H.
  apply bind_ok in H. destruct H as (data & s1 & _ & H).
  destruct (truthy data).
  2:{ apply ret_ok in H. destruct H as [H _]. discriminate H. }
  apply bind_ok in H. destruct H as (entity & s2 & _ & H).
  destruct (truthy entity).
  2:{ apply ret_ok in H. destruct H as [H _]. discriminate H. }
  apply bind_ok in H. destruct H as (name0 & s3 & Hname0 & H).
  apply lift_ok in Hname0. destruct Hname0 as [Hname0 _].
  destruct name0 as [| | | n | |]; try (apply raise_ok in H; contradiction).
  destruct (any_in (cex_keywords self) (str_lower rt n)) eqn:Hkey.
  2:{ apply ret_ok in H. destruct H as [H _]. discriminate H. }
  apply bind_ok in H. destruct H as (name1 & s4 & Hname1 & H).
  apply lift_ok in Hname1. destruct Hname1 as [Hname1 _].
  apply ret_ok in H. destruct H as [H _]. inversion H; subst name1.
  exists n. split; [| exact Hkey].
  destruct entity as [| | | | | kvs]; try discriminate Hname0.
  unfold get in Hname1. cbn [get_default] in Hname0, Hname1.
  destruct (lookup "name" kvs) as [v |].
  - inversion Hname0; subst v. inversion Hname1. reflexivity.
  - inversion Hname0; subst n.
    rewrite keywords_nonempty in Hkey. discriminate Hkey.
Qed.

Lemma scanner_trace_iteration_vouched depth st (s : state W) f st' s' :
  Scanner.trace_iteration rt pv self depth st s = (Ok (f, st'), s') ->
  Forall (ReportSpec.vouched rt self) (Scanner.chain_info st) ->
  Forall (ReportSpec.vouched rt self) (Scanner.chain_info st').
Proof.
  unfold Scanner.trace_iteration. intros H Hchain.
  apply bind_ok in H. destruct H as (d & s1 & _ & H).
  destruct d as [d |].
  2:{ apply ret_ok in H. destruct H as [H _]. inversion H; subst. exact Hchain. }
  apply bind_ok in H. destruct H as (age & s2 & _ & H).
  apply bind_ok in H. destruct H as (known & s3 & Hknown & H).
  destruct known as [name |].
  - apply ret_ok in H. destruct H as [H _]. inversion H; subst f st'.
    cbn [Scanner.chain_info]. apply Forall_app. split; [exact Hchain |].
    constructor; [| constructor]. intros _. cbn [Scanner.set_cex Scanner.entity_name].
    unfold Scanner.entity_check in Hknown.
    destruct (0 <? depth).
    2:{ apply ret_ok in Hknown. destruct Hknown as [Hknown _]. discriminate Hknown. }
    apply bind_ok in Hknown. destruct Hknown as ([is_known en] & s4 & Hcheck & Hknown).
    destruct is_known.
    2:{ apply ret_ok in Hknown. destruct Hknown as [Hknown _]. discriminate Hknown. }
    apply ret_ok in Hknown. destruct Hknown as [Hknown _]. inversion Hknown; subst en.
    destruct (known_entity_sound _ _ _ _ Hcheck) as (n & -> & Hkey).
    exists n. split; [reflexivity | exact Hkey].
  - apply bind_ok in H. destruct H as ([l' total'] & s4 & Hdisp & H).
    apply ScannerFacts.scanner_dispersion_check_ok in Hdisp.
    assert (Hl' : ReportSpec.vouched rt self l').
    { intros Hcex. destruct Hdisp as [[-> _] | (_ & -> & _)]; discriminate Hcex. }
    destruct (negb (truthy (Scanner.funder d))).
    + apply ret_ok in H. destruct H as [H _]. inversion H; subst f st'.
      cbn [Scanner.chain_info]. apply Forall_app. split; [exact Hchain |].
      constructor; [exact Hl' | constructor].
    + apply bind_ok in H. destruct H as (u & s5 & _ & H).
      apply ret_ok in H. destruct H as [H _]. inversion H; subst f st'.
      cbn [Scanner.chain_info]. apply Forall_app. split; [exact Hchain |].
      constructor; [exact Hl' | constructor].
Qed.

(** X15: in a trace of [Scanner.py], an entry is marked [is_cex] only
    for an address whose entity the provider names, with a name that,
    in the lower case that [str.lower()] gives it, contains a keyword
    of the whitelist; the entry carries that name.  (The whitelist must
    hold no empty keyword: the one [__init__] sets holds none.) *)
Theorem trusted_entity_has_keyword start max_depth (s : state W) fa s' hop :
  Scanner.trace_funding_source rt pv self start max_depth s = (Ok fa, s') ->
  In hop (Scanner.chain fa) ->
  Scanner.is_cex hop = true ->
  exists name,
    Scanner.entity_name hop = Some (PStr name) /\
    any_in (cex_keywords self) (str_lower rt name) = true.
Proof.
  unfold Scanner.trace_funding_source. intros H Hin Hcex.
  apply bind_ok in H. destruct H as (st & s1 & Hloop & H).
  apply ret_ok in H. destruct H as [-> _]. cbn [Scanner.chain] in Hin.
  replace (range (max_depth + 1))
    with (range (Z.of_nat (Z.to_nat (max_depth + 1)))) in Hloop
    by (unfold range; rewrite Nat2Z.id; reflexivity).
  apply (for_each_rule (Scanner.trace_iteration rt pv self)
           (fun _ st _ => Forall (ReportSpec.vouched rt self) (Scanner.chain_info st))
           (fun st _ => Forall (ReportSpec.vouched rt self) (Scanner.chain_info st))
           (Z.to_nat (max_depth + 1))) in Hloop.
  - rewrite Forall_forall in Hloop. exact (Hloop hop Hin Hcex).
  - intros i st0 s0 f st0' s0' _ HI Hbody.
    pose proof (scanner_trace_iteration_vouched _ _ _ _ _ _ Hbody HI) as Hnext.
    destruct f; exact Hnext.
  - intros st0 s0 HI. exact HI.
  - constructor.
Qed.

End Trusted.

(** An entity whose name spells the keyword with the Kelvin sign is
    trusted: the lower case of the name contains "kraken". *)
Lemma kelvin_exchange_is_trusted :
  fst (Scanner.check_is_known_entity Fixtures.runtime
         (Samples.serving
            (PDict [("arkhamEntity", PDict [("name", PStr Samples.kelvin_exchange)])]))
         Fixtures.scanner (PStr "W") Fixtures.start)
  = Ok (true, PStr Samples.kelvin_exchange).
Proof. vm_compute. reflexivity. Qed.

(** The walk from [DEPLOYER_A] ends at [EXCHANGE_C], which the
    provider names Binance. *)
Lemma trusted_entity_has_keyword_witness :
  exists fa s' hop,
    Scanner.trace_funding_source Fixtures.runtime Fixtures.provider Fixtures.scanner
      (PStr "DEPLOYER_A") 3 Fixtures.start = (Ok fa, s') /\
    In hop (Scanner.chain fa) /\
    Scanner.address hop = PStr "EXCHANGE_C" /\
    exists name,
      Scanner.entity_name hop = Some (PStr name) /\
      any_in (cex_keywords Fixtures.scanner) (str_lower Fixtures.runtime name) = true.
Proof.
  evaluate (Scanner.trace_funding_source Fixtures.runtime Fixtures.provider
              Fixtures.scanner (PStr "DEPLOYER_A") 3 Fixtures.start) E.
  assert (Hkeywords : any_in (cex_keywords Fixtures.scanner)
                        (str_lower Fixtures.runtime "") = false) by reflexivity.
  eexists. eexists.
  exists (Scanner.mk_layer 2 (PStr "EXCHANGE_C") (-1) true false (-10)
            (Some (PStr "Binance"))).
  split; [exact E |].
  assert (Hin : In (Scanner.mk_layer 2 (PStr "EXCHANGE_C") (-1) true false (-10)
                      (Some (PStr "Binance")))
                   (Scanner.chain
                      (Scanner.mk_trace 110
                         [Scanner.mk_layer 0 (PStr "DEPLOYER_A") 15 false false 30 None;
                          Scanner.mk_layer 1 (PStr "FUNDER_B") 64 false true 70 None;
                          Scanner.mk_layer 2 (PStr "EXCHANGE_C") (-1) true false (-10)
                            (Some (PStr "Binance"))]
                         "Found Trusted Entity: Binance"))).
  { right. right. left. reflexivity. }
  split; [exact Hin |]. split; [reflexivity |].
  exact (trusted_entity_has_keyword Fixtures.runtime Fixtures.provider Fixtures.scanner
           Hkeywords (PStr "DEPLOYER_A") 3 Fixtures.start _ _ _ E Hin eq_refl).
Defined.

(** ** [get_true_age_via_history] *)

Section History.
Context {W : Type} (rt : Runtime) (pv : Provider W) (self : SolanaTokenScanner).

(** X16: [get_true_age_via_history] on the address [a] asks for
    [/history/address/a], and whatever the records of the history look
    like, it does not raise: the [try] block absorbs every error of
    sorting and parsing, and the result is then [None].  The one
    exception that escapes is the [AttributeError] of a document that
    is neither empty nor a dict. *)
Theorem history_errors_absorbed a (s : state W) r s' :
  Scanner1.get_true_age_via_history rt pv self (PStr a) s = (r, s') ->
  exists data,
    _get pv self ("/history/address/" ++ a) (Some [("chain", PStr "solana")]) s
      = (Ok data, s') /\
    match r with
    | Ok _ => truthy data = false \/ exists kvs, data = PDict kvs
    | Raise e => e = AttributeError /\ truthy data = true /\
                 forall kvs, data <> PDict kvs
    end.
Proof.
  unfold Scanner1.get_true_age_via_history. cbv zeta. cbn [concat].
  unfold bind at 1. unfold lift at 1. unfold bind at 1.
  destruct (get_attempts_repeats pv 3
              (mk_request (base_url self ++ "/history/address/" ++ a) (self_headers self)
                 (Some [("chain", PStr "solana")])) s)
    as (data & s1 & k & Hget & _).
  fold (_get pv self ("/history/address/" ++ a) (Some [("chain", PStr "solana")]))
    in Hget.
  rewrite Hget. intros H. exists data.
  destruct (truthy data) eqn:Ht; cbn [negb] in H.
  2:{ inversion H; subst. split; [reflexivity |]. left. reflexivity. }
  destruct data as [| b | n | str | l | kvs];
    try (inversion H; subst; split; [reflexivity |];
         split; [reflexivity | split; [reflexivity | intros kvs; discriminate]]).
  unfold bind, lift, get in H. cbn [get_default] in H.
  destruct (match lookup "solana" kvs with Some v => v | None => PNone end)
    as [| | | | [| record records] |];
    try (inversion H; subst; split; [reflexivity |]; right; eexists; reflexivity).
  destruct (Scanner1.first_history_time rt (record :: records));
    inversion H; subst; (split; [reflexivity |]); right; eexists; reflexivity.
Qed.

End History.

(** A history of numbers: sorting it raises inside the [try] block,
    and the method returns [None]. *)
Lemma history_errors_absorbed_witness :
  exists s',
    Scanner1.get_true_age_via_history Fixtures.runtime
      (Samples.serving Samples.unreadable_history) Fixtures.scanner1 (PStr "W")
      Fixtures.start = (Ok None, s') /\
    _get (Samples.serving Samples.unreadable_history) Fixtures.scanner1
      ("/history/address/" ++ "W") (Some [("chain", PStr "solana")]) Fixtures.start
      = (Ok Samples.unreadable_history, s').
Proof.
  evaluate (Scanner1.get_true_age_via_history Fixtures.runtime
              (Samples.serving Samples.unreadable_history) Fixtures.scanner1 (PStr "W")
              Fixtures.start) E.
  eexists. split; [exact E |].
  destruct (history_errors_absorbed Fixtures.runtime
              (Samples.serving Samples.unreadable_history) Fixtures.scanner1
              "W" Fixtures.start _ _ E) as (data & Hget & _).
  rewrite Hget. vm_compute in Hget. inversion Hget. reflexivity.
Defined.

(** ** A transfer without sender *)

Lemma rbind_raises {A B} (r : result A) (k : A -> result B) :
  (forall a, r = Ok a -> exists e, k a = Raise e) ->
  exists e, rbind r k = Raise e.
Proof.
  intros Hk. destruct r as [a | e]; simpl.
  - exact (Hk a eq_refl).
  - exists e. reflexivity.
Qed.

Section Sender.
Context (rt : Runtime).

(** X17: when the earliest dated transfer of a wallet holds [null] as
    its sender (a mint), [get_address_details] of [Scanner.py] raises:
    it reads the sender a second time, without the guard of the first
    reading.  [scanner1.py] reads it once: the record it returns has no
    funder. *)
Theorem null_sender a tx_list first_tx :
  ReportSpec.earliest_dated tx_list first_tx ->
  get_default first_tx "fromAddress" (PDict []) = Ok PNone ->
  (exists e, Scanner.details_of_transfers rt a tx_list = Raise e) /\
  (forall d, Scanner1.details_of_transfers rt a tx_list = Ok d ->
             Scanner1.funder d = PNone /\ Scanner1.funder_entity d = PNone).
Proof.
  intros (txs & valid_txs & sorted_txs & Hiter & Hvalid & Hsorted & Hfirst) Hnull.
  assert (Hget : get first_tx "fromAddress" = Ok PNone).
  { unfold get. destruct first_tx as [| | | | | kvs]; try discriminate Hnull.
    cbn [get_default] in Hnull |- *.
    destruct (lookup "fromAddress" kvs); [exact Hnull | reflexivity]. }
  assert (Hsome : exists t rest, valid_txs = t :: rest).
  { destruct valid_txs as [| t rest]; [| exists t, rest; reflexivity].
    cbn in Hsorted. inversion Hsorted; subst. discriminate Hfirst. }
  destruct Hsome as (t & rest & ->).
  split.
  - unfold Scanner.details_of_transfers.
    rewrite Hiter. cbn [rbind]. rewrite Hvalid. cbn [rbind].
    rewrite Hsorted. cbn [rbind]. rewrite Hfirst. cbn [rbind].
    apply rbind_raises. intros ts _.
    apply rbind_raises. intros creation_time _.
    rewrite Hget. cbn [rbind].
    apply rbind_raises. intros to_data _.
    apply rbind_raises. intros from_addr _.
    apply rbind_raises. intros to_addr _.
    rewrite Hnull. cbn [rbind get get_default].
    exists AttributeError. reflexivity.
  - intros d H. unfold Scanner1.details_of_transfers in H.
    rewrite Hiter in H. cbn [rbind] in H. rewrite Hvalid in H. cbn [rbind] in H.
    rewrite Hsorted in H. cbn [rbind] in H. rewrite Hfirst in H. cbn [rbind] in H.
    apply rbind_ok in H. destruct H as (ts & _ & H).
    apply rbind_ok in H. destruct H as (creation_time & _ & H).
    rewrite Hget in H. cbn [rbind py_or truthy] in H.
    apply rbind_ok in H. destruct H as (to_data & _ & H).
    apply rbind_ok in H. destruct H as (from_entity & _ & H).
    apply rbind_ok in H. destruct H as (from_label & _ & H).
    apply rbind_ok in H. destruct H as (entity_str & _ & H).
    apply rbind_ok in H. destruct H as (entity_str' & _ & H).
    cbn [rbind get get_default lookup] in H.
    apply rbind_ok in H. destruct H as (to_addr & _ & H).
    cbn [truthy] in H. rewrite andb_false_r in H.
    destruct (py_eq PNone a);
      apply rbind_ok in H; destruct H as (n & _ & H);
      inversion H; subst d; split; reflexivity.
Qed.

End Sender.

(** A wallet whose only transfer is a mint. *)
Lemma null_sender_witness :
  Scanner.details_of_transfers Fixtures.runtime (PStr "W") (Samples.minted_to "W")
    = Raise AttributeError /\
  exists d,
    Scanner1.details_of_transfers Fixtures.runtime (PStr "W") (Samples.minted_to "W")
      = Ok d /\
    Scanner1.funder d = PNone /\ Scanner1.funder_entity d = PNone.
Proof.
  split; [reflexivity |].
  assert (E : Scanner1.details_of_transfers Fixtures.runtime (PStr "W")
                (Samples.minted_to "W")
              = Ok (Scanner1.mk_details (PStr "W")
                      (Some (mk_datetime 1735689600000000 (Some 0))) PNone PNone 1))
    by (vm_compute; reflexivity).
  eexists. split; [exact E |].
  apply (null_sender Fixtures.runtime (PStr "W") (Samples.minted_to "W")
           (PDict [("blockTimestamp", PStr "2025-01-01T00:00:00Z");
                   ("fromAddress", PNone);
                   ("toAddress", Fixtures.addr "W")])).
  - eexists. eexists. eexists.
    split; [reflexivity |]. split; [reflexivity |]. split; reflexivity.
  - reflexivity.
  - exact E.
Defined.

End Coverage.
